(** * ERWIQ Airlines support agent: a shallow embedding of the orchestration
      core (app.py, tools.py, knowledge_base.py, utils.py, config.py) and the
      properties of its fallback, tool-calling, retrieval and logging paths. *)

From Stdlib Require Import ZArith QArith Qround Lqa Ascii String List Lia Permutation Sorted.
From stdpp Require Import base option list strings gmap pretty.

Local Open Scope string_scope.
Local Open Scope Z_scope.
Local Open Scope list_scope.

(** ** Python values, exceptions and results *)

Module Py.

(** Exceptions.  [Exception] is an exception built with an explicit text
    ([raise Exception("...")] in the source, or an error of a remote API whose
    text the remote side chooses); the others are raised by the interpreter or
    by the json module. *)
Inductive exn : Type :=
  | Exception (text : string)
  | JSONDecodeError (msg : string) (pos : nat)
  | TypeError (what : string)
  | AttributeError (what : string)
  | KeyError (key : string)
  | FileNotFoundError (path : string)
  | ValueError (what : string)
  | RecursionError (what : string).

Inductive result (A : Type) : Type :=
  | Ok (a : A)
  | Raise (e : exn).
Arguments Ok {A} a.
Arguments Raise {A} e.

Definition is_ok {A} (r : result A) : bool :=
  match r with Ok _ => true | Raise _ => false end.

(** Two limits of the interpreter that [json.loads] can meet: the longest
    decimal integer that [int] converts ([sys.get_int_max_str_digits()]: 4300
    unless it was set, 0 when there is no limit), and the number of nested
    calls that the interpreter still allows when the decoder is entered. *)
Class Interpreter : Type := {
  int_max_str_digits : nat;
  recursion_budget : nat
}.

Definition dquote : ascii := "034"%char.

(** Python strings are kept as their UTF-8 bytes.  [len] counts code points:
    every byte that is not a continuation byte (10xxxxxx) starts one. *)
Definition is_continuation (c : ascii) : bool :=
  let n := nat_of_ascii c in (128 <=? n)%nat && (n <? 192)%nat.

Fixpoint len (s : string) : nat :=
  match s with
  | EmptyString => O
  | String c rest => if is_continuation c then len rest else S (len rest)
  end.

Fixpoint drop_continuation (s : string) : string :=
  match s with
  | EmptyString => EmptyString
  | String c rest => if is_continuation c then drop_continuation rest else s
  end.

Fixpoint take_continuation (s : string) : string :=
  match s with
  | EmptyString => EmptyString
  | String c rest =>
      if is_continuation c then String c (take_continuation rest) else EmptyString
  end.

(** [s[:n]]: the first [n] code points. *)
Fixpoint slice_to (n : nat) (s : string) : string :=
  match n, s with
  | O, _ => EmptyString
  | _, EmptyString => EmptyString
  | S k, String c rest =>
      String c (take_continuation rest +:+ slice_to k (drop_continuation rest))
  end.

End Py.
Export Py.

(** ** The json module: values and [json.loads]

    The decoder follows the scanner of Python's json package
    (json/scanner.py, json/decoder.py): leading and trailing white space,
    objects, arrays, strings with escapes, numbers, the three literals and the
    non-finite constants [NaN], [Infinity], [-Infinity].  Floats are kept as
    the exact rational their lexeme denotes.  An integer with more digits than
    [int] converts makes the decoder raise ValueError, and a nesting of
    objects and arrays deeper than the interpreter allows makes it raise
    RecursionError. *)

Module Json.

Inductive nonfinite : Type := NaN | PosInfinity | NegInfinity.

#[warnings="-register-all"]
Inductive json : Type :=
  | JNull
  | JBool (b : bool)
  | JInt (n : Z)
  | JFloat (q : Q)
  | JNonFinite (x : nonfinite)
  | JStr (s : string)
  | JArr (items : list json)
  | JObj (pairs : list (string * json)).

(** A Python float as the result of a computation: a number, kept as a
    rational, or one of the three values that are no number. *)
Inductive pyfloat : Type :=
  | Finite (q : Q)
  | NonFinite (x : nonfinite).

Coercion Finite : Q >-> pyfloat.

Definition is_nan (x : pyfloat) : bool :=
  match x with
  | NonFinite NaN => true
  | _ => false
  end.

(** [a <= b] on floats: every comparison with NaN is false. *)
Definition float_le (a b : pyfloat) : bool :=
  match a, b with
  | NonFinite NaN, _ | _, NonFinite NaN => false
  | NonFinite NegInfinity, _ => true
  | _, NonFinite PosInfinity => true
  | Finite x, Finite y => Qle_bool x y
  | _, _ => false
  end.

(** [a < b] and [a == b] *)
Definition float_lt (a b : pyfloat) : bool := float_le a b && negb (float_le b a).
Definition float_eqb (a b : pyfloat) : bool := float_le a b && float_le b a.

(** A Python dict built from a list of pairs: a repeated key keeps its first
    position and takes the last value. *)
Fixpoint dict_set {A} (k : string) (v : A) (d : list (string * A)) : list (string * A) :=
  match d with
  | [] => [(k, v)]
  | (k', v') :: d' =>
      if String.eqb k k' then (k, v) :: d' else (k', v') :: dict_set k v d'
  end.

Fixpoint dict_get {A} (k : string) (d : list (string * A)) : option A :=
  match d with
  | [] => None
  | (k', v) :: d' => if String.eqb k k' then Some v else dict_get k d'
  end.

Definition dict_of_pairs {A} (pairs : list (string * A)) : list (string * A) :=
  fold_left (fun d kv => dict_set (fst kv) (snd kv) d) pairs [].

Definition dict_keys {A} (d : list (string * A)) : list string := map fst d.

(** Outcome of a scanning function: a value and the unread rest, an error
    of the syntax with the unread rest at the place it is reported, an
    exception of the interpreter that ends the decoding, or [Exhausted] when
    the budget of the model ran out ([JsonFacts.loads_total] shows that this
    never happens from [loads]). *)
Inductive scan (A : Type) : Type :=
  | Scanned (a : A) (rest : string)
  | Failed (msg : string) (at_rest : string)
  | Refused (e : exn)
  | Exhausted.
Arguments Scanned {A} a rest.
Arguments Failed {A} msg at_rest.
Arguments Refused {A} e.
Arguments Exhausted {A}.

Definition is_ws (c : ascii) : bool :=
  match nat_of_ascii c with
  | 32%nat | 9%nat | 10%nat | 13%nat => true
  | _ => false
  end.

Fixpoint skip_ws (s : string) : string :=
  match s with
  | String c rest => if is_ws c then skip_ws rest else s
  | EmptyString => s
  end.

Definition is_digit (c : ascii) : bool :=
  let n := nat_of_ascii c in (48 <=? n)%nat && (n <=? 57)%nat.

Definition digit_val (c : ascii) : Z := Z.of_nat (nat_of_ascii c) - 48.

Definition hex_val (c : ascii) : option Z :=
  let n := Z.of_nat (nat_of_ascii c) in
  if (48 <=? n) && (n <=? 57) then Some (n - 48)
  else if (65 <=? n) && (n <=? 70) then Some (n - 55)
  else if (97 <=? n) && (n <=? 102) then Some (n - 87)
  else None.

(** [_decode_uXXXX]: four hexadecimal digits. *)
Definition decode_uXXXX (s : string) : option Z :=
  match s with
  | String a (String b (String c (String d _))) =>
      match hex_val a, hex_val b, hex_val c, hex_val d with
      | Some x, Some y, Some z, Some w => Some (((x * 16 + y) * 16 + z) * 16 + w)
      | _, _, _, _ => None
      end
  | _ => None
  end.

Definition byte (n : Z) : ascii := ascii_of_nat (Z.to_nat n).

(** [chr(uni)] as UTF-8 bytes (a lone surrogate is written with the same
    three-byte pattern). *)
Definition chr (u : Z) : string :=
  if u <? 128 then String (byte u) EmptyString
  else if u <? 2048 then
    String (byte (192 + u / 64)) (String (byte (128 + u mod 64)) EmptyString)
  else if u <? 65536 then
    String (byte (224 + u / 4096))
      (String (byte (128 + (u / 64) mod 64))
         (String (byte (128 + u mod 64)) EmptyString))
  else
    String (byte (240 + u / 262144))
      (String (byte (128 + (u / 4096) mod 64))
         (String (byte (128 + (u / 64) mod 64))
            (String (byte (128 + u mod 64)) EmptyString))).

(** The [BACKSLASH] table of the decoder. *)
Definition backslash (e : ascii) : option ascii :=
  match nat_of_ascii e with
  | 34%nat => Some dquote
  | 92%nat => Some "\"%char
  | 47%nat => Some "/"%char
  | 98%nat => Some "008"%char
  | 102%nat => Some "012"%char
  | 110%nat => Some "010"%char
  | 114%nat => Some "013"%char
  | 116%nat => Some "009"%char
  | _ => None
  end.

Fixpoint drop_chars (n : nat) (s : string) : string :=
  match n, s with
  | O, _ => s
  | S k, String _ rest => drop_chars k rest
  | S _, EmptyString => EmptyString
  end.

Definition starts_with (p s : string) : bool := String.prefix p s.

(** [scanstring], entered after the opening quote.  [skip] counts characters
    of an escape that were already decoded by looking ahead. *)
Fixpoint scanstring (skip : nat) (acc : string) (s : string) : scan string :=
  match s with
  | EmptyString => Failed "Unterminated string starting at" s
  | String c rest =>
      match skip with
      | S k => scanstring k acc rest
      | O =>
          if Ascii.eqb c dquote then Scanned acc rest
          else if Ascii.eqb c "\"%char then
            match rest with
            | EmptyString => Failed "Unterminated string starting at" s
            | String e rest' =>
                if Ascii.eqb e "u"%char then
                  match decode_uXXXX rest' with
                  | None => Failed "Invalid \uXXXX escape" s
                  | Some uni =>
                      if (55296 <=? uni) && (uni <=? 56319)
                         && starts_with "\u" (drop_chars 4 rest') then
                        match decode_uXXXX (drop_chars 6 rest') with
                        | None => Failed "Invalid \uXXXX escape" (drop_chars 5 rest)
                        | Some uni2 =>
                            if (56320 <=? uni2) && (uni2 <=? 57343) then
                              scanstring 11
                                (acc +:+ chr (65536 + ((uni - 55296) * 1024 + (uni2 - 56320))))
                                rest
                            else scanstring 5 (acc +:+ chr uni) rest
                        end
                      else scanstring 5 (acc +:+ chr uni) rest
                  end
                else
                  match backslash e with
                  | Some ch => scanstring 1 (acc +:+ String ch EmptyString) rest
                  | None => Failed "Invalid \escape: " s
                  end
            end
          else if (nat_of_ascii c <? 32)%nat then Failed "Invalid control character at" s
          else scanstring 0 (acc +:+ String c EmptyString) rest
      end
  end.

(** Numbers, as [NUMBER_RE] matches them: an optional minus sign, then 0 or a
    non-zero digit and any digits; optionally a dot and one or more digits;
    optionally e or E, an optional sign and one or more digits. *)
Fixpoint digits (s : string) : list ascii :=
  match s with
  | String c rest => if is_digit c then c :: digits rest else []
  | EmptyString => []
  end.

Definition digits_val (ds : list ascii) : Z :=
  fold_left (fun acc c => acc * 10 + digit_val c) ds 0.

Definition int_digits (s : string) : list ascii :=
  match s with
  | String c rest =>
      if Ascii.eqb c "0"%char then [c]
      else if is_digit c then c :: digits rest
      else []
  | EmptyString => []
  end.

Definition frac_digits (s : string) : list ascii :=
  match s with
  | String c rest => if Ascii.eqb c "."%char then digits rest else []
  | EmptyString => []
  end.

(** The exponent group: sign, digits, and the number of characters it spans
    (0 when the group does not match). *)
Definition exp_part (s : string) : option (bool * list ascii * nat) :=
  match s with
  | String c rest =>
      if Ascii.eqb c "e"%char || Ascii.eqb c "E"%char then
        match rest with
        | String sg rest' =>
            if Ascii.eqb sg "-"%char || Ascii.eqb sg "+"%char then
              match digits rest' with
              | [] => None
              | ds => Some (Ascii.eqb sg "-"%char, ds, (2 + length ds)%nat)
              end
            else
              match digits rest with
              | [] => None
              | ds => Some (false, ds, (1 + length ds)%nat)
              end
        | EmptyString => None
        end
      else None
  | EmptyString => None
  end.

Definition float_value (neg : bool) (ip fp : list ascii) (ex : option (bool * list ascii * nat)) : Q :=
  let mant := digits_val (ip ++ fp) in
  let m := if neg then - mant else mant in
  let scale := Z.of_nat (length fp) in
  let e := match ex with
           | Some (eneg, eds, _) => if eneg then - digits_val eds else digits_val eds
           | None => 0
           end in
  let p := e - scale in
  if 0 <=? p then inject_Z (m * 10 ^ p) else (m # Z.to_pos (10 ^ (- p))).

Definition match_number (s : string) : option (json * string) :=
  let '(neg, body) :=
    match s with
    | String c rest => if Ascii.eqb c "-"%char then (true, rest) else (false, s)
    | EmptyString => (false, s)
    end in
  match int_digits body with
  | [] => None
  | ip =>
      let after_int := drop_chars (length ip) body in
      let fp := frac_digits after_int in
      let after_frac :=
        match fp with [] => after_int | _ => drop_chars (S (length fp)) after_int end in
      let ex := exp_part after_frac in
      let rest :=
        match ex with Some (_, _, n) => drop_chars n after_frac | None => after_frac end in
      match fp, ex with
      | [], None => Some (JInt (if neg then - digits_val ip else digits_val ip), rest)
      | _, _ => Some (JFloat (float_value neg ip fp ex), rest)
      end
  end.

Section WithInterpreter.
Context `{IN : Interpreter}.

(** [int(lexeme)] refuses a lexeme with more digits than the limit; the sign
    does not count. *)
Definition int_too_long (s : string) : bool :=
  let body :=
    match s with
    | String c rest => if Ascii.eqb c "-"%char then rest else s
    | EmptyString => s
    end in
  (0 <? int_max_str_digits)%nat && (int_max_str_digits <? length (int_digits body))%nat.

(** [scan_once], with [JSONObject] and [JSONArray] as its two loops.  [depth]
    is the number of nested objects and arrays that may still be entered. *)
Fixpoint scan_once (fuel depth : nat) (s : string) : scan json :=
  match fuel with
  | O => Exhausted
  | S fuel' =>
      match s with
      | EmptyString => Failed "Expecting value" s
      | String c rest =>
          if Ascii.eqb c dquote then
            match scanstring 0 EmptyString rest with
            | Scanned str rest' => Scanned (JStr str) rest'
            | Failed m r => Failed m r
            | Refused e => Refused e
            | Exhausted => Exhausted
            end
          else if Ascii.eqb c "{"%char then
            match depth with
            | O =>
                Refused (RecursionError
                           "maximum recursion depth exceeded while decoding a JSON object from a unicode string")
            | S depth' =>
                let body := skip_ws rest in
                match body with
                | String c' rest' =>
                    if Ascii.eqb c' "}"%char then Scanned (JObj []) rest'
                    else if Ascii.eqb c' dquote then scan_members fuel' depth' [] rest'
                    else Failed "Expecting property name enclosed in double quotes" body
                | EmptyString =>
                    Failed "Expecting property name enclosed in double quotes" body
                end
            end
          else if Ascii.eqb c "["%char then
            match depth with
            | O =>
                Refused (RecursionError
                           "maximum recursion depth exceeded while decoding a JSON array from a unicode string")
            | S depth' =>
                let body := skip_ws rest in
                match body with
                | String c' rest' =>
                    if Ascii.eqb c' "]"%char then Scanned (JArr []) rest'
                    else scan_items fuel' depth' [] body
                | EmptyString => Failed "Expecting value" body
                end
            end
          else if starts_with "null" s then Scanned JNull (drop_chars 4 s)
          else if starts_with "true" s then Scanned (JBool true) (drop_chars 4 s)
          else if starts_with "false" s then Scanned (JBool false) (drop_chars 5 s)
          else
            match match_number s with
            | Some (v, rest') =>
                match v with
                | JInt _ =>
                    if int_too_long s then
                      Refused (ValueError
                                 "Exceeds the limit for integer string conversion")
                    else Scanned v rest'
                | _ => Scanned v rest'
                end
            | None =>
                if starts_with "NaN" s then Scanned (JNonFinite NaN) (drop_chars 3 s)
                else if starts_with "Infinity" s then
                  Scanned (JNonFinite PosInfinity) (drop_chars 8 s)
                else if starts_with "-Infinity" s then
                  Scanned (JNonFinite NegInfinity) (drop_chars 9 s)
                else Failed "Expecting value" s
            end
      end
  end

(** The loop of [JSONArray]; [s] starts at a value. *)
with scan_items (fuel depth : nat) (acc : list json) (s : string) : scan json :=
  match fuel with
  | O => Exhausted
  | S fuel' =>
      match scan_once fuel' depth s with
      | Scanned v rest =>
          let after := skip_ws rest in
          match after with
          | String c rest' =>
              if Ascii.eqb c "]"%char then Scanned (JArr (acc ++ [v])) rest'
              else if Ascii.eqb c ","%char then
                scan_items fuel' depth (acc ++ [v]) (skip_ws rest')
              else Failed "Expecting ',' delimiter" after
          | EmptyString => Failed "Expecting ',' delimiter" after
          end
      | Failed m r => Failed m r
      | Refused e => Refused e
      | Exhausted => Exhausted
      end
  end

(** The loop of [JSONObject]; [s] starts just after the quote opening a key. *)
with scan_members (fuel depth : nat) (acc : list (string * json)) (s : string) : scan json :=
  match fuel with
  | O => Exhausted
  | S fuel' =>
      match scanstring 0 EmptyString s with
      | Scanned key rest =>
          let at_colon := skip_ws rest in
          match at_colon with
          | String c rest' =>
              if Ascii.eqb c ":"%char then
                match scan_once fuel' depth (skip_ws rest') with
                | Scanned v rest'' =>
                    let after := skip_ws rest'' in
                    match after with
                    | String d rest3 =>
                        if Ascii.eqb d "}"%char then
                          Scanned (JObj (dict_of_pairs (acc ++ [(key, v)]))) rest3
                        else if Ascii.eqb d ","%char then
                          let nxt := skip_ws rest3 in
                          match nxt with
                          | String q rest4 =>
                              if Ascii.eqb q dquote then
                                scan_members fuel' depth (acc ++ [(key, v)]) rest4
                              else
                                Failed "Expecting property name enclosed in double quotes" nxt
                          | EmptyString =>
                              Failed "Expecting property name enclosed in double quotes" nxt
                          end
                        else Failed "Expecting ',' delimiter" after
                    | EmptyString => Failed "Expecting ',' delimiter" after
                    end
                | Failed m r => Failed m r
                | Refused e => Refused e
                | Exhausted => Exhausted
                end
              else Failed "Expecting ':' delimiter" at_colon
          | EmptyString => Failed "Expecting ':' delimiter" at_colon
          end
      | Failed m r => Failed m r
      | Refused e => Refused e
      | Exhausted => Exhausted
      end
  end.

(** [json.loads(s)] / [JSONDecoder.decode]: one value between optional white
    space, anything after it is "Extra data". *)
Definition loads (s : string) : result json :=
  let start := skip_ws s in
  match scan_once (S (2 * String.length start)) recursion_budget start with
  | Scanned v rest =>
      let rest' := skip_ws rest in
      match rest' with
      | EmptyString => Ok v
      | _ => Raise (JSONDecodeError "Extra data" (String.length s - String.length rest'))
      end
  | Failed m r => Raise (JSONDecodeError m (String.length s - String.length r))
  | Refused e => Raise e
  | Exhausted => Raise (Exception "maximum recursion depth exceeded")
  end.

End WithInterpreter.

End Json.
Export Json.

(** ** What lies outside the source

    [PyRuntime] gathers the functions of the Python runtime and of numpy whose
    results depend on Unicode tables, on the printing of non-string values or
    on floating-point arithmetic; the development holds for every
    implementation of them.  [World] gathers the remote services, the clock
    and the random source; each is asked with the number of external
    interactions made so far, so a service may answer differently every time. *)

Module Runtime.

Class PyRuntime : Type := {
  str_lower : string -> string;
  str_upper : string -> string;
  str_strip : string -> string;
  str_title : string -> string;
  (** [str(v)] of a value that is not a string, as an f-string prints it *)
  format_value : json -> string;
  (** [str(e)] of an exception raised by the interpreter or a library *)
  interpreter_text : exn -> string;
  (** [float(np.dot(v1, v2) / (np.linalg.norm(v1) * np.linalg.norm(v2)))]:
      a number, or NaN or an infinity (the quotient of a vector of norm zero
      is NaN, numpy warns and goes on) *)
  np_cosine : list Q -> json -> result pyfloat;
  (** where [list.sort(key=..., reverse=True)] leaves the entries of a list
      whose keys, in the order of the list, are the given floats with a NaN
      among them: the positions, in the list as it was, of the entries of the
      list as it is left.  The comparisons with NaN describe no order, and
      what the sort makes of them depends on its algorithm. *)
  sort_order_with_nan : list pyfloat -> list nat
}.

(** [str(e)] *)
Definition str_exn `{PyRuntime} (e : exn) : string :=
  match e with
  | Exception text => text
  | _ => interpreter_text e
  end.

(** A value inside an f-string. *)
Definition fmt `{PyRuntime} (v : json) : string :=
  match v with
  | JStr s => s
  | _ => format_value v
  end.

End Runtime.
Export Runtime.

(** ** Conversations and requests (app.py) *)

Module Chat.

(** [{"role": ..., "content": ...}] *)
Record turn : Type := Turn { role : string; content : string }.

Record tool_call : Type := ToolCall {
  tc_id : string;
  tc_name : string;        (* tool_call.function.name *)
  tc_arguments : string    (* tool_call.function.arguments *)
}.

(** [response.choices[0].message] *)
Record response_message : Type := ResponseMessage {
  rm_content : option string;
  rm_tool_calls : option (list tool_call)
}.

(** An element of the [messages] list. *)
Inductive message : Type :=
  | MTurn (t : turn)
  | MAssistant (m : response_message)
  | MTool (tool_call_id : string) (result_text : string).

(** [response.choices[0]] *)
Record completion : Type := Completion {
  finish_reason : string;
  choice_message : response_message
}.

(** A tool descriptor: [{"type": "function", "function": {...}}]. *)
Record property : Type := Property {
  p_name : string;
  p_enum : option (list string);
  p_description : string
}.

Record descriptor : Type := Descriptor {
  d_name : string;
  d_description : string;
  d_properties : list property;
  d_required : list string
}.

(** One call of [openai_client.chat.completions.create]. *)
Record chat_request : Type := ChatRequest {
  req_model : string;
  req_messages : list message;
  req_tools : option (list descriptor)
}.

(** One call of [claude_client.messages.create]. *)
Record claude_request : Type := ClaudeRequest {
  cl_model : string;
  cl_max_tokens : Z;
  cl_system : string;
  cl_messages : list turn
}.

End Chat.
Export Chat.

(** ** Records of utils.py *)

Module Records.

Record log_entry : Type := LogEntry {
  le_timestamp : string;
  le_user_message : string;
  le_assistant_response : string;
  le_tools_used : list string;
  le_model : string;
  le_response_time_ms : Q;
  le_error : option string
}.

Record notification : Type := Notification {
  n_timestamp : string;
  n_title : string;
  n_message : option string;
  n_level : string
}.

Record analytics : Type := Analytics {
  total_queries : nat;
  tool_calls : gmap string nat;
  model_usage : gmap string nat;
  errors : nat;
  avg_response_time : Q;
  response_times : list Q
}.

Record refund : Type := Refund {
  rf_pnr : string;
  rf_reason : json;
  rf_amount : Z;
  rf_status : string
}.

End Records.
Export Records.

Module Env.

Class World : Type := {
  (** [claude_client] is not [None] (ANTHROPIC_API_KEY was set) *)
  claude_client : bool;
  (** GOOGLE_API_KEY is set and not empty *)
  GOOGLE_API_KEY : bool;
  (** [openai_client.chat.completions.create(...).choices[0]] *)
  chat_completions_create : nat -> chat_request -> result completion;
  (** [claude_client.messages.create(...).content[0].text] *)
  claude_messages_create : nat -> claude_request -> result string;
  (** [GenerativeModel(...).generate_content(prompt).text] *)
  gemini_generate_content : nat -> string -> result string;
  (** [openai_client.embeddings.create(...).data[0].embedding] *)
  embeddings_create : nat -> json -> result (list Q);
  (** the decoded image of [openai_client.images.generate(...)] *)
  images_generate : nat -> string -> result string;
  (** [time.time()] *)
  time_time : nat -> Q;
  (** [datetime.now().isoformat()] *)
  datetime_now : nat -> string;
  (** [open(path, 'wb')] and the write that follows *)
  write_file : nat -> string -> result unit;
  (** [random.randint(100000, 999999)] *)
  random_randint : nat -> Z;
  (** whether a registered notification callback raises on a notification *)
  callback_raises : nat -> notification -> bool
}.

(** The mutable globals of the modules, the files, and what was sent out. *)
Record state : Type := State {
  knowledge_base : json;                    (* knowledge_base.knowledge_base *)
  refund_requests : gmap string refund;     (* tools.refund_requests *)
  audit_logs : list log_entry;              (* utils.audit_logs *)
  analytics_data : analytics;               (* utils.analytics_data *)
  notification_callbacks : list nat;        (* utils.notification_callbacks *)
  files : gmap string string;               (* the file system *)
  sent_requests : list chat_request;        (* chat completions asked so far *)
  sent_notifications : list notification;   (* one per send_notification *)
  delivered : list (nat * notification);    (* callbacks that ran to the end *)
  tick : nat                                (* external interactions so far *)
}.

Definition set_knowledge_base (kb : json) (s : state) : state :=
  State kb (refund_requests s) (audit_logs s) (analytics_data s)
    (notification_callbacks s) (files s) (sent_requests s)
    (sent_notifications s) (delivered s) (tick s).

Definition set_refund_requests (r : gmap string refund) (s : state) : state :=
  State (knowledge_base s) r (audit_logs s) (analytics_data s)
    (notification_callbacks s) (files s) (sent_requests s)
    (sent_notifications s) (delivered s) (tick s).

Definition set_audit_logs (l : list log_entry) (s : state) : state :=
  State (knowledge_base s) (refund_requests s) l (analytics_data s)
    (notification_callbacks s) (files s) (sent_requests s)
    (sent_notifications s) (delivered s) (tick s).

Definition set_analytics_data (a : analytics) (s : state) : state :=
  State (knowledge_base s) (refund_requests s) (audit_logs s) a
    (notification_callbacks s) (files s) (sent_requests s)
    (sent_notifications s) (delivered s) (tick s).

Definition set_files (f : gmap string string) (s : state) : state :=
  State (knowledge_base s) (refund_requests s) (audit_logs s) (analytics_data s)
    (notification_callbacks s) f (sent_requests s)
    (sent_notifications s) (delivered s) (tick s).

Definition set_sent_requests (r : list chat_request) (s : state) : state :=
  State (knowledge_base s) (refund_requests s) (audit_logs s) (analytics_data s)
    (notification_callbacks s) (files s) r
    (sent_notifications s) (delivered s) (tick s).

Definition set_sent_notifications (n : list notification) (s : state) : state :=
  State (knowledge_base s) (refund_requests s) (audit_logs s) (analytics_data s)
    (notification_callbacks s) (files s) (sent_requests s)
    n (delivered s) (tick s).

Definition set_delivered (d : list (nat * notification)) (s : state) : state :=
  State (knowledge_base s) (refund_requests s) (audit_logs s) (analytics_data s)
    (notification_callbacks s) (files s) (sent_requests s)
    (sent_notifications s) d (tick s).

Definition set_tick (n : nat) (s : state) : state :=
  State (knowledge_base s) (refund_requests s) (audit_logs s) (analytics_data s)
    (notification_callbacks s) (files s) (sent_requests s)
    (sent_notifications s) (delivered s) n.

(** Statements that may change the state and may raise; what was changed
    before an exception stays changed.  What the program prints is not part
    of the state, and a console that refuses a text is not modelled: the
    embedding follows the runs whose prints succeed. *)
Definition M (A : Type) : Type := state -> result A * state.

Definition ret {A} (a : A) : M A := fun s => (Ok a, s).
Definition raise {A} (e : exn) : M A := fun s => (Raise e, s).
Definition bind {A B} (m : M A) (k : A -> M B) : M B :=
  fun s =>
    match m s with
    | (Ok a, s') => k a s'
    | (Raise e, s') => (Raise e, s')
    end.
Definition lift {A} (r : result A) : M A := fun s => (r, s).
Definition get : M state := fun s => (Ok s, s).
Definition modify (f : state -> state) : M unit := fun s => (Ok tt, f s).

(** [try: m except Exception as e: h e] *)
Definition try_except {A} (m : M A) (h : exn -> M A) : M A :=
  fun s =>
    match m s with
    | (Ok a, s') => (Ok a, s')
    | (Raise e, s') => h e s'
    end.

(** One external interaction: read the counter and advance it. *)
Definition next_tick : M nat := fun s => (Ok (tick s), set_tick (S (tick s)) s).

Declare Scope py_scope.
Delimit Scope py_scope with py.
Notation "'do' x <- m ; k" := (bind m (fun x => k))
  (at level 10, x name, m at level 100, k at level 200) : py_scope.
Notation "'do' ' p <- m ; k" := (bind m (fun x => match x with p => k end))
  (at level 10, p pattern, m at level 100, k at level 200) : py_scope.
Notation "'run' m ; k" := (bind m (fun _ => k))
  (at level 10, m at level 100, k at level 200) : py_scope.

End Env.
Export Env.

(** ** config.py *)

Module Config.

Definition OPENAI_MODEL : string := "gpt-4o-mini".

Definition CLAUDE_MODEL : string := "claude-sonnet-4-20250514".

Definition GEMINI_MODEL : string := "gemini-2.0-flash".

Definition SYSTEM_MESSAGE : string :=
"You are a helpful and factual customer support assistant for **ERWIQ Airlines**.
ERWIQ Airlines was founded by **SANTHOSH KUMAR**.

Your responsibilities:
- Help customers with flight bookings, cancellations, and modifications
- Provide accurate information about airline policies and procedures
- Answer questions about baggage, check-in, refunds, and special services
- Handle refund and compensation requests

IMPORTANT: When customers ask about policies, rules, or procedures:
- Use the search_airline_policies tool to find accurate information
- Base your answers on the retrieved policy documents
- Don't make up policies - if information isn't found, say so

Guidelines:
- Keep responses helpful and accurate
- Quote specific rules and limits from policies when relevant
- For complex issues, offer to escalate to a human agent
- All prices are in Indian Rupees (₹)

Available tools:
- get_ticket_price: Check flight prices
- get_flight_status: Get flight status updates
- lookup_booking: Find booking details by PNR
- process_refund: Process refund requests
- get_destination_image: Generate destination images
- search_airline_policies: Search FAQs and policies
".

(** Ticket prices (in Rupees): city, then class. *)
Definition TICKET_PRICES : list (string * list (string * Z)) := [
  ("mumbai", [("economy", 4999); ("business", 12999); ("first", 24999)]);
  ("delhi", [("economy", 5499); ("business", 14999); ("first", 28999)]);
  ("bangalore", [("economy", 4499); ("business", 11999); ("first", 22999)]);
  ("chennai", [("economy", 4299); ("business", 10999); ("first", 21999)]);
  ("kolkata", [("economy", 5999); ("business", 15999); ("first", 29999)]);
  ("hyderabad", [("economy", 4599); ("business", 11499); ("first", 22499)]);
  ("ahmedabad", [("economy", 3999); ("business", 9999); ("first", 19999)]);
  ("pune", [("economy", 3499); ("business", 8999); ("first", 17999)]);
  ("jaipur", [("economy", 4199); ("business", 10499); ("first", 20999)]);
  ("goa", [("economy", 5499); ("business", 13999); ("first", 26999)]);
  ("kochi", [("economy", 4799); ("business", 12499); ("first", 23999)]);
  ("lucknow", [("economy", 3999); ("business", 9499); ("first", 18999)])
].

Record flight : Type := Flight {
  fl_route : string;
  fl_departure : string;
  fl_status : string
}.

Definition FLIGHTS_DB : list (string * flight) := [
  ("EQ101", Flight "Mumbai → Delhi" "06:00" "On Time");
  ("EQ202", Flight "Delhi → Bangalore" "09:30" "Delayed 30min");
  ("EQ303", Flight "Chennai → Kolkata" "14:15" "On Time");
  ("EQ404", Flight "Hyderabad → Mumbai" "18:45" "Cancelled");
  ("EQ505", Flight "Bangalore → Goa" "11:00" "Boarding");
  ("EQ606", Flight "Pune → Jaipur" "07:30" "On Time");
  ("EQ707", Flight "Kochi → Chennai" "16:00" "Delayed 1hr");
  ("EQ808", Flight "Ahmedabad → Lucknow" "20:30" "On Time")
].

Record booking : Type := Booking {
  bk_passenger : string;
  bk_flight : string;
  bk_route : string;
  bk_date : string;
  bk_class : string;
  bk_seat : string;
  bk_status : string;
  bk_meal : string
}.

Definition BOOKINGS_DB : list (string * booking) := [
  ("ABC123", Booking "Rahul Sharma" "EQ101" "Mumbai → Delhi" "2025-06-15" "Business" "2A" "Confirmed" "Vegetarian");
  ("XYZ789", Booking "Priya Patel" "EQ303" "Chennai → Kolkata" "2025-06-20" "Economy" "24F" "Confirmed" "Standard");
  ("DEF456", Booking "Amit Kumar" "EQ404" "Hyderabad → Mumbai" "2025-06-18" "First" "1A" "Cancelled - Refund Pending" "Jain");
  ("PQR999", Booking "Sneha Reddy" "EQ505" "Bangalore → Goa" "2025-06-22" "Economy" "15C" "Confirmed" "Non-Vegetarian");
  ("LMN555", Booking "Vikram Singh" "EQ606" "Pune → Jaipur" "2025-06-25" "Business" "4B" "Confirmed" "Vegetarian")
].

End Config.
Export Config.

(** ** tools.py *)

Module Tools.

Local Open Scope py_scope.

(** [needle in haystack] on strings *)
Fixpoint str_contains (needle haystack : string) : bool :=
  String.prefix needle haystack ||
  match haystack with
  | EmptyString => false
  | String _ rest => str_contains needle rest
  end.

(** [sep.join(items)] *)
Fixpoint str_join (sep : string) (items : list string) : string :=
  match items with
  | [] => EmptyString
  | [x] => x
  | x :: rest => x +:+ sep +:+ str_join sep rest
  end.

(** [s.replace(' ', '_')] *)
Fixpoint replace_space (s : string) : string :=
  match s with
  | EmptyString => EmptyString
  | String c rest =>
      String (if Ascii.eqb c " "%char then "_"%char else c) (replace_space rest)
  end.

(** [f"{n:,}"]: decimal digits in groups of three. *)
Fixpoint group3 (rev_digits : list ascii) : list ascii :=
  match rev_digits with
  | a :: b :: c :: ((_ :: _) as rest) => a :: b :: c :: ","%char :: group3 rest
  | _ => rev_digits
  end.

Definition format_grouped (n : Z) : string :=
  let ds := list_ascii_of_string (pretty (Z.abs n)) in
  let body := string_of_list_ascii (rev (group3 (rev ds))) in
  if n <? 0 then "-" +:+ body else body.

(** Tool definitions for OpenAI: every entry has type "function", every
    property has type "string", and additionalProperties is False. *)
Definition TOOLS : list descriptor := [
  Descriptor "get_ticket_price"
    "Get the price of a flight ticket to a destination city in India. Use this when a customer asks about ticket prices or how much it costs to fly somewhere."
    [
       Property "destination_city" None
         "The Indian city the customer wants to fly to (e.g., 'Mumbai', 'Delhi', 'Bangalore', 'Goa')";
       Property "travel_class" (Some ["economy"; "business"; "first"])
         "The travel class. Defaults to economy if not specified."
    ]
    ["destination_city"];
  Descriptor "get_flight_status"
    "Get the current status of an ERWIQ Airlines flight (on time, delayed, cancelled, boarding). Flight numbers start with 'EQ'."
    [
       Property "flight_number" None
         "The flight number (e.g., 'EQ101', 'EQ202')"
    ]
    ["flight_number"];
  Descriptor "lookup_booking"
    "Look up a booking using the PNR (booking reference). Use this when a customer wants to check their booking details."
    [
       Property "pnr" None
         "The 6-character booking reference (e.g., 'ABC123')"
    ]
    ["pnr"];
  Descriptor "process_refund"
    "Process a refund request for a cancelled or unwanted booking. Use this when a customer wants to cancel and get a refund."
    [
       Property "pnr" None
         "The booking reference to refund";
       Property "reason" None
         "The reason for the refund request"
    ]
    ["pnr"; "reason"];
  Descriptor "get_destination_image"
    "Generate a beautiful travel image of an Indian destination city. Use this when a customer wants to see what a destination looks like."
    [
       Property "city" None
         "The Indian city to generate an image for"
    ]
    ["city"]
].

Section WithRuntime.
Context `{IN : Interpreter} `{RT : PyRuntime} `{W : World}.

(** [value.method()] of a str method: any other value has no such attribute. *)
Definition str_method (f : string -> string) (name : string) (v : json) : result string :=
  match v with
  | JStr s => Ok (f s)
  | _ => Raise (AttributeError name)
  end.

(** Calling a function with [args] unpacked as keyword arguments, for the
    given keyword parameters
    (name and default): [args] must be a mapping, every key must name a
    parameter, and every parameter without default must be given. *)
Fixpoint bind_params (fname : string) (params : list (string * option json))
    (d : list (string * json)) : result (list json) :=
  match params with
  | [] => Ok []
  | (p, dflt) :: rest =>
      match match dict_get p d with Some v => Some v | None => dflt end with
      | None => Raise (TypeError (fname +:+ "() missing required argument: " +:+ p))
      | Some v =>
          match bind_params fname rest d with
          | Ok vs => Ok (v :: vs)
          | Raise e => Raise e
          end
      end
  end.

Definition call_kwargs (fname : string) (params : list (string * option json))
    (args : json) : result (list json) :=
  match args with
  | JObj d =>
      match List.filter (fun k => negb (bool_decide (k ∈ map fst params))) (dict_keys d) with
      | k :: _ => Raise (TypeError (fname +:+ "() got an unexpected keyword argument: " +:+ k))
      | [] => bind_params fname params d
      end
  | _ => Raise (TypeError (fname +:+ "() argument after ** must be a mapping"))
  end.

Definition get_ticket_price (destination_city travel_class : json) : result string :=
  match str_method (fun s => str_strip (str_lower s)) "lower" destination_city with
  | Raise e => Raise e
  | Ok city =>
      match str_method (fun s => str_strip (str_lower s)) "lower" travel_class with
      | Raise e => Raise e
      | Ok travel_class' =>
          match dict_get city TICKET_PRICES with
          | None =>
              let available := str_join ", " (dict_keys TICKET_PRICES) in
              Ok ("Sorry, we don't fly to " +:+ fmt destination_city
                  +:+ ". Available destinations: " +:+ available)
          | Some classes =>
              match dict_get travel_class' classes with
              | None => Ok "Invalid class. Choose from: economy, business, first"
              | Some price =>
                  match str_method str_title "title" destination_city with
                  | Raise e => Raise e
                  | Ok dest_title =>
                      Ok ("₹" +:+ format_grouped price +:+ " for "
                          +:+ str_title travel_class' +:+ " class to " +:+ dest_title)
                  end
              end
          end
      end
  end.

Definition get_flight_status (flight_number : json) : result string :=
  match str_method (fun s => str_strip (str_upper s)) "upper" flight_number with
  | Raise e => Raise e
  | Ok number =>
      match dict_get number FLIGHTS_DB with
      | None =>
          Ok ("Flight " +:+ number
              +:+ " not found. Please check the flight number. Our flights start with 'EQ' (e.g., EQ101, EQ202).")
      | Some flight =>
          Ok ("Flight " +:+ number +:+ " (" +:+ fl_route flight +:+ "): Departure "
              +:+ fl_departure flight +:+ ", Status: " +:+ fl_status flight)
      end
  end.

Definition lookup_booking (pnr : json) : result string :=
  match str_method (fun s => str_strip (str_upper s)) "upper" pnr with
  | Raise e => Raise e
  | Ok pnr' =>
      match dict_get pnr' BOOKINGS_DB with
      | None => Ok ("Booking " +:+ pnr' +:+ " not found. Please check your booking reference.")
      | Some booking =>
          Ok ("Booking " +:+ pnr' +:+ ":
- Passenger: " +:+ bk_passenger booking +:+ "
- Flight: " +:+ bk_flight booking +:+ " (" +:+ bk_route booking +:+ ")
- Date: " +:+ bk_date booking +:+ "
- Class: " +:+ bk_class booking +:+ ", Seat: " +:+ bk_seat booking +:+ "
- Status: " +:+ bk_status booking +:+ "
- Meal Preference: " +:+ bk_meal booking)
      end
  end.

(** [int(base_price * class_multiplier.get(cls, 1))] with
    [class_multiplier = {"Economy": 1, "Business": 2.5, "First": 5}] and
    [base_price = 4999]. *)
Definition refund_amount_of (cls : string) : Z :=
  let multiplier : Q :=
    (if String.eqb cls "Economy" then 1
     else if String.eqb cls "Business" then 5 # 2
     else if String.eqb cls "First" then 5
     else 1)%Q in
  let product := (4999 * multiplier)%Q in
  Z.quot (Qnum product) (Z.pos (Qden product)).

Definition process_refund (pnr reason : json) : M string :=
  match str_method (fun s => str_strip (str_upper s)) "upper" pnr with
  | Raise e => raise e
  | Ok pnr' =>
      match dict_get pnr' BOOKINGS_DB with
      | None => ret ("Cannot process refund: Booking " +:+ pnr' +:+ " not found.")
      | Some booking =>
          if str_contains "Cancelled" (bk_status booking) then
            ret ("Booking " +:+ pnr' +:+ " is already cancelled. Refund is being processed.")
          else
            do t <- next_tick;
            let refund_ref := "REF" +:+ pretty (random_randint t) in
            let refund_amount := refund_amount_of (bk_class booking) in
            run modify (fun s =>
                  set_refund_requests
                    (<[refund_ref := Refund pnr' reason refund_amount "Approved"]>
                       (refund_requests s)) s);
            ret ("Refund Request Processed:
- Reference: " +:+ refund_ref +:+ "
- Booking: " +:+ pnr' +:+ "
- Passenger: " +:+ bk_passenger booking +:+ "
- Refund Amount: ₹" +:+ format_grouped refund_amount +:+ "
- Status: Approved - Will be credited in 5-7 business days
- Reason: " +:+ fmt reason)
      end
  end.

(** [city] is what [args.get("city")] gave: a value, or [None] when the key
    is absent.  [openai_client] tells whether a client was passed. *)
Definition get_destination_image (city : json) (openai_client : bool) : M string :=
  try_except
    (let prompt :=
       "A beautiful vibrant travel poster showcasing " +:+ fmt city
       +:+ ", India as a travel destination, featuring iconic landmarks, local culture, temples, markets, and atmosphere. High quality, inspiring wanderlust, colorful Indian aesthetic." in
     do image_data <-
       (if openai_client then
          do t <- next_tick; lift (images_generate t prompt)
        else raise (AttributeError "images"));
     do lowered <- lift (str_method str_lower "lower" city);
     let filename := "destination_" +:+ replace_space lowered +:+ ".png" in
     do t <- next_tick;
     run lift (write_file t filename);
     run modify (fun s => set_files (<[filename := image_data]> (files s)) s);
     ret ("I've generated a beautiful travel image of " +:+ fmt city
          +:+ " for you! The image showcases the iconic landmarks and vibrant culture of this amazing Indian destination."))
    (fun e =>
       ret ("Sorry, I couldn't generate an image for " +:+ fmt city +:+ ": " +:+ str_exn e)).

(** [args.get(key)] *)
Definition args_get (args : json) (key : string) (dflt : json) : result json :=
  match args with
  | JObj d => Ok (match dict_get key d with Some v => v | None => dflt end)
  | _ => Raise (AttributeError "get")
  end.


(** Tool executor *)
Definition execute_tool (tool_name tool_arguments : string) (openai_client : bool) : M string :=
  do args <- lift (loads tool_arguments);
  if String.eqb tool_name "get_ticket_price" then
    do vs <- lift (call_kwargs "get_ticket_price"
                     [("destination_city", None); ("travel_class", Some (JStr "economy"))] args);
    match vs with
    | [destination_city; travel_class] => lift (get_ticket_price destination_city travel_class)
    | _ => raise (TypeError "get_ticket_price")
    end
  else if String.eqb tool_name "get_flight_status" then
    do vs <- lift (call_kwargs "get_flight_status" [("flight_number", None)] args);
    match vs with
    | [flight_number] => lift (get_flight_status flight_number)
    | _ => raise (TypeError "get_flight_status")
    end
  else if String.eqb tool_name "lookup_booking" then
    do vs <- lift (call_kwargs "lookup_booking" [("pnr", None)] args);
    match vs with
    | [pnr] => lift (lookup_booking pnr)
    | _ => raise (TypeError "lookup_booking")
    end
  else if String.eqb tool_name "process_refund" then
    do vs <- lift (call_kwargs "process_refund" [("pnr", None); ("reason", None)] args);
    match vs with
    | [pnr; reason] => process_refund pnr reason
    | _ => raise (TypeError "process_refund")
    end
  else if String.eqb tool_name "get_destination_image" then
    do city <- lift (args_get args "city" JNull);
    get_destination_image city openai_client
  else
    ret ("Error: Unknown tool '" +:+ tool_name +:+ "'").

End WithRuntime.

End Tools.
Export Tools.

(** ** knowledge_base.py *)

Module KnowledgeBase.

Local Open Scope py_scope.

(** A document of the catalog: a dict with the keys id, category, title and
    content (the key embedding is added when the document is embedded). *)
Definition document (id category title content : string) : json :=
  JObj [("id", JStr id); ("category", JStr category); ("title", JStr title);
        ("content", JStr content)].

(** The literal catalog of [initialize_knowledge_base]. *)
Definition catalog : list json := [
  document "bag_001" "Baggage"
    "Carry-on Baggage Allowance"
    "Carry-on baggage allowance for ERWIQ Airlines:
            - Economy Class: 1 carry-on bag (max 7kg), dimensions 55x40x20cm
            - Business Class: 2 carry-on bags (max 10kg each)
            - First Class: 2 carry-on bags (max 12kg each)
            All passengers may also bring 1 personal item (laptop bag, purse, small backpack).
            Carry-on must fit in overhead bin or under seat in front of you.";
  document "bag_002" "Baggage"
    "Checked Baggage Allowance"
    "Checked baggage allowance for ERWIQ Airlines:
            - Economy Class: 1 bag, max 23kg, dimensions up to 158cm total
            - Business Class: 2 bags, max 32kg each
            - First Class: 3 bags, max 32kg each
            Additional bags: â‚¹2,500 for domestic routes per extra bag.
            Overweight bags (23-32kg): â‚¹1,500 extra fee.
            Oversized bags (158-203cm): â‚¹3,000 extra fee.";
  document "bag_003" "Baggage"
    "Prohibited Items"
    "Items prohibited in carry-on baggage:
            - Sharp objects: knives, scissors (blade >6cm), razor blades
            - Sporting goods: cricket bats, hockey sticks, golf clubs
            - Firearms and weapons of any kind
            - Explosives and flammable items
            - Liquids over 100ml (must be in clear plastic bag)
            Items prohibited in all baggage:
            - Explosives, fireworks, flares
            - Lithium batteries over 160Wh
            - Toxic substances, radioactive materials";
  document "checkin_001" "Check-in"
    "Online Check-in"
    "ERWIQ Airlines online check-in:
            - Opens 48 hours before departure
            - Closes 2 hours before departure for all flights
            - Available at erwiqairlines.com or ERWIQ Airlines mobile app
            - Select seats, add bags, and get digital boarding pass
            - Passengers with checked bags must still visit bag drop counter
            - Web check-in available in Hindi, English, and regional languages";
  document "checkin_002" "Check-in"
    "Airport Check-in Deadlines"
    "Airport check-in counter deadlines:
            - Domestic flights: Counter closes 45 minutes before departure
            - Metro routes (Mumbai-Delhi, Delhi-Bangalore): Counter closes 60 minutes before
            - First/Business class: Dedicated counters with priority service at all major airports
            - Bag drop for online check-in: Closes 45 minutes before all flights
            Passengers arriving after deadline may be denied boarding without refund.";
  document "booking_001" "Booking"
    "Ticket Types and Flexibility"
    "ERWIQ Airlines ticket types:
            - Saver Fare: No changes allowed, no refund. Seat assigned at check-in. Lowest price.
            - Flexi Fare: Changes allowed with â‚¹2,000 fee. Refund as travel credit minus â‚¹2,500 fee.
            - Premium Fare: Free changes up to 24 hours before departure, full refund available.
            - Business Fare: Free unlimited changes, full refund anytime.
            - First Class: Free unlimited changes, full refund anytime, dedicated support line.";
  document "booking_002" "Booking"
    "24-Hour Cancellation Policy"
    "ERWIQ Airlines 24-hour free cancellation:
            - All tickets booked directly with ERWIQ Airlines can be cancelled within 24 hours of booking for full refund
            - Flight must be at least 7 days away from departure
            - Refund processed to original payment method within 7-10 business days
            - UPI refunds processed within 24-48 hours
            - This policy applies to all fare types including Saver Fare
            - Does not apply to tickets booked through third-party websites like MakeMyTrip, Goibibo";
  document "booking_003" "Booking"
    "Refund Processing Time"
    "Refund processing times at ERWIQ Airlines:
            - Credit card refunds: 7-10 business days
            - Debit card refunds: 10-14 business days
            - UPI refunds: 24-48 hours
            - Net banking: 5-7 business days
            - Travel credit: Issued immediately, valid for 12 months
            Refunds are processed to original form of payment only.
            For booking modifications, contact our support at 1800-ERWIQ-AIR (toll-free).";
  document "special_001" "Special Services"
    "Traveling with Pets"
    "ERWIQ Airlines pet policy:
            - Small pets (dogs, cats under 8kg): Allowed in cabin, â‚¹3,500 each way
            - Pet must fit in carrier under seat (max 46x28x24cm)
            - Larger pets: Must travel in cargo hold, â‚¹7,500 each way
            - Service animals: Travel free in cabin with valid documentation
            - Book pet travel at least 48 hours before departure
            - Maximum 2 pets per passenger, 4 pets per flight
            - Pets not allowed on flights under 2 hours duration
            - Health certificate required, issued within 10 days of travel";
  document "special_002" "Special Services"
    "Unaccompanied Minors"
    "Unaccompanied minor service (UM Service):
            - Available for children ages 5-14 traveling alone
            - Children 15-17 may use service optionally
            - Fee: â‚¹3,000 each way for all domestic routes
            - Includes dedicated staff escort through airport and flight
            - Must be booked at least 48 hours in advance by calling customer care
            - Child delivered only to pre-authorized adult with valid government ID (Aadhaar/PAN/Passport)
            - Not available on flights with layover over 2 hours
            - Special meals for children available on request";
  document "special_003" "Special Services"
    "Wheelchair and Mobility Assistance"
    "Mobility assistance at ERWIQ Airlines:
            - Wheelchair assistance: Free of charge, request when booking or at least 48 hours before
            - Types: WCHR (to/from gate), WCHS (to/from seat), WCHC (full assistance)
            - Personal wheelchairs: Transported free as checked item
            - Electric wheelchairs/scooters: Accepted, must notify 48 hours ahead for battery handling
            - Stretcher service available on select routes (advance booking required)
            - Priority boarding for passengers needing extra time
            - All major Indian airports have accessibility features";
  document "loyalty_001" "Loyalty"
    "ERWIQ Wings Rewards Program"
    "ERWIQ Wings loyalty program:
            - Earn 10 Wings points per â‚¹100 spent on flights
            - Business class: Earn 15 Wings points per â‚¹100
            - First class: Earn 20 Wings points per â‚¹100
            - Points valid for 24 months from last activity
            - Redeem for flights starting at 5,000 points one-way (short routes)
            - Status tiers: Silver (10k points), Gold (25k), Platinum (50k), Diamond (100k)
            - Earn bonus points with ERWIQ co-branded credit cards (HDFC, ICICI, SBI)
            - Transfer points from partner hotels and banks";
  document "loyalty_002" "Loyalty"
    "Elite Status Benefits"
    "ERWIQ Wings Elite status benefits:
            Silver (10k points/year):
            - Priority check-in, 1 free checked bag, priority boarding
            Gold (25k points/year):
            - Above + complimentary seat selection, 2 free checked bags, lounge access (2 visits/year)
            Platinum (50k points/year):
            - Above + unlimited lounge access, complimentary upgrades when available, dedicated helpline
            Diamond (100k points/year):
            - Above + guaranteed upgrades, free companion ticket annually, exclusive airport meet & greet at metros";
  document "delay_001" "Delays"
    "Flight Delay Compensation"
    "ERWIQ Airlines delay compensation policy (as per DGCA guidelines):
            For delays within airline control:
            - 2+ hour delay: Refreshments (snacks and beverages)
            - 4+ hour delay: Meal voucher (â‚¹500) + rebooking on next available flight
            - 6+ hour delay: Full refund option or hotel accommodation if overnight
            For weather or ATC delays:
            - Rebooking on next available flight at no charge
            - No meal or hotel compensation (outside airline control)
            - ERWIQ will assist with alternate arrangements where possible";
  document "delay_002" "Delays"
    "Cancelled Flight Rights"
    "Your rights when ERWIQ Airlines cancels your flight:
            - Full refund to original payment method, OR
            - Rebooking on next available ERWIQ flight at no charge, OR
            - Rebooking on partner airline if faster (subject to availability)
            If cancellation is within 24 hours of departure:
            - Meal vouchers provided during wait
            - Hotel accommodation if overnight wait required (for different-city connections)
            - Transportation to/from hotel arranged by ERWIQ
            For cancellations within airline control, compensation of â‚¹5,000 for delays over 6 hours.
            Contact: 1800-ERWIQ-AIR or visit nearest ERWIQ counter.";
  document "india_001" "India Specific"
    "Valid ID Requirements"
    "Valid ID for domestic travel on ERWIQ Airlines:
            Accepted government-issued photo IDs:
            - Aadhaar Card (most preferred)
            - Passport
            - PAN Card
            - Voter ID
            - Driving License
            - Government employee ID
            - Student ID with photo (for students under 18)
            For children under 5: Birth certificate with parent's ID
            DigiLocker documents accepted at all airports
            ID must match name on booking exactly";
  document "india_002" "India Specific"
    "Payment Options"
    "Payment options for ERWIQ Airlines bookings:
            - All major credit cards (Visa, Mastercard, RuPay, Amex)
            - Debit cards with 3D secure
            - UPI (Google Pay, PhonePe, Paytm, BHIM)
            - Net Banking (all major banks)
            - EMI options available on bookings above â‚¹5,000 (select banks)
            - ERWIQ Wallet (preloaded wallet with 2% bonus)
            - Corporate billing for business accounts
            All payments secured with Indian banking standards and RBI guidelines"
].

Definition RAG_TOOL : descriptor :=
  Descriptor "search_airline_policies"
    "Search ERWIQ Airlines knowledge base for policies, FAQs, and procedures. Use this when a customer asks about baggage rules, check-in procedures, refund policies, pet travel, wheelchair assistance, loyalty programs, ID requirements, or any airline policy."
    [
       Property "query" None
         "The topic or question to search for in the knowledge base"
    ]
    ["query"].

(** An entry of the result list: [{'document': doc, 'score': similarity}]. *)
Record scored : Type := Scored { sc_document : json; sc_score : pyfloat }.

(** The literal 0.3 is the double 5404319552844595 / 2^54. *)
Definition threshold : Q := 5404319552844595 # 18014398509481984.

Definition NOT_FOUND : string :=
  "No relevant policy information found for this query. Please contact ERWIQ Airlines customer care at 1800-ERWIQ-AIR for assistance.".

Definition HEADER : string := "Here's the relevant policy information:

".

(** Truth value of a Python object. *)
Definition truthy (v : json) : bool :=
  match v with
  | JNull => false
  | JBool b => b
  | JInt n => negb (n =? 0)
  | JFloat q => negb (Qeq_bool q 0)
  | JNonFinite _ => true
  | JStr s => negb (String.eqb s EmptyString)
  | JArr l => match l with [] => false | _ => true end
  | JObj d => match d with [] => false | _ => true end
  end.

(** [key in container] for a str [key] *)
Definition py_in (key : string) (container : json) : result bool :=
  match container with
  | JObj d => Ok (bool_decide (key ∈ dict_keys d))
  | JArr l =>
      Ok (existsb (fun x => match x with JStr s => String.eqb s key | _ => false end) l)
  | JStr s => Ok (str_contains key s)
  | _ => Raise (TypeError "argument is not iterable")
  end.

(** [container[key]] for a str [key] *)
Definition getitem (container : json) (key : string) : result json :=
  match container with
  | JObj d =>
      match dict_get key d with
      | Some v => Ok v
      | None => Raise (KeyError key)
      end
  | JArr _ | JStr _ => Raise (TypeError "indices must be integers")
  | _ => Raise (TypeError "object is not subscriptable")
  end.

(** [len(v)] *)
Definition py_len (v : json) : result nat :=
  match v with
  | JStr s => Ok (Py.len s)
  | JArr l => Ok (length l)
  | JObj d => Ok (length d)
  | _ => Raise (TypeError "object has no len()")
  end.

(** [l[:k]] on a list: a negative [k] counts from the end. *)
Definition list_slice_to {A} (k : Z) (l : list A) : list A :=
  if 0 <=? k then firstn (Z.to_nat k) l
  else firstn (length l - Z.to_nat (- k)) l.

(** The order of a stable sort by descending score over scores that are
    comparable: insertion from the right that puts an entry before the first
    entry that is not strictly better. *)
Fixpoint insert_desc (x : scored) (l : list scored) : list scored :=
  match l with
  | [] => [x]
  | y :: l' =>
      if float_le (sc_score y) (sc_score x) then x :: y :: l'
      else y :: insert_desc x l'
  end.

Definition stable_desc (l : list scored) : list scored := foldr insert_desc [] l.

Section WithRuntime.
Context `{IN : Interpreter} `{RT : PyRuntime} `{W : World}.

(** [results.sort(key=lambda x: x['score'], reverse=True)]: the sort of
    Python is stable, also with [reverse=True].  When a score is NaN the
    order is the one the interpreter's algorithm leaves. *)
Definition sort_desc (l : list scored) : list scored :=
  if existsb (fun r => is_nan (sc_score r)) l then
    omap (fun i => l !! i) (sort_order_with_nan (map sc_score l))
  else stable_desc l.

Definition initialize_knowledge_base : M json :=
  run modify (set_knowledge_base (JArr catalog));
  ret (JArr catalog).

Definition get_embedding (text : json) : M (list Q) :=
  do t <- next_tick;
  lift (embeddings_create t text).

Definition cosine_similarity (vec1 : list Q) (vec2 : json) : result pyfloat :=
  np_cosine vec1 vec2.

(** The negation of the guard
    [not knowledge_base or 'embedding' not in knowledge_base[0]]. *)
Definition is_embedded (kb : json) : result bool :=
  if negb (truthy kb) then Ok false
  else
    match kb with
    | JArr (first :: _) => py_in "embedding" first
    | JStr _ => Ok false   (* [kb[0]] is one character *)
    | JObj _ => Raise (KeyError "0")
    | _ => Raise (TypeError "object is not subscriptable")
    end.

(** The loop over the documents. *)
Fixpoint score_all (query_embedding : list Q) (docs : list json) : result (list scored) :=
  match docs with
  | [] => Ok []
  | doc :: rest =>
      match getitem doc "embedding" with
      | Raise e => Raise e
      | Ok emb =>
          match cosine_similarity query_embedding emb with
          | Raise e => Raise e
          | Ok similarity =>
              match score_all query_embedding rest with
              | Raise e => Raise e
              | Ok results => Ok (Scored doc similarity :: results)
              end
          end
      end
  end.

Definition search_knowledge_base (query : json) (top_k : Z) : M (list scored) :=
  do s <- get;
  let kb := knowledge_base s in
  do embedded <- lift (is_embedded kb);
  if negb embedded then ret []
  else
    do query_embedding <- get_embedding query;
    do results <- lift (score_all query_embedding
                          (match kb with JArr docs => docs | _ => [] end));
    ret (list_slice_to top_k (sort_desc results)).

(** [score >= 0.3] and [score < 0.3]; both are false of NaN. *)
Definition relevant (r : scored) : bool := float_le threshold (sc_score r).
Definition below (r : scored) : bool := float_lt (sc_score r) threshold.

(** The loop that appends one block per relevant result. *)
Fixpoint format_results (response : string) (results : list scored) : result string :=
  match results with
  | [] => Ok response
  | r :: rest =>
      if relevant r then
        match getitem (sc_document r) "title" with
        | Raise e => Raise e
        | Ok title =>
            match getitem (sc_document r) "content" with
            | Raise e => Raise e
            | Ok body =>
                format_results
                  (response +:+ "**" +:+ fmt title +:+ "**
" +:+ fmt body +:+ "

") rest
            end
        end
      else format_results response rest
  end.

Definition search_airline_policies (query : json) : M string :=
  do results <- search_knowledge_base query 3;
  match results with
  | [] => ret NOT_FOUND
  | top :: _ =>
      if below top then ret NOT_FOUND
      else lift (format_results HEADER results)
  end.

(** [load_knowledge_base]: only [FileNotFoundError] is handled. *)
Definition load_knowledge_base (filepath : string) : M bool :=
  try_except
    (do s <- get;
     match files s !! filepath with
     | None => raise (FileNotFoundError filepath)
     | Some text =>
         do kb <- lift (loads text);
         run modify (set_knowledge_base kb);
         do n <- lift (py_len kb);
         ret true
     end)
    (fun e =>
       match e with
       | FileNotFoundError _ =>
           run initialize_knowledge_base;
           ret false
       | _ => raise e
       end).

(** [title[:40]] in the progress line: a str or a list can be sliced, any
    other value raises (a dict raises KeyError instead from Python 3.12 on). *)
Definition slice_title (title : json) : result unit :=
  match title with
  | JStr _ | JArr _ => Ok tt
  | _ => Raise (TypeError "object is not subscriptable")
  end.

(** [doc['embedding'] = value]; [doc] is a dict wherever this is reached. *)
Definition set_embedding (value : list Q) (doc : json) : json :=
  match doc with
  | JObj d => JObj (dict_set "embedding" (JArr (map JFloat value)) d)
  | _ => doc
  end.

(** The text that is embedded for a document. *)
Definition text_to_embed (title body : json) : string :=
  fmt title +:+ "
" +:+ fmt body.

(** The loop of [embed_knowledge_base] over the documents of the list:
    [done] are the documents already handled, as they are now. *)
Fixpoint embed_loop (done todo : list json) : M unit :=
  match todo with
  | [] => ret tt
  | doc :: rest =>
      do title <- lift (getitem doc "title");
      do body <- lift (getitem doc "content");
      do embedding <- get_embedding (JStr (text_to_embed title body));
      let doc' := set_embedding embedding doc in
      run modify (set_knowledge_base (JArr (done ++ doc' :: rest)));
      run lift (slice_title title);
      embed_loop (done ++ [doc']) rest
  end.

(** Add embeddings to all documents in the knowledge base. *)
Definition embed_knowledge_base : M json :=
  do s <- get;
  let kb := knowledge_base s in
  run lift (py_len kb);
  match kb with
  | JArr docs =>
      run embed_loop [] docs;
      do s' <- get;
      ret (knowledge_base s')
  | JStr text =>
      if String.eqb text EmptyString then ret kb
      else raise (TypeError "string indices must be integers")
  | JObj d =>
      match d with
      | [] => ret kb
      | _ => raise (TypeError "string indices must be integers")
      end
  | _ => ret kb
  end.

End WithRuntime.

End KnowledgeBase.
Export KnowledgeBase.

(** ** utils.py *)

Module Utils.

Local Open Scope py_scope.

(** [round(x, 2)]: to the nearest hundredth, a tie to the even one. *)
Definition round_half_even (x : Q) : Z :=
  let f := Qfloor x in
  match ((x - inject_Z f) ?= (1 # 2))%Q with
  | Lt => f
  | Gt => f + 1
  | Eq => if Z.even f then f else f + 1
  end.

Definition round2 (x : Q) : Q := Qmake (round_half_even (x * 100)) 100.

(** [sum(l)] *)
Definition py_sum (l : list Q) : Q := fold_left Qplus l 0%Q.

(** The default of the parameter [model]. *)
Definition DEFAULT_MODEL : string := "gpt-4o-mini".

(** [d[k] = d.get(k, 0) + 1] *)
Definition count_up (k : string) (d : gmap string nat) : gmap string nat :=
  <[k := (default 0%nat (d !! k) + 1)%nat]> d.

(** The analytics after one more interaction. *)
Definition update_analytics (tools_used : list string) (model : string)
    (response_time : Q) (error : option string) (a : analytics) : analytics :=
  let times := response_times a ++ [response_time] in
  Analytics
    (total_queries a + 1)
    (fold_left (fun d tool => count_up tool d) tools_used (tool_calls a))
    (count_up model (model_usage a))
    (match error with
     | Some text => if String.eqb text EmptyString then errors a else (errors a + 1)%nat
     | None => errors a
     end)
    (py_sum times / inject_Z (Z.of_nat (length times)))%Q
    times.

Section WithRuntime.
Context `{IN : Interpreter} `{RT : PyRuntime} `{W : World}.

(** Log an interaction for audit and analytics.  [assistant_response] and
    [tools_used] may be [None]; [len(None)] raises before anything is
    stored. *)
Definition log_interaction (user_message : string) (assistant_response : option string)
    (tools_used : option (list string)) (model : string) (response_time : Q)
    (error : option string) : M log_entry :=
  do t <- next_tick;
  let timestamp := datetime_now t in
  match assistant_response with
  | None => raise (TypeError "object of type 'NoneType' has no len()")
  | Some response =>
      let tools := default [] tools_used in
      let log_entry :=
        LogEntry timestamp user_message
          (if (500 <? Py.len response)%nat then Py.slice_to 500 response +:+ "..."
           else response)
          tools model (round2 (response_time * 1000)) error in
      run modify (fun s => set_audit_logs (audit_logs s ++ [log_entry]) s);
      run modify (fun s =>
            set_analytics_data
              (update_analytics tools model response_time error (analytics_data s)) s);
      ret log_entry
  end.

(** The callbacks are called in order; one that raises is skipped. *)
Definition run_callbacks (n : notification) (callbacks : list nat) : list (nat * notification) :=
  map (fun c => (c, n)) (List.filter (fun c => negb (callback_raises c n)) callbacks).

(** Send a notification to all registered callbacks. *)
Definition send_notification (title : string) (message : option string) (level : string) : M unit :=
  do t <- next_tick;
  let notification := Notification (datetime_now t) title message level in
  run modify (fun s => set_sent_notifications (sent_notifications s ++ [notification]) s);
  modify (fun s =>
    set_delivered (delivered s ++ run_callbacks notification (notification_callbacks s)) s).

End WithRuntime.

(** [l[-n:]] on a list: for a positive [n] the last [n] entries, for [n = 0]
    the whole list, for a negative [n] the list without its first [-n]
    entries. *)
Definition list_slice_from_end {A} (n : Z) (l : list A) : list A :=
  if 0 <? n then skipn (length l - Z.to_nat n) l
  else skipn (Z.to_nat (- n)) l.

(** Get the n most recent log entries. *)
Definition get_recent_logs (n : Z) : M (list log_entry) :=
  do s <- get;
  ret (list_slice_from_end n (audit_logs s)).

(** The dict that [get_analytics_summary] returns. *)
Record summary : Type := Summary {
  sm_total_queries : nat;
  sm_total_errors : nat;
  sm_avg_response_time_ms : Q;
  sm_tool_usage : gmap string nat;
  sm_model_usage : gmap string nat
}.

(** Get analytics summary. *)
Definition get_analytics_summary : M summary :=
  do s <- get;
  let a := analytics_data s in
  ret (Summary (total_queries a) (errors a) (round2 (avg_response_time a * 1000))
         (tool_calls a) (model_usage a)).

(** Reset all analytics data. *)
Definition reset_analytics : M unit :=
  modify (set_analytics_data (Analytics 0 ∅ ∅ 0 0 [])).

(** Clear all audit logs. *)
Definition clear_logs : M unit := modify (set_audit_logs []).

Definition set_notification_callbacks (c : list nat) (s : state) : state :=
  State (knowledge_base s) (refund_requests s) (audit_logs s) (analytics_data s)
    c (files s) (sent_requests s) (sent_notifications s) (delivered s) (tick s).

(** Register a notification callback function. *)
Definition add_notification_callback (callback : nat) : M unit :=
  modify (fun s => set_notification_callbacks (notification_callbacks s ++ [callback]) s).

(** The printing of numbers with a format specification, which the checks
    below use for their messages. *)
Class Formatting : Type := {
  (** [f"{x:.1%}"] *)
  format_percent : Q -> string;
  (** [f"{x}"] of a float *)
  format_float : Q -> string
}.

(** The literal 0.1 is the double 3602879701896397 / 2^55.  The quotient of
    the two counters is taken exactly; for fewer than 2^50 queries it compares
    with 0.1 as the rounded quotient does. *)
Definition one_tenth : Q := 3602879701896397 # 36028797018963968.

Section WithFormatting.
Context `{W : World} `{F : Formatting}.

(** Check if error rate is too high and send notification. *)
Definition check_error_rate : M bool :=
  do stats <- get_analytics_summary;
  if (10 <? sm_total_queries stats)%nat then
    let error_rate :=
      (inject_Z (Z.of_nat (sm_total_errors stats))
       / inject_Z (Z.of_nat (sm_total_queries stats)))%Q in
    if negb (Qle_bool error_rate one_tenth) then
      run send_notification "High Error Rate"
            (Some ("Error rate is " +:+ format_percent error_rate +:+ " ("
                   +:+ pretty (sm_total_errors stats) +:+ "/"
                   +:+ pretty (sm_total_queries stats) +:+ ")"))
            "warning";
      ret true
    else ret false
  else ret false.

(** Check if average response time is too high. *)
Definition check_response_time : M bool :=
  do stats <- get_analytics_summary;
  if negb (Qle_bool (sm_avg_response_time_ms stats) 5000) then
    run send_notification "Slow Response Times"
          (Some ("Average response time is "
                 +:+ format_float (sm_avg_response_time_ms stats) +:+ "ms"))
          "warning";
    ret true
  else ret false.

End WithFormatting.

End Utils.
Export Utils.

(** ** app.py *)

Module App.

Local Open Scope py_scope.

(** Combine all tools *)
Definition all_tools : list descriptor := TOOLS ++ [RAG_TOOL].

Definition all_models : list string := ["openai"; "claude"; "gemini"].

(** The loop that adds the fallback models. *)
Definition add_fallback_models (models_to_try : list string) : list string :=
  fold_left
    (fun acc model => if bool_decide (model ∈ acc) then acc else acc ++ [model])
    all_models models_to_try.

Definition models_to_try (preferred_model : string) : list string :=
  add_fallback_models [preferred_model].

Definition error_response : string :=
  "I apologize, but I'm experiencing technical difficulties. Please try again later or contact ERWIQ Airlines support at 1800-ERWIQ-AIR.".

Section WithRuntime.
Context `{IN : Interpreter} `{RT : PyRuntime} `{W : World}.

(** One call of [openai_client.chat.completions.create]. *)
Definition create (request : chat_request) : M completion :=
  run modify (fun s => set_sent_requests (sent_requests s ++ [request]) s);
  do t <- next_tick;
  lift (chat_completions_create t request).

(** Basic chat with Claude (no tools). *)
Definition chat_claude (user_message : string) (history : list turn) : M string :=
  if negb claude_client then raise (Exception "Claude client not initialized")
  else
    let messages := history ++ [Turn "user" user_message] in
    do t <- next_tick;
    lift (claude_messages_create t
            (ClaudeRequest CLAUDE_MODEL 1024 SYSTEM_MESSAGE messages)).

(** Basic chat with Gemini (no tools). *)
Definition chat_gemini (user_message : string) (history : list turn) : M string :=
  if negb GOOGLE_API_KEY then raise (Exception "Gemini not configured")
  else
    let full_prompt :=
      fold_left
        (fun acc msg =>
           acc +:+ (if String.eqb (role msg) "user" then "User" else "Assistant")
               +:+ ": " +:+ content msg +:+ "
")
        history EmptyString
      +:+ "User: " +:+ user_message in
    do t <- next_tick;
    lift (gemini_generate_content t full_prompt).

(** Execute a tool, handling special cases. *)
Definition execute_tool_call (tool_name tool_arguments : string) : M string :=
  if String.eqb tool_name "search_airline_policies" then
    do args <- lift (loads tool_arguments);
    do query <- lift (args_get args "query" (JStr EmptyString));
    search_airline_policies query
  else if String.eqb tool_name "get_destination_image" then
    execute_tool tool_name tool_arguments true
  else
    execute_tool tool_name tool_arguments false.

(** The loop over the tool calls of the first response. *)
Fixpoint run_tool_calls (calls : list tool_call) (messages : list message)
    (tools_used : list string) : M (list message * list string) :=
  match calls with
  | [] => ret (messages, tools_used)
  | tool_call :: rest =>
      let tools_used' := tools_used ++ [tc_name tool_call] in
      do result <- execute_tool_call (tc_name tool_call) (tc_arguments tool_call);
      run_tool_calls rest (messages ++ [MTool (tc_id tool_call) result]) tools_used'
  end.

(** Chat with OpenAI including tool support.
    Returns: (response_text, list_of_tools_used) *)
Definition chat_with_tools (user_message : string) (history : list turn)
    : M (option string * list string) :=
  let messages :=
    [MTurn (Turn "system" SYSTEM_MESSAGE)] ++ map MTurn history
    ++ [MTurn (Turn "user" user_message)] in
  do response <- create (ChatRequest OPENAI_MODEL messages (Some all_tools));
  let response_message := choice_message response in
  if String.eqb (finish_reason response) "tool_calls" then
    let messages' := messages ++ [MAssistant response_message] in
    match rm_tool_calls response_message with
    | None => raise (TypeError "'NoneType' object is not iterable")
    | Some calls =>
        do '(messages'', tools_used) <- run_tool_calls calls messages' [];
        do final_response <- create (ChatRequest OPENAI_MODEL messages'' None);
        ret (rm_content (choice_message final_response), tools_used)
    end
  else ret (rm_content response_message, []).

(** What [chat_with_fallback] returns: (response, model_used, tools_used). *)
Definition outcome : Type := (option string * string * list string)%type.

(** The if/elif chain inside the [try]: the call made for one model;
    [None] stands for [continue] in the branch of an unknown model. *)
Definition dispatch (model user_message : string) (history : list turn)
    : M (option (option string * list string)) :=
  if String.eqb model "openai" then
    do '(response, tools_used) <- chat_with_tools user_message history;
    ret (Some (response, tools_used))
  else if String.eqb model "claude" then
    do response <- chat_claude user_message history;
    ret (Some (Some response, []))
  else if String.eqb model "gemini" then
    do response <- chat_gemini user_message history;
    ret (Some (Some response, []))
  else ret None.

(** The body of the [try] for one model. *)
Definition attempt (model user_message : string) (history : list turn) : M (option outcome) :=
  do t0 <- next_tick;
  let start_time := time_time t0 in
  do answer <- dispatch model user_message history;
  match answer with
  | None => ret None
  | Some (response, tools_used) =>
      do t1 <- next_tick;
      let response_time := (time_time t1 - start_time)%Q in
      run log_interaction user_message response (Some tools_used) model response_time None;
      ret (Some (response, model, tools_used))
  end.

(** The loop over [models_to_try], then the path taken when it ends. *)
Fixpoint try_models (models : list string) (last_error : option string)
    (user_message : string) (history : list turn) : M outcome :=
  match models with
  | model :: rest =>
      do step <- try_except
                   (do r <- attempt model user_message history; ret (inl r))
                   (fun e => ret (inr (str_exn e)));
      match step with
      | inl (Some result) => ret result
      | inl None => try_models rest last_error user_message history
      | inr text => try_models rest (Some text) user_message history
      end
  | [] =>
      run log_interaction user_message (Some error_response) None DEFAULT_MODEL 0 last_error;
      run send_notification "All Models Failed" last_error "error";
      ret (Some error_response, "none", [])
  end.

(** Chat with automatic fallback to other models on failure.
    Returns: (response, model_used, tools_used) *)
Definition chat_with_fallback (user_message : string) (history : list turn)
    (preferred_model : string) : M outcome :=
  try_models (models_to_try preferred_model) None user_message history.

(** Basic chat with OpenAI (no tools). *)
Definition chat_openai (user_message : string) (history : list turn) : M (option string) :=
  let messages :=
    [MTurn (Turn "system" SYSTEM_MESSAGE)] ++ map MTurn history
    ++ [MTurn (Turn "user" user_message)] in
  do response <- create (ChatRequest OPENAI_MODEL messages None);
  ret (rm_content (choice_message response)).

(** How the module ends its set-up of the knowledge base (app.py, lines 59
    to 68): ready, stopped by an exception of the calls it makes, or stopped
    by the NameError of a name that the module never imported. *)
Inductive startup_result : Type :=
  | StartupReady
  | StartupRaised (e : exn)
  | StartupNameError (name : string).

(** The set-up of the knowledge base when the module is loaded.
    [save_knowledge_base] is not among the names imported from
    knowledge_base, so its use raises NameError. *)
Definition startup (s : state) : startup_result * state :=
  match initialize_knowledge_base s with
  | (Raise e, s1) => (StartupRaised e, s1)
  | (Ok _, s1) =>
      match load_knowledge_base "knowledge_base.json" s1 with
      | (Raise e, s2) => (StartupRaised e, s2)
      | (Ok true, s2) => (StartupReady, s2)
      | (Ok false, s2) =>
          match embed_knowledge_base s2 with
          | (Raise e, s3) => (StartupRaised e, s3)
          | (Ok _, s3) => (StartupNameError "save_knowledge_base", s3)
          end
      end
  end.

End WithRuntime.

(** The services of the front end: speech synthesis and the search for the
    newest generated image. *)
Class Frontend : Type := {
  (** [openai_client.audio.speech.create(...).content] *)
  speech_create : nat -> string -> result string;
  (** [glob.glob("destination_*.png")], then the newest by creation time
      ([None] when there is no such file) *)
  newest_destination_image : nat -> result (option string)
}.

Section WithFrontend.
Context `{IN : Interpreter} `{RT : PyRuntime} `{W : World} `{FE : Frontend}.

(** Convert text to speech, return path to audio file. *)
Definition text_to_speech (text : string) : M (option string) :=
  try_except
    (do t <- next_tick;
     do audio <- lift (speech_create t (Py.slice_to 4000 text));
     let output_path := "response_audio.mp3" in
     do t' <- next_tick;
     run lift (write_file t' output_path);
     run modify (fun s => set_files (<[output_path := audio]> (files s)) s);
     ret (Some output_path))
    (fun _ => ret None).

(** [model_map.get(model_choice, "openai")] *)
Definition model_of_choice (model_choice : string) : string :=
  if String.eqb model_choice "OpenAI (GPT-4o-mini)" then "openai"
  else if String.eqb model_choice "Claude (Sonnet)" then "claude"
  else if String.eqb model_choice "Gemini (Flash)" then "gemini"
  else "openai".

(** Main chat function for Gradio interface.
    Returns: (response_text, audio_path, image_path) *)
Definition gradio_chat (message : string) (history : list turn) (model_choice : string)
    (enable_voice : bool) : M (option string * option string * option string) :=
  if String.eqb (str_strip message) EmptyString then ret (Some EmptyString, None, None)
  else
    let formatted_history := map (fun msg => Turn (role msg) (content msg)) history in
    let preferred := model_of_choice model_choice in
    do '(response, model_used, tools_used) <-
      chat_with_fallback message formatted_history preferred;
    do audio_path <-
      (if enable_voice then
         match response with
         | Some text => text_to_speech text
         | None => ret None
         end
       else ret None);
    do image_path <-
      (if bool_decide ("get_destination_image" ∈ tools_used) then
         do t <- next_tick;
         lift (newest_destination_image t)
       else ret None);
    ret (response, audio_path, image_path).

End WithFrontend.

End App.
Export App.

(** ** Concrete runtimes, worlds and states for the examples *)

Module Scenario.

(** The limits of an interpreter started without options. *)
#[export] Instance default_interpreter : Interpreter := {|
  int_max_str_digits := 4300;
  recursion_budget := 1000
|}.

Definition map_string (f : ascii -> ascii) (s : string) : string :=
  string_of_list_ascii (map f (list_ascii_of_string s)).

Definition ascii_lower (c : ascii) : ascii :=
  let n := nat_of_ascii c in
  if (65 <=? n)%nat && (n <=? 90)%nat then ascii_of_nat (n + 32) else c.

Definition ascii_upper (c : ascii) : ascii :=
  let n := nat_of_ascii c in
  if (97 <=? n)%nat && (n <=? 122)%nat then ascii_of_nat (n - 32) else c.

Definition ascii_space (c : ascii) : bool :=
  let n := nat_of_ascii c in
  (n =? 32)%nat || ((9 <=? n)%nat && (n <=? 13)%nat) || ((28 <=? n)%nat && (n <=? 31)%nat).

Fixpoint lstrip (l : list ascii) : list ascii :=
  match l with
  | c :: rest => if ascii_space c then lstrip rest else l
  | [] => []
  end.

Definition ascii_strip (s : string) : string :=
  string_of_list_ascii (rev (lstrip (rev (lstrip (list_ascii_of_string s))))).

Definition ascii_alpha (c : ascii) : bool :=
  let n := nat_of_ascii c in
  ((65 <=? n)%nat && (n <=? 90)%nat) || ((97 <=? n)%nat && (n <=? 122)%nat).

Fixpoint title_from (after_letter : bool) (l : list ascii) : list ascii :=
  match l with
  | [] => []
  | c :: rest =>
      (if after_letter then ascii_lower c else ascii_upper c)
      :: title_from (ascii_alpha c) rest
  end.

Definition ascii_title (s : string) : string :=
  string_of_list_ascii (title_from false (list_ascii_of_string s)).

(** A runtime for the examples: the str methods act on ASCII letters and
    white space; a one-number embedding [[x]] has similarity [x] with every
    query, and NaN when [x] is zero; a sort over a NaN leaves the list as it
    was; the texts of interpreter errors and of non-string values are short
    stand-ins. *)
Definition scripted_runtime : PyRuntime := {|
  str_lower := map_string ascii_lower;
  str_upper := map_string ascii_upper;
  str_strip := ascii_strip;
  str_title := ascii_title;
  format_value := fun v =>
    match v with
    | JNull => "None"
    | JBool true => "True"
    | JBool false => "False"
    | JInt n => pretty n
    | _ => "<value>"
    end;
  interpreter_text := fun e =>
    match e with
    | Exception text => text
    | JSONDecodeError msg pos => msg +:+ ": char " +:+ pretty pos
    | TypeError what => what
    | AttributeError what => "object has no attribute '" +:+ what +:+ "'"
    | KeyError key => "'" +:+ key +:+ "'"
    | FileNotFoundError path => "No such file or directory: '" +:+ path +:+ "'"
    | ValueError what => what
    | RecursionError what => what
    end;
  np_cosine := fun _ emb =>
    match emb with
    | JArr [JFloat x] => Ok (if Qeq_bool x 0 then NonFinite NaN else Finite x)
    | _ => Raise (TypeError "unsupported operand")
    end;
  sort_order_with_nan := fun keys => seq 0 (length keys)
|}.

(** A world whose three chat services are scripted; embeddings are [[1]],
    images are generated and written, the clock advances by a quarter of a
    second per reading, no callback raises. *)
Definition scripted_world (claude_on google_on : bool)
    (openai : nat -> chat_request -> result completion)
    (claude gemini : result string) : World := {|
  claude_client := claude_on;
  GOOGLE_API_KEY := google_on;
  chat_completions_create := openai;
  claude_messages_create := fun _ _ => claude;
  gemini_generate_content := fun _ _ => gemini;
  embeddings_create := fun _ _ => Ok [1%Q];
  images_generate := fun _ _ => Ok "PNG";
  write_file := fun _ _ => Ok tt;
  time_time := fun t => (Z.of_nat t # 4)%Q;
  datetime_now := fun t => "2025-06-15T10:00:" +:+ pretty t;
  random_randint := fun t => 100000 + Z.of_nat t;
  callback_raises := fun _ _ => false
|}.

Definition empty_analytics : analytics := Analytics 0 ∅ ∅ 0 0 [].

(** The state after [initialize_knowledge_base()] with nothing logged. *)
Definition initial_state : state :=
  State (JArr catalog) ∅ [] empty_analytics [] ∅ [] [] [] 0.

(** Every service is down. *)
Definition world_down : World :=
  scripted_world true true
    (fun _ _ => Raise (Exception "Connection error."))
    (Raise (Exception "Overloaded"))
    (Raise (Exception "Quota exceeded")).

(** OpenAI is down, Claude answers. *)
Definition world_claude_up : World :=
  scripted_world true true
    (fun _ _ => Raise (Exception "Connection error."))
    (Ok "Your flight is on time.")
    (Ok "unused").

Definition quoted (s : string) : string := String dquote (s +:+ String dquote EmptyString).

Definition flight_call : tool_call :=
  ToolCall "call_1" "get_flight_status"
    ("{" +:+ quoted "flight_number" +:+ ": " +:+ quoted "eq101" +:+ "}").

(** OpenAI asks for a tool in every answer, also in the second one. *)
Definition world_tools_twice : World :=
  scripted_world true true
    (fun _ request =>
       match req_tools request with
       | Some _ => Ok (Completion "tool_calls" (ResponseMessage None (Some [flight_call])))
       | None =>
           Ok (Completion "tool_calls"
                 (ResponseMessage (Some "EQ101 is on time.") (Some [flight_call])))
       end)
    (Ok "unused") (Ok "unused").

Definition embedded_document (id title body : string) (x : Q) : json :=
  JObj [("id", JStr id); ("category", JStr "Test"); ("title", JStr title);
        ("content", JStr body); ("embedding", JArr [JFloat x])].

(** OpenAI answers with a text and a tool call, and the finish reason stop. *)
Definition world_tools_unannounced : World :=
  scripted_world true true
    (fun _ _ =>
       Ok (Completion "stop" (ResponseMessage (Some "One moment.") (Some [flight_call]))))
    (Ok "unused") (Ok "unused").

(** A corpus of three embedded documents with similarities 1/2, 9/10, 1/2. *)
Definition small_corpus : list json :=
  [embedded_document "a" "Alpha" "first" (1 # 2);
   embedded_document "b" "Beta" "second" (9 # 10);
   embedded_document "c" "Gamma" "third" (1 # 2)].

(** A corpus whose second document has an embedding of norm zero. *)
Definition nan_corpus : list json :=
  [embedded_document "a" "Alpha" "first" (1 # 2);
   embedded_document "z" "Zero" "nothing" 0].

(** A corpus whose second document is below the threshold. *)
Definition mixed_corpus : list json :=
  [embedded_document "a" "Alpha" "first" (1 # 2);
   embedded_document "b" "Beta" "second" (1 # 10)].

Definition with_corpus (docs : list json) : state :=
  set_knowledge_base (JArr docs) initial_state.

Definition with_file (path text : string) : state :=
  set_files (<[path := text]> ∅) initial_state.

(** A world whose embedding service answers the first request only. *)
Definition world_embedding_once : World := {|
  claude_client := true;
  GOOGLE_API_KEY := true;
  chat_completions_create := fun _ _ => Raise (Exception "Connection error.");
  claude_messages_create := fun _ _ => Raise (Exception "Overloaded");
  gemini_generate_content := fun _ _ => Raise (Exception "Quota exceeded");
  embeddings_create := fun t _ =>
    match t with
    | O => Ok [1%Q]
    | S _ => Raise (Exception "Rate limit reached")
    end;
  images_generate := fun _ _ => Ok "PNG";
  write_file := fun _ _ => Ok tt;
  time_time := fun t => (Z.of_nat t # 4)%Q;
  datetime_now := fun t => "2025-06-15T10:00:" +:+ pretty t;
  random_randint := fun t => 100000 + Z.of_nat t;
  callback_raises := fun _ _ => false
|}.

(** OpenAI is down and neither Claude nor Gemini is configured. *)
Definition world_openai_only_down : World :=
  scripted_world false false
    (fun _ _ => Raise (Exception "Connection error."))
    (Ok "unused") (Ok "unused").

(** OpenAI asks for a tool with arguments that are not JSON. *)
Definition world_bad_arguments : World :=
  scripted_world true true
    (fun _ _ =>
       Ok (Completion "tool_calls"
             (ResponseMessage None (Some [ToolCall "call_1" "get_flight_status" "{"]))))
    (Ok "unused") (Ok "unused").

(** A front end whose speech service is down and that finds no image. *)
Definition silent_frontend : Frontend := {|
  speech_create := fun _ _ => Raise (Exception "Connection error.");
  newest_destination_image := fun _ => Ok None
|}.

End Scenario.

(** ** Notions used to state the properties *)

Module Spec.

(** A log record of a failure, and one of a success, of a given model. *)
Definition failure_record_for (model : string) (e : log_entry) : bool :=
  String.eqb (le_model e) model && bool_decide (le_error e <> None).

Definition success_record_for (model : string) (e : log_entry) : bool :=
  String.eqb (le_model e) model && bool_decide (le_error e = None).

(** The error of one of the two limits of the interpreter. *)
Definition limit_error (e : exn) : Prop :=
  (exists what, e = ValueError what) \/ (exists what, e = RecursionError what).

(** An error text was supplied and is not empty. *)
Definition nonempty_error (error : option string) : bool :=
  match error with
  | Some text => negb (String.eqb text EmptyString)
  | None => false
  end.

(** The arithmetic mean of a list of numbers. *)
Definition mean (l : list Q) : Q := (py_sum l / inject_Z (Z.of_nat (length l)))%Q.

(** Descending order of scores. *)
Definition descending (a b : scored) : Prop := float_le (sc_score b) (sc_score a) = true.

(** The entries of a list that have a given score, in their order. *)
Definition with_score (q : pyfloat) (l : list scored) : list scored :=
  List.filter (fun r => float_eqb (sc_score r) q) l.

(** The score is a number or an infinity, not NaN. *)
Definition comparable (r : scored) : Prop := is_nan (sc_score r) = false.

(** [threshold <= x] and [x < threshold] for a float [x]. *)
Definition at_least (q : Q) (x : pyfloat) : Prop :=
  match x with
  | Finite y => (q <= y)%Q
  | NonFinite PosInfinity => True
  | NonFinite _ => False
  end.

Definition less_than (q : Q) (x : pyfloat) : Prop :=
  match x with
  | Finite y => (y < q)%Q
  | NonFinite NegInfinity => True
  | NonFinite _ => False
  end.

Section WithRuntime.
Context `{IN : Interpreter} `{RT : PyRuntime} `{W : World}.

(** [all_failed um hist models e s e' s']: from state [s] and last error [e],
    the attempts for [models], in order, all raise (or are skipped for a name
    that is no model), leaving state [s'] and last error [e']. *)
Inductive all_failed (user_message : string) (history : list turn)
  : list string -> option string -> state -> option string -> state -> Prop :=
  | all_failed_nil last s : all_failed user_message history [] last s last s
  | all_failed_raise model rest last s e s1 last' s' :
      attempt model user_message history s = (Raise e, s1) ->
      all_failed user_message history rest (Some (str_exn e)) s1 last' s' ->
      all_failed user_message history (model :: rest) last s last' s'
  | all_failed_skip model rest last s s1 last' s' :
      attempt model user_message history s = (Ok None, s1) ->
      all_failed user_message history rest last s1 last' s' ->
      all_failed user_message history (model :: rest) last s last' s'.

(** [resolved calls s results s']: from state [s] the tool calls, in order,
    all return, with the texts [results], leaving state [s']. *)
Inductive resolved : list tool_call -> state -> list string -> state -> Prop :=
  | resolved_nil s : resolved [] s [] s
  | resolved_cons call calls s result s1 results s' :
      execute_tool_call (tc_name call) (tc_arguments call) s = (Ok result, s1) ->
      resolved calls s1 results s' ->
      resolved (call :: calls) s (result :: results) s'.

(** The conversation sent first: system prompt, history, user message. *)
Definition first_messages (user_message : string) (history : list turn) : list message :=
  [MTurn (Turn "system" SYSTEM_MESSAGE)] ++ map MTurn history
  ++ [MTurn (Turn "user" user_message)].

(** The tool-result turns, correlated by invocation identifier. *)
Definition tool_turns (calls : list tool_call) (results : list string) : list message :=
  zip_with MTool (map tc_id calls) results.




(** The title and body block of one result. *)
Definition block (r : scored) : string :=
  match getitem (sc_document r) "title", getitem (sc_document r) "content" with
  | Ok title, Ok body => "**" +:+ fmt title +:+ "**
" +:+ fmt body +:+ "

"
  | _, _ => EmptyString
  end.

Definition blocks (results : list scored) : string :=
  fold_right (fun r acc => block r +:+ acc) EmptyString results.

(** The document of a result has a title and a content. *)
Definition has_title_and_content (r : scored) : Prop :=
  is_ok (getitem (sc_document r) "title") = true
  /\ is_ok (getitem (sc_document r) "content") = true.

End WithRuntime.

Section Embedding.
Context `{IN : Interpreter} `{RT : PyRuntime} `{W : World}.

(** [embedded_from t docs docs']: asked from interaction [t] on, one request
    per document, the embedding service answers for every document of [docs];
    each document is a dict with a title that is a string and a content, and
    [docs'] are the documents with the answers stored under the key
    embedding. *)
Inductive embedded_from : nat -> list json -> list json -> Prop :=
  | embedded_nil t : embedded_from t [] []
  | embedded_cons t d title body e docs docs' :
      dict_get "title" d = Some (JStr title) ->
      dict_get "content" d = Some body ->
      embeddings_create t (JStr (text_to_embed (JStr title) body)) = Ok e ->
      embedded_from (S t) docs docs' ->
      embedded_from t (JObj d :: docs) (set_embedding e (JObj d) :: docs').

End Embedding.

(** Two states differ at most in the knowledge base and the interaction
    counter. *)
Definition same_but_knowledge_base (s s' : state) : Prop :=
  refund_requests s' = refund_requests s
  /\ audit_logs s' = audit_logs s
  /\ analytics_data s' = analytics_data s
  /\ notification_callbacks s' = notification_callbacks s
  /\ files s' = files s
  /\ sent_requests s' = sent_requests s
  /\ sent_notifications s' = sent_notifications s
  /\ delivered s' = delivered s.

(** The payload object satisfies a tool descriptor: it has no additional
    property, every required property is there, and every value is a
    string. *)
Definition conforms (d : descriptor) (payload : list (string * json)) : Prop :=
  (forall k, In k (dict_keys payload) -> In k (map p_name (d_properties d)))
  /\ (forall r, In r (d_required d) -> dict_get r payload <> None)
  /\ (forall k v, dict_get k payload = Some v -> exists text, v = JStr text).

(** The sum of the counts of a usage table. *)
Definition usage_total (m : gmap string nat) : nat :=
  map_fold (fun _ count acc => (count + acc)%nat) 0%nat m.

(** The counters of the analytics agree with one another. *)
Definition consistent (a : analytics) : Prop :=
  total_queries a = length (response_times a)
  /\ (errors a <= total_queries a)%nat
  /\ usage_total (model_usage a) = total_queries a.

(** A computation leaves a component of the state as it was, whatever its
    outcome. *)
Definition preserves {X A : Type} (f : state -> X) (m : M A) : Prop :=
  forall s, f (snd (m s)) = f s.

End Spec.
Export Spec.

(** ** Properties *)

(** *** The decoder always answers *)

Module JsonFacts.

Lemma length_skip_ws s : (String.length (skip_ws s) <= String.length s)%nat.
Proof.
  induction s as [| c s IH]; cbn [skip_ws]; [lia |].
  destruct (is_ws c); cbn [String.length] in *; lia.
Qed.

Lemma length_drop_chars n s :
  String.length (drop_chars n s) = (String.length s - n)%nat.
Proof.
  revert s. induction n as [| n IH]; intros s; cbn [drop_chars]; [lia |].
  destruct s as [| c s]; cbn [String.length]; [reflexivity | apply IH].
Qed.

Lemma scanstring_shorter s : forall skip acc a rest,
  scanstring skip acc s = Scanned a rest ->
  (String.length rest < String.length s)%nat.
Proof.
  induction s as [| c s IH]; intros skip acc a rest H; cbn [scanstring] in H;
    [discriminate |].
  cbn [String.length].
  destruct skip as [| k]; [| apply IH in H; lia].
  repeat match type of H with
         | context [if ?b then _ else _] => destruct b
         | context [match ?x with _ => _ end] => destruct x
         end;
    try discriminate;
    try (inversion H; subst; lia);
    try (apply IH in H; cbn [String.length] in *; lia).
Qed.

Lemma scanstring_not_exhausted s : forall skip acc,
  scanstring skip acc s <> Exhausted.
Proof.
  induction s as [| c s IH]; intros skip acc; cbn [scanstring]; [discriminate |].
  destruct skip as [| k]; [| apply IH].
  repeat match goal with
         | |- context [if ?b then _ else _] => destruct b
         | |- context [match ?x with _ => _ end] => destruct x
         end;
    try discriminate; try apply IH.
Qed.

Lemma scanstring_not_refused s : forall skip acc e,
  scanstring skip acc s <> Refused e.
Proof.
  induction s as [| c s IH]; intros skip acc e; cbn [scanstring]; [discriminate |].
  destruct skip as [| k]; [| apply IH].
  repeat match goal with
         | |- context [if ?b then _ else _] => destruct b
         | |- context [match ?x with _ => _ end] => destruct x
         end;
    try discriminate; try apply IH.
Qed.

Lemma int_digits_nonempty body :
  int_digits body <> [] -> (1 <= String.length body)%nat.
Proof. destruct body; cbn; [congruence | lia]. Qed.

Local Opaque drop_chars.

Lemma match_number_shorter s v rest :
  match_number s = Some (v, rest) -> (String.length rest < String.length s)%nat.
Proof.
  unfold match_number.
  set (nb := match s with
             | String c r => if Ascii.eqb c "-"%char then (true, r) else (false, s)
             | EmptyString => (false, s)
             end).
  assert (Hbody : (String.length (snd nb) <= String.length s)%nat).
  { subst nb. destruct s as [| c r]; [cbn; lia |].
    destruct (Ascii.eqb c "-"%char); cbn; lia. }
  destruct nb as [neg body]. cbn [snd] in Hbody.
  destruct (int_digits body) as [| d ip] eqn:Hip; [discriminate |].
  assert (Hne : (1 <= String.length body)%nat)
    by (apply int_digits_nonempty; congruence).
  intros H.
  assert (Hrest : (String.length rest
                   <= String.length (drop_chars (length (d :: ip)) body))%nat).
  { repeat match type of H with
           | context [match ?x with _ => _ end] => destruct x
           end;
      injection H as _ Hr; rewrite <- Hr; rewrite ?length_drop_chars;
      cbn [length]; lia. }
  rewrite length_drop_chars in Hrest. cbn [length] in Hrest. lia.
Qed.

Ltac scan_facts IHonce IHitems IHmembers :=
  repeat match goal with
         | H : scanstring _ _ _ = Scanned _ _ |- _ => apply scanstring_shorter in H
         | H : scan_once _ _ _ = Scanned _ _ |- _ => apply IHonce in H
         | H : scan_items _ _ _ _ = Scanned _ _ |- _ => apply IHitems in H
         | H : scan_members _ _ _ _ = Scanned _ _ |- _ => apply IHmembers in H
         | H : match_number _ = Some (_, _) |- _ => apply match_number_shorter in H
         | H : skip_ws ?s = _ |- _ =>
             let L := fresh "L" in
             pose proof (length_skip_ws s) as L; rewrite H in L; clear H
         | H : context [String.length (skip_ws ?s)] |- _ =>
             let L := fresh "L" in
             let x := fresh "x" in
             pose proof (length_skip_ws s) as L; set (x := skip_ws s) in *; clearbody x
         | |- context [String.length (skip_ws ?s)] =>
             let L := fresh "L" in
             let x := fresh "x" in
             pose proof (length_skip_ws s) as L; set (x := skip_ws s) in *; clearbody x
         end;
  rewrite ?length_drop_chars; cbn [String.length] in *; try lia.

Ltac split_scan H :=
  repeat match type of H with
         | context [if ?b then _ else _] => destruct b eqn:?
         | context [match ?x with _ => _ end] => destruct x eqn:?
         end.

Section WithInterpreter.
Context `{IN : Interpreter}.

(** A scan that succeeds has read at least one character. *)
Lemma scan_consumes fuel :
  (forall depth s v rest, scan_once fuel depth s = Scanned v rest ->
     (String.length rest < String.length s)%nat)
  /\ (forall depth acc s v rest, scan_items fuel depth acc s = Scanned v rest ->
        (String.length rest < String.length s)%nat)
  /\ (forall depth acc s v rest, scan_members fuel depth acc s = Scanned v rest ->
        (String.length rest < String.length s)%nat).
Proof.
  induction fuel as [| fuel (IHonce & IHitems & IHmembers)].
  { repeat split; intros; discriminate. }
  split; [| split].
  - intros depth s v rest H. cbn [scan_once] in H.
    destruct s as [| c s]; [discriminate |].
    split_scan H; try discriminate; inversion H; subst; clear H;
      scan_facts IHonce IHitems IHmembers.
  - intros depth acc s v rest H. cbn [scan_items] in H.
    split_scan H; try discriminate; inversion H; subst; clear H;
      scan_facts IHonce IHitems IHmembers.
  - intros depth acc s v rest H. cbn [scan_members] in H.
    split_scan H; try discriminate; inversion H; subst; clear H;
      scan_facts IHonce IHitems IHmembers.
Qed.


(** With a budget above twice the length of the text the scan never runs out
    of it. *)
Lemma scan_budget fuel :
  (forall depth s, (2 * String.length s < fuel)%nat -> scan_once fuel depth s <> Exhausted)
  /\ (forall depth acc s, (2 * String.length s + 1 < fuel)%nat ->
        scan_items fuel depth acc s <> Exhausted)
  /\ (forall depth acc s, (2 * String.length s + 1 < fuel)%nat ->
        scan_members fuel depth acc s <> Exhausted).
Proof.
  induction fuel as [| fuel (IHonce & IHitems & IHmembers)].
  { repeat split; intros; lia. }
  pose proof (scan_consumes fuel) as (Conce & Citems & Cmembers).
  split; [| split].
  - intros depth s Hfuel H. cbn [scan_once] in H.
    destruct s as [| c s]; [discriminate |].
    split_scan H; try discriminate;
      try (eapply scanstring_not_exhausted; eassumption);
      first [ eapply IHitems; [| eassumption] | eapply IHmembers; [| eassumption] ];
      scan_facts Conce Citems Cmembers.
  - intros depth acc s Hfuel H. cbn [scan_items] in H.
    split_scan H; try discriminate;
      first [ eapply IHonce; [| eassumption] | eapply IHitems; [| eassumption] ];
      scan_facts Conce Citems Cmembers.
  - intros depth acc s Hfuel H. cbn [scan_members] in H.
    split_scan H; try discriminate;
      try (eapply scanstring_not_exhausted; eassumption);
      first [ eapply IHonce; [| eassumption] | eapply IHmembers; [| eassumption] ];
      scan_facts Conce Citems Cmembers.
Qed.

(** An exception that ends the decoding is one of the two limits. *)
Lemma scan_refused fuel :
  (forall depth s e, scan_once fuel depth s = Refused e -> limit_error e)
  /\ (forall depth acc s e, scan_items fuel depth acc s = Refused e -> limit_error e)
  /\ (forall depth acc s e, scan_members fuel depth acc s = Refused e -> limit_error e).
Proof.
  induction fuel as [| fuel (IHonce & IHitems & IHmembers)].
  { repeat split; intros; discriminate. }
  split; [| split].
  - intros depth s e H. cbn [scan_once] in H.
    destruct s as [| c s]; [discriminate |].
    split_scan H; try discriminate;
      try (exfalso; eapply scanstring_not_refused; eassumption);
      try (injection H as <-; unfold limit_error; eauto; fail);
      first [ eapply IHitems; eassumption | eapply IHmembers; eassumption ].
  - intros depth acc s e H. cbn [scan_items] in H.
    split_scan H; try discriminate;
      try (injection H as <-; eapply IHonce; eassumption);
      eapply IHitems; eassumption.
  - intros depth acc s e H. cbn [scan_members] in H.
    split_scan H; try discriminate;
      try (exfalso; eapply scanstring_not_refused; eassumption);
      try (injection H as <-; eapply IHonce; eassumption);
      eapply IHmembers; eassumption.
Qed.

Local Transparent drop_chars.

(** [loads] never runs out of budget: it returns a value, raises the
    decoder's error, or raises the error of one of the two limits. *)
Theorem loads_total text :
  (exists v, loads text = Ok v)
  \/ (exists msg pos, loads text = Raise (JSONDecodeError msg pos))
  \/ (exists e, loads text = Raise e /\ limit_error e).
Proof.
  unfold loads.
  pose proof (scan_budget (S (2 * String.length (skip_ws text)))) as (Honce & _ & _).
  specialize (Honce recursion_budget (skip_ws text) ltac:(lia)).
  pose proof (scan_refused (S (2 * String.length (skip_ws text)))) as (Href & _ & _).
  specialize (Href recursion_budget (skip_ws text)).
  destruct (scan_once _ _ _) as [v rest | msg r | e |];
    [| right; left; eauto | right; right; eauto | congruence].
  destruct (skip_ws rest); [left | right; left]; eauto.
Qed.

End WithInterpreter.

End JsonFacts.


(** *** The fallback sequence *)

Module FallbackOrder.

Lemma eqb_false (a b : string) : a <> b -> String.eqb a b = false.
Proof. intros Hab. apply String.eqb_neq. exact Hab. Qed.

Ltac nodup_strings :=
  repeat (apply NoDup_cons; split;
          [rewrite ?elem_of_cons, elem_of_nil; intuition congruence |]);
  apply NoDup_nil; exact I.

Lemma models_to_try_other (p : string) :
  p <> "openai" -> p <> "claude" -> p <> "gemini" ->
  models_to_try p = [p; "openai"; "claude"; "gemini"].
Proof.
  intros H1 H2 H3.
  unfold models_to_try, add_fallback_models, all_models. cbn [fold_left].
  rewrite (bool_decide_eq_false_2 ("openai" ∈ [p])).
  2: { rewrite elem_of_cons, elem_of_nil. intros [E | []]; congruence. }
  cbn [app].
  rewrite (bool_decide_eq_false_2 ("claude" ∈ [p; "openai"])).
  2: { rewrite !elem_of_cons, elem_of_nil. intros [E | [E | []]]; congruence. }
  cbn [app].
  rewrite (bool_decide_eq_false_2 ("gemini" ∈ [p; "openai"; "claude"])).
  2: { rewrite !elem_of_cons, elem_of_nil. intros [E | [E | [E | []]]]; congruence. }
  reflexivity.
Qed.

Lemma models_to_try_unfold (p : string) :
  models_to_try p =
  p :: List.filter (fun m => negb (String.eqb m p)) all_models.
Proof.
  destruct (decide (p = "openai")) as [-> | H1]; [reflexivity |].
  destruct (decide (p = "claude")) as [-> | H2]; [reflexivity |].
  destruct (decide (p = "gemini")) as [-> | H3]; [reflexivity |].
  rewrite models_to_try_other by assumption.
  unfold all_models. cbn [List.filter].
  rewrite !eqb_false by congruence. reflexivity.
Qed.

(** C1: the attempt sequence starts with the preferred backend, continues
    with the other backends in the order openai, claude, gemini, holds no
    name twice, holds each of the three backends exactly once, and is
    [claude, openai, gemini] when claude is preferred. *)
Theorem fallback_sequence (preferred_model : string) :
  models_to_try preferred_model =
    preferred_model
    :: List.filter (fun m => negb (String.eqb m preferred_model)) all_models
  /\ NoDup (models_to_try preferred_model)
  /\ map (fun m => count_occ string_dec (models_to_try preferred_model) m) all_models
     = [1; 1; 1]%nat
  /\ models_to_try "claude" = ["claude"; "openai"; "gemini"].
Proof.
  split; [apply models_to_try_unfold |].
  destruct (decide (preferred_model = "openai")) as [-> | H1].
  { split; [cbv; nodup_strings |]. split; reflexivity. }
  destruct (decide (preferred_model = "claude")) as [-> | H2].
  { split; [cbv; nodup_strings |]. split; reflexivity. }
  destruct (decide (preferred_model = "gemini")) as [-> | H3].
  { split; [cbv; nodup_strings |]. split; reflexivity. }
  rewrite models_to_try_other by assumption.
  split; [| split; [| reflexivity]].
  - nodup_strings.
  - unfold all_models. cbn [map count_occ].
    repeat (destruct (string_dec _ _); try congruence).
Qed.

End FallbackOrder.

(** *** The analytics invariant of [log_interaction] *)

Module Logging.

Section WithRuntime.
Context `{IN : Interpreter} `{RT : PyRuntime} `{W : World}.

(** What a call with a response text does, in one equation. *)
Lemma log_interaction_some um response tools model rt error s :
  log_interaction um (Some response) tools model rt error s =
  let entry :=
    LogEntry (datetime_now (tick s)) um
      (if (500 <? Py.len response)%nat then Py.slice_to 500 response +:+ "..."
       else response)
      (default [] tools) model (round2 (rt * 1000)) error in
  (Ok entry,
   set_analytics_data
     (update_analytics (default [] tools) model rt error (analytics_data s))
     (set_audit_logs (audit_logs s ++ [entry]) (set_tick (S (tick s)) s))).
Proof. reflexivity. Qed.

Lemma log_interaction_none um tools model rt error s :
  exists e, log_interaction um None tools model rt error s
            = (Raise e, set_tick (S (tick s)) s).
Proof. eexists. reflexivity. Qed.

(** C9 (amended): every call keeps [total_queries] equal to the length of
    [response_times].  A call that is given a response text returns its entry
    and appends exactly that entry to the audit log; it sets
    [avg_response_time] to the mean of [response_times], and adds one to
    [errors] exactly when the error supplied is a non-empty text.  A call
    whose response is None raises TypeError before anything is stored: no
    entry is appended and no counter changes, whatever the error supplied. *)
Theorem log_interaction_invariant um assistant_response tools model rt error s :
  total_queries (analytics_data s) = length (response_times (analytics_data s)) ->
  (let s' := snd (log_interaction um assistant_response tools model rt error s) in
   total_queries (analytics_data s') = length (response_times (analytics_data s')))
  /\ (forall response, assistant_response = Some response ->
      exists entry s',
        log_interaction um assistant_response tools model rt error s = (Ok entry, s')
        /\ audit_logs s' = audit_logs s ++ [entry]
        /\ total_queries (analytics_data s') = length (response_times (analytics_data s'))
        /\ avg_response_time (analytics_data s') = mean (response_times (analytics_data s'))
        /\ response_times (analytics_data s') = response_times (analytics_data s) ++ [rt]
        /\ (nonempty_error error = true ->
            errors (analytics_data s') = S (errors (analytics_data s)))
        /\ (nonempty_error error = false ->
            errors (analytics_data s') = errors (analytics_data s)))
  /\ (assistant_response = None ->
      exists what s',
        log_interaction um assistant_response tools model rt error s
        = (Raise (TypeError what), s')
        /\ audit_logs s' = audit_logs s
        /\ analytics_data s' = analytics_data s).
Proof.
  intros Hinv.
  assert (Hsome : forall response, assistant_response = Some response ->
            exists entry s',
              log_interaction um assistant_response tools model rt error s = (Ok entry, s')
              /\ audit_logs s' = audit_logs s ++ [entry]
              /\ total_queries (analytics_data s')
                 = length (response_times (analytics_data s'))
              /\ avg_response_time (analytics_data s')
                 = mean (response_times (analytics_data s'))
              /\ response_times (analytics_data s')
                 = response_times (analytics_data s) ++ [rt]
              /\ (nonempty_error error = true ->
                  errors (analytics_data s') = S (errors (analytics_data s)))
              /\ (nonempty_error error = false ->
                  errors (analytics_data s') = errors (analytics_data s))).
  { intros response ->. rewrite log_interaction_some. cbv zeta.
    eexists _, _. split; [reflexivity |].
    cbn [audit_logs analytics_data set_analytics_data set_audit_logs set_tick
         update_analytics total_queries response_times avg_response_time errors].
    split; [reflexivity |].
    split; [rewrite length_app, Hinv; cbn; lia |].
    split; [reflexivity |].
    split; [reflexivity |].
    unfold nonempty_error.
    destruct error as [text |]; [destruct (String.eqb text EmptyString) |];
      cbn; split; intros; try congruence; lia. }
  split; [| split; [exact Hsome |]].
  - cbv zeta. destruct assistant_response as [response |].
    + destruct (Hsome response eq_refl) as (entry & s' & Hrun & _ & Htotal & _).
      rewrite Hrun. exact Htotal.
    + cbn. exact Hinv.
  - intros ->. eexists _, _. split; [reflexivity |]. split; reflexivity.
Qed.

End WithRuntime.

(** The invariant at work on the first interaction of a fresh process. *)
Lemma log_interaction_invariant_witness :
  exists entry s',
    log_interaction (W := Scenario.world_down)
      "hello" (Some "Welcome aboard") (Some ["lookup_booking"]) "openai" (3 # 2)
      (Some "timeout") Scenario.initial_state = (Ok entry, s')
    /\ audit_logs s' = audit_logs Scenario.initial_state ++ [entry]
    /\ total_queries (analytics_data s') = length (response_times (analytics_data s'))
    /\ avg_response_time (analytics_data s') = mean (response_times (analytics_data s'))
    /\ response_times (analytics_data s')
       = response_times (analytics_data Scenario.initial_state) ++ [3 # 2]
    /\ (nonempty_error (Some "timeout") = true ->
        errors (analytics_data s') = S (errors (analytics_data Scenario.initial_state)))
    /\ (nonempty_error (Some "timeout") = false ->
        errors (analytics_data s') = errors (analytics_data Scenario.initial_state)).
Proof.
  destruct (log_interaction_invariant (W := Scenario.world_down)
              "hello" (Some "Welcome aboard") (Some ["lookup_booking"]) "openai" (3 # 2)
              (Some "timeout") Scenario.initial_state eq_refl) as (_ & Hsome & _).
  exact (Hsome "Welcome aboard" eq_refl).
Defined.

(** C9 as stated fails: an error that is the empty text (the [str] of an
    exception raised without a message) is not null, and the counter stays. *)
Lemma log_interaction_empty_error_not_counted :
  let s' := snd (log_interaction (W := Scenario.world_down)
                   "hello" (Some "Welcome aboard") None "openai" 0 (Some EmptyString)
                   Scenario.initial_state) in
  Some EmptyString <> (None : option string)
  /\ errors (analytics_data s') <> S (errors (analytics_data Scenario.initial_state))
  /\ errors (analytics_data s') = errors (analytics_data Scenario.initial_state).
Proof.
  cbv zeta. split; [discriminate |]. split; [cbn; lia | reflexivity].
Qed.

End Logging.

(** *** Which parts of the state each function leaves alone *)

Module Frame.

Section Generic.
Context {X : Type} (f : state -> X).

Lemma preserves_ret {A} (a : A) : preserves f (ret a).
Proof. intros s. reflexivity. Qed.

Lemma preserves_raise {A} (e : exn) : preserves f (raise (A := A) e).
Proof. intros s. reflexivity. Qed.

Lemma preserves_lift {A} (r : result A) : preserves f (lift r).
Proof. intros s. reflexivity. Qed.

Lemma preserves_get : preserves f get.
Proof. intros s. reflexivity. Qed.

Lemma preserves_modify (g : state -> state) :
  (forall s, f (g s) = f s) -> preserves f (modify g).
Proof. intros Hg s. apply Hg. Qed.

Lemma preserves_bind {A B} (m : M A) (k : A -> M B) :
  preserves f m -> (forall a, preserves f (k a)) -> preserves f (bind m k).
Proof.
  intros Hm Hk s. unfold bind. specialize (Hm s).
  destruct (m s) as [[a | e] s1]; cbn in *.
  - rewrite Hk. exact Hm.
  - exact Hm.
Qed.

Lemma preserves_try {A} (m : M A) (h : exn -> M A) :
  preserves f m -> (forall e, preserves f (h e)) -> preserves f (try_except m h).
Proof.
  intros Hm Hh s. unfold try_except. specialize (Hm s).
  destruct (m s) as [[a | e] s1]; cbn in *.
  - exact Hm.
  - rewrite Hh. exact Hm.
Qed.

Lemma preserves_next_tick :
  (forall n s, f (set_tick n s) = f s) -> preserves f next_tick.
Proof. intros Ht s. apply Ht. Qed.

End Generic.

Ltac frame_step :=
  first
    [ assumption
    | match goal with
      | H : forall _, preserves _ _ |- _ => solve [apply H]
      | H : forall _ _, preserves _ _ |- _ => solve [apply H]
      | H : forall _ _ _, preserves _ _ |- _ => solve [apply H]
      | H : forall _ _ _ _ _ _, preserves _ _ |- _ => solve [apply H]
      end
    | apply preserves_ret
    | apply preserves_raise
    | apply preserves_lift
    | apply preserves_get
    | apply preserves_next_tick; solve [auto]
    | apply preserves_modify; intros; solve [auto]
    | apply preserves_bind; [| intros]
    | apply preserves_try; [| intros]
    | match goal with
      | |- preserves _ (match ?x with _ => _ end) => destruct x
      end ].

Section Functions.
Context `{IN : Interpreter} `{RT : PyRuntime} `{W : World}.
Context {X : Type} (f : state -> X).

Hypothesis f_tick : forall n s, f (set_tick n s) = f s.

Section Tools.
Hypothesis f_refund : forall r s, f (set_refund_requests r s) = f s.
Hypothesis f_files : forall x s, f (set_files x s) = f s.

Lemma process_refund_preserves pnr reason : preserves f (process_refund pnr reason).
Proof. unfold process_refund. repeat frame_step. Qed.

Lemma get_destination_image_preserves city client :
  preserves f (get_destination_image city client).
Proof. unfold get_destination_image. repeat frame_step. Qed.

Lemma execute_tool_preserves name args client :
  preserves f (execute_tool name args client).
Proof.
  pose proof process_refund_preserves. pose proof get_destination_image_preserves.
  unfold execute_tool. repeat frame_step.
Qed.

Lemma search_knowledge_base_preserves query k :
  preserves f (search_knowledge_base query k).
Proof. unfold search_knowledge_base, get_embedding. repeat frame_step. Qed.

Lemma search_airline_policies_preserves query :
  preserves f (search_airline_policies query).
Proof.
  pose proof search_knowledge_base_preserves.
  unfold search_airline_policies. repeat frame_step.
Qed.

Lemma execute_tool_call_preserves name args :
  preserves f (execute_tool_call name args).
Proof.
  pose proof execute_tool_preserves. pose proof search_airline_policies_preserves.
  unfold execute_tool_call. repeat frame_step.
Qed.

Lemma run_tool_calls_preserves calls messages used :
  preserves f (run_tool_calls calls messages used).
Proof.
  pose proof execute_tool_call_preserves.
  revert messages used. induction calls as [| c calls IH]; intros; cbn [run_tool_calls].
  - frame_step.
  - repeat frame_step.
Qed.

Lemma chat_claude_preserves um hist : preserves f (chat_claude um hist).
Proof. unfold chat_claude. repeat frame_step. Qed.

Lemma chat_gemini_preserves um hist : preserves f (chat_gemini um hist).
Proof. unfold chat_gemini. repeat frame_step. Qed.

Section Requests.
Hypothesis f_requests : forall r s, f (set_sent_requests r s) = f s.

Lemma create_preserves request : preserves f (create request).
Proof. unfold create. repeat frame_step. Qed.

Lemma chat_with_tools_preserves um hist : preserves f (chat_with_tools um hist).
Proof.
  pose proof create_preserves. pose proof run_tool_calls_preserves.
  unfold chat_with_tools. repeat frame_step.
Qed.

Lemma dispatch_preserves model um hist : preserves f (dispatch model um hist).
Proof.
  pose proof chat_with_tools_preserves. pose proof chat_claude_preserves.
  pose proof chat_gemini_preserves.
  unfold dispatch. repeat frame_step.
Qed.

(** An attempt changes the logs only through [log_interaction]. *)
Section Logs.
Hypothesis f_logs : forall l s, f (set_audit_logs l s) = f s.
Hypothesis f_analytics : forall a s, f (set_analytics_data a s) = f s.

Lemma log_interaction_preserves um r tools model rt error :
  preserves f (log_interaction um r tools model rt error).
Proof. unfold log_interaction. repeat frame_step. Qed.

Lemma attempt_preserves model um hist : preserves f (attempt model um hist).
Proof.
  pose proof dispatch_preserves. pose proof log_interaction_preserves.
  unfold attempt. repeat frame_step.
Qed.

End Logs.
End Requests.
End Tools.
End Functions.

End Frame.

(** *** The fallback orchestrator *)

Module Fallback.

Section WithRuntime.
Context `{IN : Interpreter} `{RT : PyRuntime} `{W : World}.

(** One attempt, step by step. *)
Lemma attempt_unfold model um hist s :
  attempt model um hist s =
  match dispatch model um hist (set_tick (S (tick s)) s) with
  | (Raise e, s1) => (Raise e, s1)
  | (Ok None, s1) => (Ok None, s1)
  | (Ok (Some (response, tools_used)), s1) =>
      match log_interaction um response (Some tools_used) model
              (time_time (tick s1) - time_time (tick s))%Q None
              (set_tick (S (tick s1)) s1) with
      | (Ok _, s2) => (Ok (Some (response, model, tools_used)), s2)
      | (Raise e, s2) => (Raise e, s2)
      end
  end.
Proof.
  unfold attempt, bind, next_tick.
  destruct (dispatch model um hist (set_tick (S (tick s)) s))
    as [[[[response tools_used] |] | e] s1]; reflexivity.
Qed.

(** The three models are never skipped. *)
Lemma dispatch_known model um hist s :
  In model all_models -> fst (dispatch model um hist s) <> Ok None.
Proof.
  intros [<- | [<- | [<- | []]]]; unfold dispatch; cbn [String.eqb Ascii.eqb Bool.eqb];
    unfold bind.
  - destruct (chat_with_tools um hist s) as [[[response tools_used] | e] s1];
      cbn; discriminate.
  - destruct (chat_claude um hist s) as [[response | e] s1]; cbn; discriminate.
  - destruct (chat_gemini um hist s) as [[response | e] s1]; cbn; discriminate.
Qed.

Lemma attempt_known model um hist s :
  In model all_models -> fst (attempt model um hist s) <> Ok None.
Proof.
  intros Hin. rewrite attempt_unfold.
  pose proof (dispatch_known model um hist (set_tick (S (tick s)) s) Hin) as Hd.
  destruct (dispatch model um hist (set_tick (S (tick s)) s))
    as [[[[response tools_used] |] | e] s1]; cbn [fst] in *;
    try discriminate; try congruence.
  match goal with
  | |- context [log_interaction ?a ?b ?c ?d ?e ?f ?g] =>
      destruct (log_interaction a b c d e f g) as [[entry | e'] s2]
  end; cbn; discriminate.
Qed.

(** A component that the tools, the requests and the clock do not touch is
    left as it was by an attempt that does not succeed. *)
Lemma attempt_failed_preserves {X} (f : state -> X) model um hist s r s1 :
  (forall n s, f (set_tick n s) = f s) ->
  (forall x s, f (set_refund_requests x s) = f s) ->
  (forall x s, f (set_files x s) = f s) ->
  (forall x s, f (set_sent_requests x s) = f s) ->
  attempt model um hist s = (r, s1) ->
  (forall out, r <> Ok (Some out)) ->
  f s1 = f s.
Proof.
  intros Ht Hr Hf Hq Hrun Hfail. rewrite attempt_unfold in Hrun.
  pose proof (Frame.dispatch_preserves f Ht Hr Hf Hq model um hist
                (set_tick (S (tick s)) s)) as Hd.
  rewrite Ht in Hd.
  destruct (dispatch model um hist (set_tick (S (tick s)) s))
    as [[[[response tools_used] |] | e] s0]; cbn [snd] in Hd.
  - destruct response as [response |].
    + rewrite Logging.log_interaction_some in Hrun. cbv zeta in Hrun.
      inversion Hrun; subst. exfalso. eapply Hfail. reflexivity.
    + destruct (Logging.log_interaction_none um (Some tools_used) model
                  (time_time (tick s0) - time_time (tick s))%Q None
                  (set_tick (S (tick s0)) s0)) as [e He].
      rewrite He in Hrun. inversion Hrun; subst. rewrite !Ht. exact Hd.
  - inversion Hrun; subst. exact Hd.
  - inversion Hrun; subst. exact Hd.
Qed.

Lemma all_failed_preserves {X} (f : state -> X) um hist models last s last' s' :
  (forall n s, f (set_tick n s) = f s) ->
  (forall x s, f (set_refund_requests x s) = f s) ->
  (forall x s, f (set_files x s) = f s) ->
  (forall x s, f (set_sent_requests x s) = f s) ->
  all_failed um hist models last s last' s' ->
  f s' = f s.
Proof.
  intros Ht Hr Hf Hq Hall.
  induction Hall as [last s | model rest last s e s1 last' s' Hrun _ IH
                     | model rest last s s1 last' s' Hrun _ IH].
  - reflexivity.
  - rewrite IH. eapply (attempt_failed_preserves f); eauto; intros out; discriminate.
  - rewrite IH. eapply (attempt_failed_preserves f); eauto; intros out; discriminate.
Qed.

(** After a failed run the loop goes on with what is left. *)
Lemma try_models_all_failed um hist models last s last' s' rest :
  all_failed um hist models last s last' s' ->
  try_models (models ++ rest) last um hist s = try_models rest last' um hist s'.
Proof.
  intros Hall.
  induction Hall as [last s | model tl last s e s1 last' s' Hrun _ IH
                     | model tl last s s1 last' s' Hrun _ IH].
  - reflexivity.
  - cbn [app try_models]. unfold bind at 1. unfold try_except, bind at 1.
    rewrite Hrun. cbn. exact IH.
  - cbn [app try_models]. unfold bind at 1. unfold try_except, bind at 1.
    rewrite Hrun. cbn. exact IH.
Qed.

(** The path taken when the loop ends, in one equation. *)
Lemma try_models_nil last um hist s :
  try_models [] last um hist s =
  let entry :=
    LogEntry (datetime_now (tick s)) um error_response [] DEFAULT_MODEL
      (round2 (0 * 1000)) last in
  let notification :=
    Notification (datetime_now (S (tick s))) "All Models Failed" last "error" in
  (Ok (Some error_response, "none", []),
   set_delivered
     (delivered s ++ run_callbacks notification (notification_callbacks s))
     (set_sent_notifications (sent_notifications s ++ [notification])
        (set_tick (S (S (tick s)))
           (set_analytics_data
              (update_analytics [] DEFAULT_MODEL 0 last (analytics_data s))
              (set_audit_logs (audit_logs s ++ [entry]) (set_tick (S (tick s)) s)))))).
Proof. reflexivity. Qed.

(** C10: on the path taken when every attempt has failed, the record written
    to the audit log carries the default model name "gpt-4o-mini", which is
    the model of the Primary backend and not the "none" returned to the
    caller, and a zero response time; the usage count of "gpt-4o-mini" goes up
    by one and no other count changes. *)
Theorem all_failed_logged_as_default_model um hist preferred s last s1 :
  all_failed um hist (models_to_try preferred) None s last s1 ->
  exists entry s2,
    chat_with_fallback um hist preferred s
      = (Ok (Some error_response, "none", []), s2)
    /\ audit_logs s2 = audit_logs s ++ [entry]
    /\ le_model entry = "gpt-4o-mini"
    /\ le_model entry = OPENAI_MODEL
    /\ le_model entry <> "none"
    /\ (le_response_time_ms entry == 0)%Q
    /\ le_error entry = last
    /\ response_times (analytics_data s2) = response_times (analytics_data s) ++ [0%Q]
    /\ model_usage (analytics_data s2) !! "gpt-4o-mini"
       = Some (S (default 0%nat (model_usage (analytics_data s) !! "gpt-4o-mini")))
    /\ (forall m, m <> "gpt-4o-mini" ->
        model_usage (analytics_data s2) !! m = model_usage (analytics_data s) !! m).
Proof.
  intros Hall.
  pose proof (try_models_all_failed um hist _ _ _ _ _ [] Hall) as Hrun.
  rewrite app_nil_r in Hrun.
  pose proof (all_failed_preserves audit_logs um hist _ _ _ _ _
                ltac:(reflexivity) ltac:(reflexivity) ltac:(reflexivity)
                ltac:(reflexivity) Hall) as Hlogs.
  pose proof (all_failed_preserves analytics_data um hist _ _ _ _ _
                ltac:(reflexivity) ltac:(reflexivity) ltac:(reflexivity)
                ltac:(reflexivity) Hall) as Han.
  unfold chat_with_fallback. rewrite Hrun, try_models_nil. cbv zeta.
  eexists _, _. split; [reflexivity |].
  cbn [audit_logs analytics_data set_delivered set_sent_notifications set_tick
       set_analytics_data set_audit_logs update_analytics model_usage response_times
       le_model le_response_time_ms le_error].
  rewrite Hlogs, Han.
  split; [reflexivity |]. split; [reflexivity |]. split; [reflexivity |].
  split; [unfold DEFAULT_MODEL; discriminate |].
  split; [reflexivity |]. split; [reflexivity |]. split; [reflexivity |].
  unfold count_up, DEFAULT_MODEL. split.
  - rewrite lookup_insert_eq. f_equal. lia.
  - intros m Hm. rewrite lookup_insert_ne by congruence. reflexivity.
Qed.

(** A successful attempt appends one record: that of its model, without
    error. *)
Lemma attempt_success model um hist s out s2 :
  attempt model um hist s = (Ok (Some out), s2) ->
  exists entry,
    snd (fst out) = model
    /\ audit_logs s2 = audit_logs s ++ [entry]
    /\ le_model entry = model
    /\ le_error entry = None
    /\ Some (le_assistant_response entry)
       = option_map (fun r => if (500 <? Py.len r)%nat
                              then Py.slice_to 500 r +:+ "..." else r)
           (fst (fst out)).
Proof.
  intros Hrun. rewrite attempt_unfold in Hrun.
  pose proof (Frame.dispatch_preserves audit_logs ltac:(reflexivity) ltac:(reflexivity)
                ltac:(reflexivity) ltac:(reflexivity) model um hist
                (set_tick (S (tick s)) s)) as Hd.
  destruct (dispatch model um hist (set_tick (S (tick s)) s))
    as [[[[response tools_used] |] | e] s0]; cbn [snd] in Hd; try discriminate.
  destruct response as [response |].
  - rewrite Logging.log_interaction_some in Hrun. cbv zeta in Hrun.
    inversion Hrun; subst. eexists.
    cbn [audit_logs set_analytics_data set_audit_logs set_tick snd fst
         le_model le_error le_assistant_response option_map].
    rewrite Hd. cbn [audit_logs set_tick]. repeat split; reflexivity.
  - destruct (Logging.log_interaction_none um (Some tools_used) model
                (time_time (tick s0) - time_time (tick s))%Q None
                (set_tick (S (tick s0)) s0)) as [e He].
    rewrite He in Hrun. discriminate.
Qed.

(** C4 (amended): when the attempts made before claude, openai among them,
    raise and the attempt of claude succeeds, the exchange returns what claude
    returned with backend identity claude, and the audit log gains exactly one
    record: the success record of claude.  No record is written for the failure
    of openai. *)
Theorem primary_fails_secondary_succeeds um hist preferred s pre post last s1 out s2 :
  models_to_try preferred = pre ++ "claude" :: post ->
  In "openai" pre ->
  all_failed um hist pre None s last s1 ->
  attempt "claude" um hist s1 = (Ok (Some out), s2) ->
  exists entry,
    chat_with_fallback um hist preferred s = (Ok out, s2)
    /\ snd (fst out) = "claude"
    /\ audit_logs s2 = audit_logs s ++ [entry]
    /\ le_model entry = "claude"
    /\ le_error entry = None
    /\ length (List.filter (success_record_for "claude") [entry]) = 1%nat
    /\ length (List.filter (failure_record_for "openai") [entry]) = 0%nat.
Proof.
  intros Hseq Hin Hall Hrun.
  destruct (attempt_success _ _ _ _ _ _ Hrun) as (entry & Hmodel & Hlogs & Hm & He & _).
  pose proof (all_failed_preserves audit_logs um hist _ _ _ _ _
                ltac:(reflexivity) ltac:(reflexivity) ltac:(reflexivity)
                ltac:(reflexivity) Hall) as Hframe.
  exists entry.
  split.
  { unfold chat_with_fallback. rewrite Hseq.
    rewrite (try_models_all_failed um hist _ _ _ _ _ ("claude" :: post) Hall).
    cbn [try_models]. unfold bind at 1. unfold try_except, bind at 1.
    rewrite Hrun. reflexivity. }
  split; [exact Hmodel |].
  split; [rewrite Hlogs, Hframe; reflexivity |].
  split; [exact Hm |]. split; [exact He |].
  unfold success_record_for, failure_record_for. cbn [List.filter].
  rewrite Hm, He. split; reflexivity.
Qed.

End WithRuntime.

End Fallback.

Module FallbackExamples.
Import Scenario.

(** With every service down and claude preferred, the three attempts raise in
    the order claude, openai, gemini. *)
Lemma world_down_all_failed :
  exists s1,
    all_failed (RT := scripted_runtime) (W := world_down) "hi" []
      (models_to_try "claude") None initial_state (Some "Quota exceeded") s1.
Proof.
  eexists.
  eapply all_failed_raise; [vm_compute; reflexivity |].
  eapply all_failed_raise; [vm_compute; reflexivity |].
  eapply all_failed_raise; [vm_compute; reflexivity |].
  apply all_failed_nil.
Defined.

Lemma all_failed_logged_as_default_model_witness :
  exists entry s2,
    chat_with_fallback (RT := scripted_runtime) (W := world_down) "hi" [] "claude"
      initial_state = (Ok (Some error_response, "none", []), s2)
    /\ audit_logs s2 = audit_logs initial_state ++ [entry]
    /\ le_model entry = "gpt-4o-mini"
    /\ le_model entry = OPENAI_MODEL
    /\ le_model entry <> "none"
    /\ (le_response_time_ms entry == 0)%Q
    /\ le_error entry = Some "Quota exceeded"
    /\ response_times (analytics_data s2)
       = response_times (analytics_data initial_state) ++ [0%Q]
    /\ model_usage (analytics_data s2) !! "gpt-4o-mini"
       = Some (S (default 0%nat (model_usage (analytics_data initial_state) !! "gpt-4o-mini")))
    /\ (forall m, m <> "gpt-4o-mini" ->
        model_usage (analytics_data s2) !! m
        = model_usage (analytics_data initial_state) !! m).
Proof.
  destruct world_down_all_failed as [s1 Hall].
  exact (Fallback.all_failed_logged_as_default_model (RT := scripted_runtime)
           (W := world_down) "hi" [] "claude" initial_state (Some "Quota exceeded") s1 Hall).
Defined.

(** With openai down and claude answering, the attempt of openai raises and
    that of claude succeeds. *)
Lemma primary_fails_secondary_succeeds_witness :
  exists entry out s2,
    chat_with_fallback (RT := scripted_runtime) (W := world_claude_up) "hi" [] "openai"
      initial_state = (Ok out, s2)
    /\ snd (fst out) = "claude"
    /\ audit_logs s2 = audit_logs initial_state ++ [entry]
    /\ le_model entry = "claude"
    /\ le_error entry = None
    /\ length (List.filter (success_record_for "claude") [entry]) = 1%nat
    /\ length (List.filter (failure_record_for "openai") [entry]) = 0%nat.
Proof.
  assert (Hall : exists s1 : state,
             all_failed (RT := scripted_runtime) (W := world_claude_up) "hi" []
               ["openai"] None initial_state (Some "Connection error.") s1
             /\ exists out s2,
                 attempt (RT := scripted_runtime) (W := world_claude_up)
                   "claude" "hi" [] s1 = (Ok (Some out), s2)).
  { eexists. split.
    - eapply all_failed_raise; [vm_compute; reflexivity |]. apply all_failed_nil.
    - eexists _, _. vm_compute. reflexivity. }
  destruct Hall as (s1 & Hall & out & s2 & Hrun).
  destruct (Fallback.primary_fails_secondary_succeeds
              (RT := scripted_runtime) (W := world_claude_up)
              "hi" [] "openai" initial_state ["openai"] ["gemini"]
              (Some "Connection error.") s1 out s2
              ltac:(reflexivity) ltac:(left; reflexivity) Hall Hrun) as [entry H].
  exists entry, out, s2. exact H.
Defined.

(** C4 as stated fails: in that exchange openai raised and claude answered,
    yet the audit log holds one record only, and none for openai. *)
Lemma primary_failure_not_logged :
  let exchange := chat_with_fallback (RT := scripted_runtime) (W := world_claude_up)
               "hi" [] "openai" initial_state in
  fst (attempt (RT := scripted_runtime) (W := world_claude_up)
         "openai" "hi" [] initial_state) = Raise (Exception "Connection error.")
  /\ fst exchange = Ok (Some "Your flight is on time.", "claude", [])
  /\ length (audit_logs (snd exchange)) = 1%nat
  /\ length (List.filter (success_record_for "claude") (audit_logs (snd exchange))) = 1%nat
  /\ length (List.filter (failure_record_for "openai") (audit_logs (snd exchange))) <> 1%nat.
Proof.
  cbv zeta. repeat split; try (vm_compute; reflexivity).
  vm_compute. discriminate.
Qed.

End FallbackExamples.

(** *** The tool-calling loop *)

Module ToolLoop.

Section WithRuntime.
Context `{IN : Interpreter} `{RT : PyRuntime} `{W : World}.

Lemma create_run request s :
  create request s =
  (chat_completions_create (tick s) request,
   set_tick (S (tick s)) (set_sent_requests (sent_requests s ++ [request]) s)).
Proof. reflexivity. Qed.

Lemma resolved_requests calls s results s' :
  resolved calls s results s' -> sent_requests s' = sent_requests s.
Proof.
  induction 1 as [s | call calls s result s1 results s' Hrun _ IH]; [reflexivity |].
  rewrite IH.
  pose proof (Frame.execute_tool_call_preserves sent_requests ltac:(reflexivity)
                ltac:(reflexivity) ltac:(reflexivity)
                (tc_name call) (tc_arguments call) s) as Hf.
  rewrite Hrun in Hf. exact Hf.
Qed.

Lemma resolved_length calls s results s' :
  resolved calls s results s' -> length results = length calls.
Proof. induction 1; cbn; congruence. Qed.

(** The loop appends one tool-result turn per call, in the order of the
    calls, and records the names. *)
Lemma run_tool_calls_resolved calls s results s' messages used :
  resolved calls s results s' ->
  run_tool_calls calls messages used s
  = (Ok (messages ++ tool_turns calls results, used ++ map tc_name calls), s').
Proof.
  intros Hres. revert messages used.
  induction Hres as [s | call calls s result s1 results s' Hrun _ IH]; intros.
  - cbn. unfold tool_turns. cbn. rewrite !app_nil_r. reflexivity.
  - cbn [run_tool_calls]. unfold bind at 1. rewrite Hrun. rewrite IH.
    unfold tool_turns. cbn [map zip_with]. rewrite <- !app_assoc. reflexivity.
Qed.

Lemma chat_with_tools_at_most_two um hist s :
  (length (sent_requests (snd (chat_with_tools um hist s)))
   <= length (sent_requests s) + 2)%nat.
Proof.
  unfold chat_with_tools. unfold bind at 1. rewrite create_run.
  set (request1 := ChatRequest OPENAI_MODEL _ (Some all_tools)).
  set (s1 := set_tick _ (set_sent_requests _ s)).
  assert (H1 : length (sent_requests s1) = (length (sent_requests s) + 1)%nat).
  { subst s1. cbn. rewrite length_app. reflexivity. }
  clearbody s1 request1.
  destruct (chat_completions_create (tick s) request1) as [first | e];
    [| unfold ret, raise; cbn [snd]; lia].
  destruct (String.eqb (finish_reason first) "tool_calls"); [| unfold ret, raise; cbn [snd]; lia].
  destruct (rm_tool_calls (choice_message first)) as [calls |]; [| unfold ret, raise; cbn [snd]; lia].
  unfold bind at 1.
  match goal with
  | |- context [run_tool_calls ?c ?m ?u s1] =>
      pose proof (Frame.run_tool_calls_preserves sent_requests ltac:(reflexivity)
                    ltac:(reflexivity) ltac:(reflexivity) c m u s1) as Hf;
      destruct (run_tool_calls c m u s1) as [[[messages2 used] | e] s2]
  end; cbn [snd] in Hf; [| unfold ret, raise; cbn [snd]; rewrite Hf; lia].
  unfold bind at 1. rewrite create_run.
  match goal with
  | |- context [chat_completions_create ?t ?r] =>
      destruct (chat_completions_create t r) as [second | e]
  end; unfold ret, raise; cbn [snd sent_requests set_tick set_sent_requests];
    rewrite length_app, Hf; cbn; lia.
Qed.

(** The loop ends at the first call that raises. *)
Lemma run_tool_calls_raises pre call post e s results s2 s3 : forall messages used,
  resolved pre s results s2 ->
  execute_tool_call (tc_name call) (tc_arguments call) s2 = (Raise e, s3) ->
  run_tool_calls (pre ++ call :: post) messages used s = (Raise e, s3).
Proof.
  intros messages used Hres. revert messages used.
  induction Hres as [s | c calls s result s1 results s' Hrun _ IH];
    intros messages used Hcall.
  - cbn [app run_tool_calls]. unfold bind. rewrite Hcall. reflexivity.
  - cbn [app run_tool_calls]. unfold bind at 1. rewrite Hrun. apply IH, Hcall.
Qed.

(** C5 (amended): an exchange makes at most two submissions.  When the first
    answer ends with finish reason tool_calls, its calls are executed in
    order; when they all return, each result is appended, the conversation is
    submitted exactly once more, without the tool descriptors, and the text of
    that second answer is returned, whatever the second answer asks for; when
    a call raises, the error leaves [chat_with_tools] and nothing is submitted
    again.  A first answer with another finish reason is returned after one
    submission, with no call executed, whether it carries calls or not. *)
Theorem tool_calling_is_one_round um hist :
  (forall s,
     (length (sent_requests (snd (chat_with_tools um hist s)))
      <= length (sent_requests s) + 2)%nat)
  /\ (forall s first calls results s2 second,
        let request1 :=
          ChatRequest OPENAI_MODEL (first_messages um hist) (Some all_tools) in
        let s1 :=
          set_tick (S (tick s)) (set_sent_requests (sent_requests s ++ [request1]) s) in
        let request2 :=
          ChatRequest OPENAI_MODEL
            (first_messages um hist ++ [MAssistant (choice_message first)]
             ++ tool_turns calls results) None in
        chat_completions_create (tick s) request1 = Ok first ->
        finish_reason first = "tool_calls" ->
        rm_tool_calls (choice_message first) = Some calls ->
        resolved calls s1 results s2 ->
        chat_completions_create (tick s2) request2 = Ok second ->
        exists s3,
          chat_with_tools um hist s
          = (Ok (rm_content (choice_message second), map tc_name calls), s3)
          /\ sent_requests s3 = sent_requests s ++ [request1; request2]
          /\ req_tools request2 = None
          /\ length results = length calls)
  /\ (forall s first,
        let request1 :=
          ChatRequest OPENAI_MODEL (first_messages um hist) (Some all_tools) in
        chat_completions_create (tick s) request1 = Ok first ->
        finish_reason first <> "tool_calls" ->
        exists s1,
          chat_with_tools um hist s = (Ok (rm_content (choice_message first), []), s1)
          /\ sent_requests s1 = sent_requests s ++ [request1]
          /\ refund_requests s1 = refund_requests s
          /\ files s1 = files s)
  /\ (forall s first pre call post results s2 e s3,
        let request1 :=
          ChatRequest OPENAI_MODEL (first_messages um hist) (Some all_tools) in
        let s1 :=
          set_tick (S (tick s)) (set_sent_requests (sent_requests s ++ [request1]) s) in
        chat_completions_create (tick s) request1 = Ok first ->
        finish_reason first = "tool_calls" ->
        rm_tool_calls (choice_message first) = Some (pre ++ call :: post) ->
        resolved pre s1 results s2 ->
        execute_tool_call (tc_name call) (tc_arguments call) s2 = (Raise e, s3) ->
        chat_with_tools um hist s = (Raise e, s3)
        /\ sent_requests s3 = sent_requests s ++ [request1]).
Proof.
  split; [apply chat_with_tools_at_most_two |]. split; [| split].
  - intros s first calls results s2 second request1 s1 request2 H1 Hfin Hcalls Hres H2.
    unfold chat_with_tools. fold (first_messages um hist). fold request1.
    unfold bind at 1. rewrite create_run, H1. fold s1.
    rewrite Hfin. cbn [String.eqb Ascii.eqb Bool.eqb]. rewrite Hcalls.
    unfold bind at 1. rewrite (run_tool_calls_resolved _ _ _ _ _ _ Hres).
    cbn [app]. unfold bind at 1. rewrite create_run.
    rewrite <- app_assoc. fold request2. rewrite H2.
    eexists. split; [reflexivity |].
    cbn [sent_requests set_tick set_sent_requests].
    rewrite (resolved_requests _ _ _ _ Hres). subst s1.
    cbn [sent_requests set_tick set_sent_requests].
    rewrite <- app_assoc. split; [reflexivity |]. split; [reflexivity |].
    exact (resolved_length _ _ _ _ Hres).
  - intros s first request1 H1 Hfin.
    unfold chat_with_tools. fold (first_messages um hist). fold request1.
    unfold bind at 1. rewrite create_run, H1.
    rewrite (FallbackOrder.eqb_false _ _ Hfin).
    eexists. split; [reflexivity |]. repeat split; reflexivity.
  - intros s first pre call post results s2 e s3 request1 s1 H1 Hfin Hcalls Hres Hcall.
    split.
    + unfold chat_with_tools. fold (first_messages um hist). fold request1.
      unfold bind at 1. rewrite create_run, H1. fold s1.
      rewrite Hfin. cbn [String.eqb Ascii.eqb Bool.eqb]. rewrite Hcalls.
      unfold bind at 1.
      rewrite (run_tool_calls_raises pre call post e s1 results s2 s3 _ _ Hres Hcall).
      reflexivity.
    + pose proof (Frame.execute_tool_call_preserves sent_requests ltac:(reflexivity)
                    ltac:(reflexivity) ltac:(reflexivity)
                    (tc_name call) (tc_arguments call) s2) as Hf.
      rewrite Hcall in Hf. cbn [snd] in Hf.
      rewrite Hf, (resolved_requests _ _ _ _ Hres). reflexivity.
Qed.

End WithRuntime.

#[local] Existing Instance Scenario.default_interpreter.

(** A backend that asks for a tool in both answers: the second request is not
    served, its text is returned. *)
Lemma tool_calling_is_one_round_witness :
  exists s3,
    chat_with_tools (RT := Scenario.scripted_runtime) (W := Scenario.world_tools_twice)
      "Is EQ101 on time?" [] Scenario.initial_state
    = (Ok (Some "EQ101 is on time.", ["get_flight_status"]), s3)
    /\ length (sent_requests s3) = 2%nat
    /\ map req_tools (sent_requests s3) = [Some all_tools; None].
Proof.
  destruct (tool_calling_is_one_round (RT := Scenario.scripted_runtime)
              (W := Scenario.world_tools_twice) "Is EQ101 on time?" [])
    as (_ & Hround & _).
  edestruct (Hround Scenario.initial_state
               (Completion "tool_calls"
                  (ResponseMessage None (Some [Scenario.flight_call])))
               [Scenario.flight_call]
               ["Flight EQ101 (Mumbai → Delhi): Departure 06:00, Status: On Time"])
    as (s3 & Hrun & Hreq & _).
  - reflexivity.
  - reflexivity.
  - reflexivity.
  - eapply resolved_cons; [vm_compute; reflexivity | apply resolved_nil].
  - reflexivity.
  - exists s3. split; [exact Hrun |]. rewrite Hreq. split; reflexivity.
Defined.

(** C5 as stated fails: the first answer carries a call, but its finish
    reason is not tool_calls; the call is not executed, no result is appended
    and nothing is submitted a second time. *)
Lemma tool_calls_without_finish_reason_ignored :
  let first := Completion "stop" (ResponseMessage (Some "One moment.")
                                    (Some [Scenario.flight_call])) in
  let exchange := chat_with_tools (RT := Scenario.scripted_runtime)
                    (W := Scenario.world_tools_unannounced)
                    "Is EQ101 on time?" [] Scenario.initial_state in
  chat_completions_create (World := Scenario.world_tools_unannounced) 0
    (ChatRequest OPENAI_MODEL (first_messages "Is EQ101 on time?" []) (Some all_tools))
  = Ok first
  /\ rm_tool_calls (choice_message first) = Some [Scenario.flight_call]
  /\ fst exchange = Ok (Some "One moment.", [])
  /\ length (sent_requests (snd exchange)) = 1%nat.
Proof.
  cbv zeta. repeat split; vm_compute; reflexivity.
Qed.

End ToolLoop.

(** *** The retrieval engine *)

Module Retrieval.

(** The order of the floats that are not NaN. *)
Lemma float_le_trans a b c :
  float_le a b = true -> float_le b c = true -> float_le a c = true.
Proof.
  destruct a as [x | []], b as [y | []], c as [z | []]; cbn; try congruence.
  intros H1 H2. apply Qle_bool_iff in H1, H2. apply Qle_bool_iff.
  eapply Qle_trans; eassumption.
Qed.

Lemma float_le_total a b :
  is_nan a = false -> is_nan b = false -> float_le a b = false -> float_le b a = true.
Proof.
  destruct a as [x | []], b as [y | []]; cbn; try congruence.
  intros _ _ H. apply Qle_bool_iff.
  destruct (Qlt_le_dec x y) as [Hlt | Hle]; [| exact Hle].
  apply Qlt_le_weak, Qle_bool_iff in Hlt. congruence.
Qed.

Lemma float_lt_le a b :
  is_nan a = false -> is_nan b = false -> float_lt a b = negb (float_le b a).
Proof.
  intros Ha Hb. unfold float_lt.
  destruct (float_le b a) eqn:Hba; cbn [negb]; [apply andb_false_r |].
  rewrite (float_le_total b a Hb Ha Hba). reflexivity.
Qed.

Lemma insert_desc_perm x l : Permutation (insert_desc x l) (x :: l).
Proof.
  induction l as [| y l IH]; cbn [insert_desc]; [reflexivity |].
  destruct (float_le (sc_score y) (sc_score x)); [reflexivity |].
  rewrite IH. apply perm_swap.
Qed.

Lemma stable_desc_perm l : Permutation (stable_desc l) l.
Proof.
  induction l as [| x l IH]; [reflexivity |].
  unfold stable_desc in *. cbn [foldr]. rewrite insert_desc_perm, IH. reflexivity.
Qed.

Lemma insert_desc_sorted x l :
  comparable x -> Forall comparable l ->
  StronglySorted descending l -> StronglySorted descending (insert_desc x l).
Proof.
  intros Hx. induction l as [| y l IH]; intros Hall Hs; cbn [insert_desc].
  - constructor; constructor.
  - inversion Hall as [| ? ? Hy Hl]; subst.
    destruct (float_le (sc_score y) (sc_score x)) eqn:Hle.
    + constructor; [exact Hs |].
      inversion Hs as [| ? ? Hsl Hyl]; subst.
      constructor; [exact Hle |].
      eapply List.Forall_impl; [| exact Hyl].
      intros z Hz. unfold descending in *. eapply float_le_trans; eassumption.
    + inversion Hs as [| ? ? Hsl Hyl]; subst.
      constructor; [apply IH; assumption |].
      assert (Hxy : descending y x).
      { unfold descending. apply float_le_total; assumption. }
      rewrite insert_desc_perm.
      constructor; assumption.
Qed.

Lemma stable_desc_sorted l :
  Forall comparable l -> StronglySorted descending (stable_desc l).
Proof.
  induction l as [| x l IH]; intros Hall; [constructor |].
  inversion Hall as [| ? ? Hx Hl]; subst.
  unfold stable_desc in *. cbn [foldr]. apply insert_desc_sorted; [exact Hx | | apply IH, Hl].
  fold (stable_desc l). rewrite stable_desc_perm. exact Hl.
Qed.

(** Entries of equal score keep the order they had. *)
Lemma insert_desc_stable q x l :
  with_score q (insert_desc x l) = with_score q (x :: l).
Proof.
  induction l as [| y l IH]; cbn [insert_desc]; [reflexivity |].
  destruct (float_le (sc_score y) (sc_score x)) eqn:Hle; [reflexivity |].
  unfold with_score in *. cbn [List.filter] in *. rewrite IH.
  destruct (float_eqb (sc_score y) q) eqn:Hy; [| reflexivity].
  destruct (float_eqb (sc_score x) q) eqn:Hx; [| reflexivity].
  exfalso. unfold float_eqb in Hy, Hx.
  apply andb_true_iff in Hy, Hx. destruct Hy as [Hyq _], Hx as [_ Hqx].
  pose proof (float_le_trans _ _ _ Hyq Hqx). congruence.
Qed.

Lemma stable_desc_stable q l : with_score q (stable_desc l) = with_score q l.
Proof.
  induction l as [| x l IH]; [reflexivity |].
  unfold stable_desc in *. cbn [foldr]. rewrite insert_desc_stable.
  unfold with_score in *. cbn [List.filter]. rewrite IH. reflexivity.
Qed.

Lemma firstn_sorted {A} (R : A -> A -> Prop) n l :
  StronglySorted R l -> StronglySorted R (firstn n l).
Proof.
  revert n. induction l as [| x l IH]; intros n Hs.
  - rewrite firstn_nil. constructor.
  - destruct n as [| n]; [constructor |].
    inversion Hs as [| ? ? Hl Hx]; subst. cbn [firstn].
    constructor; [apply IH; exact Hl |].
    rewrite List.Forall_forall in *. intros y Hy. apply Hx.
    rewrite <- (firstn_skipn n l). apply in_or_app. left. exact Hy.
Qed.

Lemma append_assoc (a b c : string) : (a +:+ b) +:+ c = a +:+ (b +:+ c).
Proof.
  induction a as [| ch a IH]; [reflexivity |].
  change (String ch ((a +:+ b) +:+ c) = String ch (a +:+ (b +:+ c))).
  rewrite IH. reflexivity.
Qed.

Lemma append_empty (a : string) : a +:+ EmptyString = a.
Proof.
  induction a as [| ch a IH]; [reflexivity |].
  change (String ch (a +:+ EmptyString) = String ch a). rewrite IH. reflexivity.
Qed.

Section WithRuntime.
Context `{IN : Interpreter} `{RT : PyRuntime} `{W : World}.

(** Over scores that are comparable the sort is the stable one. *)
Lemma sort_desc_comparable l :
  Forall comparable l -> sort_desc l = stable_desc l.
Proof.
  intros Hall. unfold sort_desc.
  assert (Hno : existsb (fun r => is_nan (sc_score r)) l = false).
  { induction Hall as [| r l Hr _ IH]; [reflexivity |].
    cbn [existsb]. unfold comparable in Hr. rewrite Hr, IH. reflexivity. }
  rewrite Hno. reflexivity.
Qed.

Lemma score_all_documents qe docs results :
  score_all qe docs = Ok results -> map sc_document results = docs.
Proof.
  revert results. induction docs as [| doc docs IH]; intros results Hs; cbn in Hs.
  - inversion Hs. reflexivity.
  - destruct (getitem doc "embedding") as [emb |]; [| discriminate].
    destruct (cosine_similarity qe emb) as [sim |]; [| discriminate].
    destruct (score_all qe docs) as [rest |]; [| discriminate].
    inversion Hs; subst. cbn. rewrite (IH rest); reflexivity.
Qed.

Lemma dict_get_in_keys {A} key (d : list (string * A)) v :
  dict_get key d = Some v -> key ∈ dict_keys d.
Proof.
  unfold dict_keys. induction d as [| [k v'] d IH]; cbn [dict_get map fst];
    [discriminate |].
  destruct (String.eqb_spec key k) as [<- | Hne]; intros Hget.
  - apply list_elem_of_here.
  - apply list_elem_of_further, IH, Hget.
Qed.

(** A corpus whose documents can all be scored passes the guard. *)
Lemma scored_corpus_is_embedded qe doc docs results :
  score_all qe (doc :: docs) = Ok results -> is_embedded (JArr (doc :: docs)) = Ok true.
Proof.
  intros Hs. cbn [score_all] in Hs. unfold is_embedded. cbn [truthy negb].
  unfold getitem in Hs.
  destruct doc as [| | | | | | | d]; try discriminate.
  destruct (dict_get "embedding" d) as [emb |] eqn:Hget; [| discriminate].
  unfold py_in. f_equal. apply bool_decide_eq_true_2.
  eapply dict_get_in_keys, Hget.
Qed.

(** What a search over a corpus that can be scored returns. *)
Lemma search_knowledge_base_run query k s docs qe results :
  knowledge_base s = JArr docs ->
  embeddings_create (tick s) query = Ok qe ->
  score_all qe docs = Ok results ->
  fst (search_knowledge_base query k s) = Ok (list_slice_to k (sort_desc results)).
Proof.
  intros Hkb Hq Hs. unfold search_knowledge_base, bind, get. rewrite Hkb.
  destruct docs as [| doc docs].
  - inversion Hs; subst. cbn. unfold list_slice_to.
    destruct (0 <=? k); cbn; rewrite firstn_nil; reflexivity.
  - unfold lift at 1. rewrite (scored_corpus_is_embedded _ _ _ _ Hs).
    cbn [negb]. unfold get_embedding, bind, next_tick, lift.
    rewrite Hq, Hs. reflexivity.
Qed.

(** C6 (amended): for every query and every count k, over a corpus whose
    documents all have an embedding and a similarity to the query embedding
    that is not NaN, the search returns at most k results, in descending
    order of score, entries of equal score in the order of the documents in
    the corpus; any run on the same corpus with the same query embedding
    returns the same sequence. *)
Theorem search_ranks_top_k query (k : nat) s docs qe results :
  knowledge_base s = JArr docs ->
  embeddings_create (tick s) query = Ok qe ->
  score_all qe docs = Ok results ->
  Forall comparable results ->
  exists out full,
    fst (search_knowledge_base query (Z.of_nat k) s) = Ok out
    /\ (length out <= k)%nat
    /\ StronglySorted descending out
    /\ map sc_document results = docs
    /\ Permutation full results
    /\ StronglySorted descending full
    /\ (forall q, with_score q full = with_score q results)
    /\ out = firstn k full
    /\ (forall s2,
          knowledge_base s2 = JArr docs ->
          embeddings_create (tick s2) query = Ok qe ->
          fst (search_knowledge_base query (Z.of_nat k) s2) = Ok out).
Proof.
  intros Hkb Hq Hs Hnum.
  exists (firstn k (stable_desc results)), (stable_desc results).
  assert (Hslice : list_slice_to (Z.of_nat k) (sort_desc results)
                   = firstn k (stable_desc results)).
  { rewrite (sort_desc_comparable _ Hnum). unfold list_slice_to.
    destruct (Z.leb_spec 0 (Z.of_nat k)); [| lia].
    rewrite Nat2Z.id. reflexivity. }
  split; [rewrite <- Hslice; eapply search_knowledge_base_run; eassumption |].
  split; [apply firstn_le_length |].
  split; [apply firstn_sorted, stable_desc_sorted, Hnum |].
  split; [eapply score_all_documents; eassumption |].
  split; [apply stable_desc_perm |].
  split; [apply stable_desc_sorted, Hnum |].
  split; [intros q; apply stable_desc_stable |].
  split; [reflexivity |].
  intros s2 Hkb2 Hq2. rewrite <- Hslice.
  eapply search_knowledge_base_run; eassumption.
Qed.

(** The loop of [search_airline_policies] appends the blocks of the relevant
    results. *)
Lemma format_results_blocks response results :
  Forall has_title_and_content (List.filter relevant results) ->
  format_results response results
  = Ok (response +:+ blocks (List.filter relevant results)).
Proof.
  revert response. induction results as [| r results IH]; intros response Hall.
  - cbn [format_results List.filter blocks fold_right]. rewrite append_empty. reflexivity.
  - cbn [format_results List.filter] in *. destruct (relevant r).
    + inversion Hall as [| ? ? [Ht Hc] Hrest]; subst.
      cbn [blocks fold_right]. unfold block.
      destruct (getitem (sc_document r) "title") as [title |]; [| discriminate].
      destruct (getitem (sc_document r) "content") as [body |]; [| discriminate].
      rewrite (IH _ Hrest). f_equal. rewrite append_assoc. reflexivity.
    + apply IH, Hall.
Qed.

(** C7 (amended): the answer is the fixed "not found" text exactly when the
    result set is empty or the score of the top result is below 0.3;
    otherwise it is a fixed header followed by the title and body blocks of
    those of the top three results whose score is at least 0.3. *)
Theorem policies_answer query s results s' :
  search_knowledge_base query 3 s = (Ok results, s') ->
  Forall has_title_and_content (List.filter relevant results) ->
  (results = [] \/ (exists top rest, results = top :: rest /\ below top = true) ->
   search_airline_policies query s = (Ok NOT_FOUND, s'))
  /\ (forall top rest, results = top :: rest -> below top = false ->
      search_airline_policies query s
      = (Ok (HEADER +:+ blocks (List.filter relevant results)), s'))
  /\ (fst (search_airline_policies query s) = Ok NOT_FOUND <->
      results = [] \/ (exists top rest, results = top :: rest /\ below top = true))
  /\ (forall r, (relevant r = true <-> at_least threshold (sc_score r))
               /\ (below r = true <-> less_than threshold (sc_score r))
               /\ (comparable r -> below r = negb (relevant r))).
Proof.
  intros Hrun Hall.
  assert (Hnf : results = [] \/
                (exists top rest, results = top :: rest /\ below top = true) ->
                search_airline_policies query s = (Ok NOT_FOUND, s')).
  { intros Hcase. unfold search_airline_policies, bind. rewrite Hrun.
    destruct Hcase as [-> | (top & rest & -> & Hrel)]; [reflexivity |].
    rewrite Hrel. reflexivity. }
  assert (Hfound : forall top rest, results = top :: rest -> below top = false ->
                   search_airline_policies query s
                   = (Ok (HEADER +:+ blocks (List.filter relevant results)), s')).
  { intros top rest Heq Hrel. unfold search_airline_policies, bind. rewrite Hrun.
    rewrite Heq. rewrite Hrel. unfold lift. rewrite <- Heq.
    rewrite (format_results_blocks _ _ Hall). reflexivity. }
  split; [exact Hnf |]. split; [exact Hfound |]. split.
  - split.
    + intros Hout. destruct results as [| top rest]; [left; reflexivity |].
      destruct (below top) eqn:Hrel; [right; eauto |].
      rewrite (Hfound top rest eq_refl Hrel) in Hout. cbn in Hout. discriminate.
    + intros Hcase. rewrite (Hnf Hcase). reflexivity.
  - intros r. unfold relevant, below, comparable, float_lt.
    destruct (sc_score r) as [y | []]; cbn.
    + split; [apply Qle_bool_iff |]. split.
      * rewrite andb_true_iff, negb_true_iff. split.
        -- intros [_ Hn]. destruct (Qlt_le_dec y threshold) as [Hlt | Hle]; [exact Hlt |].
           apply Qle_bool_iff in Hle. congruence.
        -- intros Hlt. split; [apply Qle_bool_iff, Qlt_le_weak, Hlt |].
           destruct (Qle_bool threshold y) eqn:Hb; [| reflexivity].
           apply Qle_bool_iff in Hb. exfalso. eapply Qlt_not_le; eassumption.
      * intros _. destruct (Qle_bool threshold y) eqn:Hb; cbn [negb].
        -- apply andb_false_r.
        -- rewrite andb_true_r. apply Qle_bool_iff.
           destruct (Qlt_le_dec y threshold) as [Hlt | Hle]; [apply Qlt_le_weak, Hlt |].
           apply Qle_bool_iff in Hle. congruence.
    + repeat split; try tauto; try discriminate.
    + repeat split; try tauto; try discriminate.
    + repeat split; try tauto; try discriminate.
Qed.

End WithRuntime.

Import Scenario.

(** Three documents with scores 1/2, 9/10, 1/2 and k = 2: the best one, then
    the first of the two that tie. *)
Lemma search_ranks_top_k_witness :
  exists out full,
    fst (search_knowledge_base (RT := scripted_runtime) (W := world_down)
           (JStr "baggage") 2 (with_corpus small_corpus)) = Ok out
    /\ (length out <= 2)%nat
    /\ StronglySorted descending out
    /\ map sc_document out
       = [embedded_document "b" "Beta" "second" (9 # 10);
          embedded_document "a" "Alpha" "first" (1 # 2)]
    /\ out = firstn 2 full.
Proof.
  destruct (search_ranks_top_k (RT := scripted_runtime) (W := world_down)
              (JStr "baggage") 2 (with_corpus small_corpus) small_corpus [1%Q]
              [Scored (embedded_document "a" "Alpha" "first" (1 # 2)) (1 # 2);
               Scored (embedded_document "b" "Beta" "second" (9 # 10)) (9 # 10);
               Scored (embedded_document "c" "Gamma" "third" (1 # 2)) (1 # 2)]
              ltac:(reflexivity) ltac:(reflexivity) ltac:(reflexivity)
              ltac:(repeat constructor))
    as (out & full & Hrun & Hlen & Hsorted & _ & _ & _ & _ & Hout & _).
  change (Z.of_nat 2) with 2 in Hrun.
  exists out, full.
  split; [exact Hrun |]. split; [exact Hlen |]. split; [exact Hsorted |].
  split; [| exact Hout].
  assert (Hval : fst (search_knowledge_base (RT := scripted_runtime) (W := world_down)
                        (JStr "baggage") 2 (with_corpus small_corpus))
                 = Ok [Scored (embedded_document "b" "Beta" "second" (9 # 10)) (9 # 10);
                       Scored (embedded_document "a" "Alpha" "first" (1 # 2)) (1 # 2)])
    by (vm_compute; reflexivity).
  rewrite Hval in Hrun. inversion Hrun; subst. reflexivity.
Defined.

(** C6 as stated fails: the similarity of a document whose embedding has
    norm zero is NaN, the search returns it with the others, and no order of
    the two results is descending, since NaN compares with no score. *)
Lemma search_nan_score_not_descending :
  exists out,
    fst (search_knowledge_base (RT := scripted_runtime) (W := world_down)
           (JStr "baggage") 3 (with_corpus nan_corpus)) = Ok out
    /\ map sc_score out = [Finite (1 # 2); NonFinite NaN]
    /\ (forall out', Permutation out out' -> ~ StronglySorted descending out').
Proof.
  eexists. split; [vm_compute; reflexivity |]. split; [reflexivity |].
  intros out' Hperm Hsorted.
  apply Permutation_length_2_inv in Hperm.
  destruct Hperm as [-> | ->];
    inversion Hsorted as [| ? ? _ Hfirst]; subst;
    inversion Hfirst as [| ? ? Hd _]; subst;
    unfold descending in Hd; cbn in Hd; discriminate.
Qed.

(** Two documents with scores 1/2 and 1/10: the first is relevant, the second
    is not. *)
Lemma policies_answer_witness :
  fst (search_airline_policies (RT := scripted_runtime) (W := world_down)
         (JStr "baggage") (with_corpus mixed_corpus))
  = Ok (HEADER +:+ "**Alpha**
first

").
Proof.
  pose (results := [Scored (embedded_document "a" "Alpha" "first" (1 # 2)) (1 # 2);
                    Scored (embedded_document "b" "Beta" "second" (1 # 10)) (1 # 10)]).
  assert (Hrun : exists s',
             search_knowledge_base (RT := scripted_runtime) (W := world_down)
               (JStr "baggage") 3 (with_corpus mixed_corpus) = (Ok results, s')).
  { eexists. vm_compute. reflexivity. }
  destruct Hrun as [s' Hrun].
  destruct (policies_answer (RT := scripted_runtime) (W := world_down)
              (JStr "baggage") (with_corpus mixed_corpus) results s' Hrun)
    as (_ & Hfound & _).
  { repeat constructor. }
  rewrite (Hfound _ _ eq_refl ltac:(reflexivity)). reflexivity.
Defined.

(** C7 as stated fails: with top results of scores 1/2 and 1/10 the answer
    holds the block of the first one only, not the blocks of the top
    results. *)
Lemma policies_answer_drops_low_scores :
  let results := [Scored (embedded_document "a" "Alpha" "first" (1 # 2)) (1 # 2);
                  Scored (embedded_document "b" "Beta" "second" (1 # 10)) (1 # 10)] in
  let answer := fst (search_airline_policies (RT := scripted_runtime) (W := world_down)
                       (JStr "baggage") (with_corpus mixed_corpus)) in
  fst (search_knowledge_base (RT := scripted_runtime) (W := world_down)
         (JStr "baggage") 3 (with_corpus mixed_corpus)) = Ok results
  /\ answer <> Ok NOT_FOUND
  /\ answer <> Ok (blocks (RT := scripted_runtime) results)
  /\ answer <> Ok (HEADER +:+ blocks (RT := scripted_runtime) results).
Proof.
  cbv zeta. split; [vm_compute; reflexivity |].
  repeat split; intros H; apply (f_equal (fun r => match r with
                                                   | Ok t => String.length t
                                                   | Raise _ => O
                                                   end)) in H;
    vm_compute in H; discriminate.
Qed.

End Retrieval.

(** *** The tool executor *)

Module Executor.




Section WithRuntime.
Context `{IN : Interpreter} `{RT : PyRuntime} `{W : World}.

(** The decoder raises its own error or the error of a limit, never that of
    a missing file. *)
Lemma loads_raises text e :
  loads text = Raise e ->
  (exists msg pos, e = JSONDecodeError msg pos) \/ limit_error e.
Proof.
  intros He.
  destruct (JsonFacts.loads_total text) as [[v Hv] | [(msg & pos & Hr) | (e' & Hr & Hl)]];
    [congruence | |].
  - rewrite Hr in He. inversion He. left. eauto.
  - rewrite Hr in He. inversion He; subst. right. exact Hl.
Qed.

Lemma loads_not_file_error text path : loads text <> Raise (FileNotFoundError path).
Proof.
  intros He.
  destruct (loads_raises _ _ He) as [(msg & pos & H) | [[what H] | [what H]]];
    discriminate.
Qed.


End WithRuntime.

Import Scenario.



End Executor.

(** *** Loading the snapshot *)

Module Snapshot.

Section WithInterpreter.
Context `{IN : Interpreter}.

(** C8 (amended): when the snapshot file is absent the load does not raise,
    sets the document set to the literal catalog and returns False.  When the
    file is there and does not decode, the decoder's error is raised and
    nothing is changed.  True is returned only when the file was there and
    decoded, and then the document set is what was decoded. *)
Theorem load_knowledge_base_outcomes filepath s :
  (files s !! filepath = None ->
   load_knowledge_base filepath s = (Ok false, set_knowledge_base (JArr catalog) s))
  /\ (forall text e, files s !! filepath = Some text -> loads text = Raise e ->
      load_knowledge_base filepath s = (Raise e, s))
  /\ (forall s', load_knowledge_base filepath s = (Ok true, s') ->
      exists text kb,
        files s !! filepath = Some text /\ loads text = Ok kb
        /\ s' = set_knowledge_base kb s)
  /\ (forall text kb, files s !! filepath = Some text -> loads text = Ok kb ->
      is_ok (py_len kb) = true ->
      load_knowledge_base filepath s = (Ok true, set_knowledge_base kb s)).
Proof.
  split; [| split; [| split]].
  - intros Hnone. unfold load_knowledge_base, try_except, bind, get. rewrite Hnone.
    reflexivity.
  - intros text e Hsome He.
    unfold load_knowledge_base, try_except, bind, get, lift. rewrite Hsome, He.
    destruct e; try reflexivity.
    exfalso. eapply Executor.loads_not_file_error, He.
  - intros s' Hrun.
    unfold load_knowledge_base, try_except, bind, get, lift in Hrun.
    destruct (files s !! filepath) as [text |] eqn:Hfile; [| cbn in Hrun; discriminate].
    destruct (loads text) as [kb | e] eqn:Hloads.
    + exists text, kb. split; [reflexivity |]. split; [exact Hloads |].
      unfold modify, ret, raise in Hrun.
      destruct (py_len kb) as [n | e] eqn:Hlen.
      * inversion Hrun; reflexivity.
      * unfold py_len in Hlen. destruct kb; inversion Hlen; subst; discriminate.
    + destruct e; cbn in Hrun; discriminate.
  - intros text kb Hsome Hkb Hlen.
    unfold load_knowledge_base, try_except, bind, get, lift, modify.
    rewrite Hsome, Hkb. destruct (py_len kb); [reflexivity | discriminate].
Qed.

End WithInterpreter.

Import Scenario.

(** No snapshot file: the catalog is installed and False is returned. *)
Lemma load_knowledge_base_outcomes_witness :
  load_knowledge_base "knowledge_base.json" (with_file "other.json" "[]")
  = (Ok false, set_knowledge_base (JArr catalog) (with_file "other.json" "[]")).
Proof.
  destruct (load_knowledge_base_outcomes "knowledge_base.json"
              (with_file "other.json" "[]")) as (Habsent & _).
  apply Habsent. vm_compute. reflexivity.
Defined.

(** C8 as stated fails: a snapshot that is there but is not JSON makes the
    load raise; nothing is repopulated and no value is returned. *)
Lemma load_knowledge_base_malformed_raises :
  exists msg pos,
    load_knowledge_base "knowledge_base.json" (with_file "knowledge_base.json" "{")
    = (Raise (JSONDecodeError msg pos), with_file "knowledge_base.json" "{").
Proof.
  eexists _, _. vm_compute. reflexivity.
Qed.

End Snapshot.

(** *** Every exchange: one answer, one log record *)

Module Exchange.

Lemma usage_total_insert k count (m : gmap string nat) :
  m !! k = None -> usage_total (<[k := count]> m) = (count + usage_total m)%nat.
Proof.
  intros Hk. unfold usage_total.
  apply (map_fold_insert_L (fun _ c acc => (c + acc)%nat)); [intros; lia | exact Hk].
Qed.

Lemma usage_total_split k (m : gmap string nat) :
  usage_total m = (default 0%nat (m !! k) + usage_total (delete k m))%nat.
Proof.
  destruct (m !! k) as [count |] eqn:Hk; cbn [default].
  - rewrite <- (usage_total_insert k count (delete k m)) by apply lookup_delete_eq.
    rewrite insert_delete_id by exact Hk. reflexivity.
  - rewrite (delete_id m k Hk). reflexivity.
Qed.

Lemma usage_total_count_up k m : usage_total (count_up k m) = S (usage_total m).
Proof.
  unfold count_up. rewrite (usage_total_split k m).
  rewrite <- (insert_delete_eq m).
  rewrite usage_total_insert by apply lookup_delete_eq. lia.
Qed.

(** One more interaction keeps the counters in agreement. *)
Lemma update_analytics_consistent tools model rt error a :
  consistent a -> consistent (update_analytics tools model rt error a).
Proof.
  intros (Hq & He & Hu). unfold consistent, update_analytics.
  cbn [total_queries response_times errors model_usage].
  split; [rewrite length_app; cbn; lia |].
  split; [destruct error as [text |]; [destruct (String.eqb text EmptyString) |]; lia |].
  rewrite usage_total_count_up. lia.
Qed.

Section WithRuntime.
Context `{IN : Interpreter} `{RT : PyRuntime} `{W : World}.

(** What the call made for a model can give. *)
Lemma dispatch_some model um hist s response tools s0 :
  dispatch model um hist s = (Ok (Some (response, tools)), s0) ->
  In model all_models /\ (model <> "openai" -> tools = []).
Proof.
  unfold dispatch.
  destruct (String.eqb_spec model "openai") as [-> | H1].
  { intros _. split; [left; reflexivity | congruence]. }
  destruct (String.eqb_spec model "claude") as [-> | H2].
  { unfold bind. destruct (chat_claude um hist s) as [[r | e] s1]; [| discriminate].
    intros H; inversion H; subst. split; [right; left; reflexivity | reflexivity]. }
  destruct (String.eqb_spec model "gemini") as [-> | H3].
  { unfold bind. destruct (chat_gemini um hist s) as [[r | e] s1]; [| discriminate].
    intros H; inversion H; subst.
    split; [right; right; left; reflexivity | reflexivity]. }
  discriminate.
Qed.

(** One attempt either succeeds, with a text, and writes its record, or leaves
    the log, the analytics and the notifications as they were. *)
Lemma attempt_outcome model um hist s :
  (exists text tools entry rt s',
     attempt model um hist s = (Ok (Some (Some text, model, tools)), s')
     /\ In model all_models
     /\ (model <> "openai" -> tools = [])
     /\ audit_logs s' = audit_logs s ++ [entry]
     /\ le_user_message entry = um
     /\ le_model entry = model
     /\ le_error entry = None
     /\ analytics_data s' = update_analytics tools model rt None (analytics_data s)
     /\ sent_notifications s' = sent_notifications s)
  \/ (exists r s',
        attempt model um hist s = (r, s')
        /\ (forall out, r <> Ok (Some out))
        /\ audit_logs s' = audit_logs s
        /\ analytics_data s' = analytics_data s
        /\ sent_notifications s' = sent_notifications s).
Proof.
  destruct (attempt model um hist s) as [r s'] eqn:Hrun.
  pose proof (Frame.attempt_preserves sent_notifications ltac:(reflexivity)
                ltac:(reflexivity) ltac:(reflexivity) ltac:(reflexivity)
                ltac:(reflexivity) ltac:(reflexivity) model um hist s) as Hsent.
  rewrite Hrun in Hsent. cbn [snd] in Hsent.
  assert (Hfail : (forall out, r <> Ok (Some out)) ->
                  audit_logs s' = audit_logs s /\ analytics_data s' = analytics_data s).
  { intros Hno. split.
    - eapply (Fallback.attempt_failed_preserves audit_logs); eauto.
    - eapply (Fallback.attempt_failed_preserves analytics_data); eauto. }
  destruct r as [[out |] | e].
  2: { right. exists (Ok None), s'. destruct Hfail as [Hl Ha]; [intros; discriminate |].
       repeat split; try assumption. intros; discriminate. }
  2: { right. exists (Raise e), s'. destruct Hfail as [Hl Ha]; [intros; discriminate |].
       repeat split; try assumption. intros; discriminate. }
  left. clear Hfail. rewrite Fallback.attempt_unfold in Hrun.
  pose proof (Frame.dispatch_preserves audit_logs ltac:(reflexivity) ltac:(reflexivity)
                ltac:(reflexivity) ltac:(reflexivity) model um hist
                (set_tick (S (tick s)) s)) as Hlogs.
  pose proof (Frame.dispatch_preserves analytics_data ltac:(reflexivity)
                ltac:(reflexivity) ltac:(reflexivity) ltac:(reflexivity) model um hist
                (set_tick (S (tick s)) s)) as Han.
  destruct (dispatch model um hist (set_tick (S (tick s)) s))
    as [[[[response tools] |] | e] s0] eqn:Hd; cbn [snd] in Hlogs, Han;
    try discriminate.
  destruct (dispatch_some _ _ _ _ _ _ _ Hd) as [Hin Htools].
  destruct response as [text |].
  - rewrite Logging.log_interaction_some in Hrun. cbv zeta in Hrun.
    inversion Hrun; subst. eexists text, tools, _, _, _.
    split; [reflexivity |]. split; [exact Hin |]. split; [exact Htools |].
    cbn [audit_logs analytics_data set_analytics_data set_audit_logs set_tick
         le_user_message le_model le_error default].
    rewrite Hlogs, Han. cbn [audit_logs analytics_data set_tick].
    repeat split; try reflexivity. exact Hsent.
  - destruct (Logging.log_interaction_none um (Some tools) model
                (time_time (tick s0) - time_time (tick s))%Q None
                (set_tick (S (tick s0)) s0)) as [e He].
    rewrite He in Hrun. discriminate.
Qed.

(** The loop and the path after it, whatever the attempts do. *)
Lemma try_models_outcome models : forall last um hist s,
  exists text model tools entry logged_tools logged_model rt err s',
    try_models models last um hist s = (Ok (Some text, model, tools), s')
    /\ audit_logs s' = audit_logs s ++ [entry]
    /\ le_user_message entry = um
    /\ analytics_data s'
       = update_analytics logged_tools logged_model rt err (analytics_data s)
    /\ ((model = "none" /\ text = error_response /\ tools = []
         /\ le_model entry = DEFAULT_MODEL
         /\ exists n, sent_notifications s' = sent_notifications s ++ [n]
                      /\ n_level n = "error")
        \/ (In model models /\ In model all_models
            /\ (model <> "openai" -> tools = [])
            /\ le_model entry = model /\ le_error entry = None
            /\ sent_notifications s' = sent_notifications s)).
Proof.
  induction models as [| m models IH]; intros last um hist s.
  - rewrite Fallback.try_models_nil. cbv zeta.
    eexists _, _, _, _, _, _, _, _, _. split; [reflexivity |].
    cbn [audit_logs analytics_data sent_notifications set_delivered
         set_sent_notifications set_tick set_analytics_data set_audit_logs
         le_user_message le_model].
    split; [reflexivity |]. split; [reflexivity |]. split; [reflexivity |].
    left. repeat split; try reflexivity. eexists. split; reflexivity.
  - cbn [try_models]. unfold bind at 1. unfold try_except, bind at 1.
    destruct (attempt_outcome m um hist s)
      as [(text & tools & entry & rt & s' & Hrun & Hin & Htools & Hlogs & Hum & Hm
           & He & Han & Hsent)
         | (r & s' & Hrun & Hfail & Hlogs & Han & Hsent)].
    + rewrite Hrun. unfold ret.
      exists text, m, tools, entry, tools, m, rt, None, s'.
      split; [reflexivity |]. split; [exact Hlogs |]. split; [exact Hum |].
      split; [exact Han |]. right.
      repeat split; try assumption. left. reflexivity.
    + rewrite Hrun.
      assert (Hnext : forall last',
                 exists text model tools entry logged_tools logged_model rt err s'',
                   try_models models last' um hist s'
                   = (Ok (Some text, model, tools), s'')
                   /\ audit_logs s'' = audit_logs s ++ [entry]
                   /\ le_user_message entry = um
                   /\ analytics_data s''
                      = update_analytics logged_tools logged_model rt err
                          (analytics_data s)
                   /\ ((model = "none" /\ text = error_response /\ tools = []
                        /\ le_model entry = DEFAULT_MODEL
                        /\ exists n, sent_notifications s''
                                     = sent_notifications s ++ [n]
                                     /\ n_level n = "error")
                       \/ (In model (m :: models) /\ In model all_models
                           /\ (model <> "openai" -> tools = [])
                           /\ le_model entry = model /\ le_error entry = None
                           /\ sent_notifications s'' = sent_notifications s))).
      { intros last'.
        destruct (IH last' um hist s')
          as (text & model & tools & entry & lt & lm & rt & err & s'' & H1 & H2 & H3
              & H4 & H5).
        exists text, model, tools, entry, lt, lm, rt, err, s''.
        rewrite <- Hlogs, <- Han, <- Hsent.
        repeat (split; [assumption |]).
        destruct H5 as [H5 | (Hi & H5)]; [left; exact H5 | right].
        split; [right; exact Hi | exact H5]. }
      destruct r as [[out |] | e].
      * exfalso. eapply Hfail. reflexivity.
      * unfold ret. apply Hnext.
      * unfold ret. apply Hnext.
Qed.

(** X1: what [chat_with_fallback] returns has one of two shapes: the backend
    identity "none" with the fixed degraded text and no tool, or one of the
    three backends, taken from the attempt sequence, with a text; tools are
    named only when the backend is openai. *)
Theorem chat_with_fallback_answer_shape um hist preferred s response model tools s' :
  chat_with_fallback um hist preferred s = (Ok (response, model, tools), s') ->
  ((model = "none" /\ response = Some error_response /\ tools = [])
   \/ (In model all_models /\ In model (models_to_try preferred)
       /\ exists text, response = Some text))
  /\ (model <> "openai" -> tools = []).
Proof.
  intros Hret.
  destruct (try_models_outcome (models_to_try preferred) None um hist s)
    as (text & model0 & tools0 & entry & lt & lm & rt & err & s0 & Hrun & _ & _ & _ & Hc).
  change (chat_with_fallback um hist preferred s = (Ok (Some text, model0, tools0), s0))
    in Hrun.
  rewrite Hrun in Hret. inversion Hret; subst.
  destruct Hc as [(-> & -> & -> & _) | (Hin & Hall & Htools & _)].
  - split; [left; repeat split; reflexivity | reflexivity].
  - split; [right; split; [assumption | split; [assumption | eauto]] | exact Htools].
Qed.


(** X3: an exchange sends a notification exactly when it ends with the
    backend identity "none", and then exactly one, at level error. *)
Theorem notification_iff_none um hist preferred s :
  exists out s',
    chat_with_fallback um hist preferred s = (Ok out, s')
    /\ (snd (fst out) = "none" ->
        exists n, sent_notifications s' = sent_notifications s ++ [n]
                  /\ n_level n = "error")
    /\ (snd (fst out) <> "none" -> sent_notifications s' = sent_notifications s).
Proof.
  destruct (try_models_outcome (models_to_try preferred) None um hist s)
    as (text & model & tools & entry & lt & lm & rt & err & s' & Hrun & _ & _ & _ & Hc).
  exists (Some text, model, tools), s'. split; [exact Hrun |]. cbn [fst snd].
  destruct Hc as [(-> & _ & _ & _ & Hn) | (_ & Hall & _ & _ & _ & Hsent)].
  - split; [intros _; exact Hn | congruence].
  - split; [| intros _; exact Hsent].
    intros ->. exfalso. cbn in Hall. intuition discriminate.
Qed.

(** X4: the counters of the analytics stay in agreement over an exchange:
    [total_queries] is the length of [response_times], [errors] is at most
    [total_queries], and the usage counts of the models add up to
    [total_queries]. *)
Theorem exchange_keeps_analytics_consistent um hist preferred s :
  consistent (analytics_data s) ->
  consistent (analytics_data (snd (chat_with_fallback um hist preferred s))).
Proof.
  intros Hc.
  destruct (try_models_outcome (models_to_try preferred) None um hist s)
    as (text & model & tools & entry & lt & lm & rt & err & s' & Hrun & _ & _ & Han & _).
  unfold chat_with_fallback. rewrite Hrun. cbn [snd]. rewrite Han.
  apply update_analytics_consistent, Hc.
Qed.

End WithRuntime.

#[local] Existing Instance Scenario.default_interpreter.

(** OpenAI is down and Claude answers. *)
Lemma chat_with_fallback_answer_shape_witness :
  (("claude" = "none" /\ Some "Your flight is on time." = Some error_response
    /\ @nil string = [])
   \/ (In "claude" all_models /\ In "claude" (models_to_try "openai")
       /\ exists text, Some "Your flight is on time." = Some text))
  /\ ("claude" <> "openai" -> @nil string = []).
Proof.
  eapply (chat_with_fallback_answer_shape (RT := Scenario.scripted_runtime)
            (W := Scenario.world_claude_up) "hi" [] "openai" Scenario.initial_state).
  vm_compute. reflexivity.
Defined.

(** Every backend is down: one notification, at level error. *)
Lemma notification_iff_none_witness :
  exists out s',
    chat_with_fallback (RT := Scenario.scripted_runtime) (W := Scenario.world_down)
      "hi" [] "openai" Scenario.initial_state = (Ok out, s')
    /\ snd (fst out) = "none"
    /\ exists n, sent_notifications s'
                 = sent_notifications Scenario.initial_state ++ [n]
                 /\ n_level n = "error".
Proof.
  destruct (notification_iff_none (RT := Scenario.scripted_runtime)
              (W := Scenario.world_down) "hi" [] "openai" Scenario.initial_state)
    as (out & s' & Hrun & Hnone & _).
  exists out, s'. split; [exact Hrun |].
  assert (Hm : snd (fst out) = "none").
  { assert (Hout : fst (chat_with_fallback (RT := Scenario.scripted_runtime)
                          (W := Scenario.world_down) "hi" [] "openai"
                          Scenario.initial_state)
                   = Ok (Some error_response, "none", []))
      by (vm_compute; reflexivity).
    rewrite Hrun in Hout. cbn [fst] in Hout. inversion Hout. reflexivity. }
  split; [exact Hm | exact (Hnone Hm)].
Defined.

Lemma exchange_keeps_analytics_consistent_witness :
  consistent
    (analytics_data
       (snd (chat_with_fallback (RT := Scenario.scripted_runtime)
               (W := Scenario.world_claude_up) "hi" [] "openai"
               Scenario.initial_state))).
Proof.
  apply (exchange_keeps_analytics_consistent (RT := Scenario.scripted_runtime)
           (W := Scenario.world_claude_up)).
  split; [reflexivity | split; [cbn; lia | reflexivity]].
Defined.

End Exchange.

(** *** The tools *)

Module ToolFacts.

Lemma bind_params_ok fname params d :
  (forall p, In (p, None) params -> dict_get p d <> None) ->
  exists vs,
    bind_params fname params d = Ok vs
    /\ Forall2 (fun pd v => dict_get (fst pd) d = Some v
                            \/ (dict_get (fst pd) d = None /\ snd pd = Some v))
         params vs.
Proof.
  induction params as [| [p dflt] params IH]; intros Hreq.
  - exists []. split; [reflexivity | constructor].
  - destruct IH as (vs & Hvs & Hall).
    { intros q Hq. apply Hreq. right. exact Hq. }
    cbn [bind_params]. rewrite Hvs.
    destruct (dict_get p d) as [v |] eqn:Hp.
    + exists (v :: vs). split; [reflexivity |]. constructor; [left; exact Hp | exact Hall].
    + destruct dflt as [v |].
      * exists (v :: vs). split; [reflexivity |].
        constructor; [right; split; [exact Hp | reflexivity] | exact Hall].
      * exfalso. apply (Hreq p); [left; reflexivity | exact Hp].
Qed.

Lemma call_kwargs_ok fname params d :
  (forall k, In k (dict_keys d) -> In k (map fst params)) ->
  (forall p, In (p, None) params -> dict_get p d <> None) ->
  exists vs,
    call_kwargs fname params (JObj d) = Ok vs
    /\ Forall2 (fun pd v => dict_get (fst pd) d = Some v
                            \/ (dict_get (fst pd) d = None /\ snd pd = Some v))
         params vs.
Proof.
  intros Hknown Hreq. unfold call_kwargs.
  destruct (List.filter (fun k => negb (bool_decide (k ∈ map fst params))) (dict_keys d))
    as [| k rest] eqn:Hf; [apply bind_params_ok, Hreq |].
  exfalso.
  assert (Hin : In k (List.filter (fun k => negb (bool_decide (k ∈ map fst params)))
                        (dict_keys d))) by (rewrite Hf; left; reflexivity).
  apply filter_In in Hin. destruct Hin as [Hk Hneg].
  rewrite bool_decide_eq_true_2 in Hneg; [discriminate |].
  apply list_elem_of_In, Hknown, Hk.
Qed.

Section WithRuntime.
Context `{IN : Interpreter} `{RT : PyRuntime} `{W : World}.

Lemma get_ticket_price_str a b :
  is_ok (get_ticket_price (JStr a) (JStr b)) = true.
Proof.
  unfold get_ticket_price, str_method.
  destruct (dict_get _ TICKET_PRICES) as [classes |]; [| reflexivity].
  destruct (dict_get _ classes); reflexivity.
Qed.

Lemma get_flight_status_str a : is_ok (get_flight_status (JStr a)) = true.
Proof.
  unfold get_flight_status, str_method.
  destruct (dict_get _ FLIGHTS_DB); reflexivity.
Qed.

Lemma lookup_booking_str a : is_ok (lookup_booking (JStr a)) = true.
Proof.
  unfold lookup_booking, str_method.
  destruct (dict_get _ BOOKINGS_DB); reflexivity.
Qed.

Lemma process_refund_str a reason s :
  is_ok (fst (process_refund (JStr a) reason s)) = true.
Proof.
  unfold process_refund, str_method.
  destruct (dict_get _ BOOKINGS_DB) as [booking |]; [| reflexivity].
  destruct (str_contains "Cancelled" (bk_status booking)); reflexivity.
Qed.

(** The handler of the image tool turns every error of its body into a
    text. *)
Lemma get_destination_image_handled city client s :
  is_ok (fst (get_destination_image city client s)) = true.
Proof.
  unfold get_destination_image, try_except.
  match goal with
  | |- context [match ?m s with _ => _ end] => destruct (m s) as [[text | e] s1]
  end; reflexivity.
Qed.

(** X5: a call that satisfies the descriptor advertised for a tool is never
    refused for its parameters: for each of the five descriptors of [TOOLS], a
    payload that decodes to an object with no additional property, all
    required properties and string values does not make [execute_tool] raise
    TypeError or AttributeError, the errors of a payload that does not fit the
    function called. *)
Theorem conforming_call_accepted d tool_arguments payload openai_client s :
  In d TOOLS ->
  loads tool_arguments = Ok (JObj payload) ->
  conforms d payload ->
  forall what,
    fst (execute_tool (d_name d) tool_arguments openai_client s) <> Raise (TypeError what)
    /\ fst (execute_tool (d_name d) tool_arguments openai_client s)
       <> Raise (AttributeError what).
Proof.
  intros Hd Hloads (Hknown & Hreq & Hstr).
  assert (Hok : is_ok (fst (execute_tool (d_name d) tool_arguments openai_client s))
                = true).
  2: { intros what.
       destruct (fst (execute_tool (d_name d) tool_arguments openai_client s));
         [split; discriminate | discriminate]. }
  unfold execute_tool, bind, lift. rewrite Hloads.
  assert (Hval : forall pd v,
             dict_get (fst pd) payload = Some v
             \/ (dict_get (fst pd) payload = None /\ snd pd = Some v) ->
             snd pd = None \/ snd pd = Some (JStr "economy") ->
             exists text, v = JStr text).
  { intros pd v [Hv | [_ Hv]] Hd'; [eapply Hstr; exact Hv |].
    destruct Hd' as [Hd' | Hd']; rewrite Hd' in Hv; inversion Hv. eauto. }
  unfold TOOLS in Hd. cbn [In] in Hd.
  destruct Hd as [<- | [<- | [<- | [<- | [<- | []]]]]];
    cbn [d_name d_properties d_required map p_name] in *;
    cbn [String.eqb Ascii.eqb Bool.eqb].
  - destruct (call_kwargs_ok "get_ticket_price"
                [("destination_city", None); ("travel_class", Some (JStr "economy"))]
                payload) as (vs & Hvs & Hall).
    { exact Hknown. }
    { intros p [Hp | [Hp | []]]; inversion Hp; subst. apply Hreq. left. reflexivity. }
    rewrite Hvs.
    inversion Hall as [| ? v1 ? vs1 H1 Hall1]; subst.
    inversion Hall1 as [| ? v2 ? vs2 H2 Hall2]; subst.
    inversion Hall2; subst.
    destruct (Hval _ _ H1 ltac:(left; reflexivity)) as [t1 ->].
    destruct (Hval _ _ H2 ltac:(right; reflexivity)) as [t2 ->].
    apply get_ticket_price_str.
  - destruct (call_kwargs_ok "get_flight_status" [("flight_number", None)] payload)
      as (vs & Hvs & Hall).
    { exact Hknown. }
    { intros p [Hp | []]; inversion Hp; subst. apply Hreq. left. reflexivity. }
    rewrite Hvs.
    inversion Hall as [| ? v1 ? vs1 H1 Hall1]; subst. inversion Hall1; subst.
    destruct (Hval _ _ H1 ltac:(left; reflexivity)) as [t1 ->].
    apply get_flight_status_str.
  - destruct (call_kwargs_ok "lookup_booking" [("pnr", None)] payload)
      as (vs & Hvs & Hall).
    { exact Hknown. }
    { intros p [Hp | []]; inversion Hp; subst. apply Hreq. left. reflexivity. }
    rewrite Hvs.
    inversion Hall as [| ? v1 ? vs1 H1 Hall1]; subst. inversion Hall1; subst.
    destruct (Hval _ _ H1 ltac:(left; reflexivity)) as [t1 ->].
    apply lookup_booking_str.
  - destruct (call_kwargs_ok "process_refund" [("pnr", None); ("reason", None)] payload)
      as (vs & Hvs & Hall).
    { exact Hknown. }
    { intros p [Hp | [Hp | []]]; inversion Hp; subst; apply Hreq;
        [left | right; left]; reflexivity. }
    rewrite Hvs.
    inversion Hall as [| ? v1 ? vs1 H1 Hall1]; subst.
    inversion Hall1 as [| ? v2 ? vs2 H2 Hall2]; subst.
    inversion Hall2; subst.
    destruct (Hval _ _ H1 ltac:(left; reflexivity)) as [t1 ->].
    apply process_refund_str.
  - cbn [args_get]. apply get_destination_image_handled.
Qed.

(** X6: the three lookup tools only read: whatever the payload and whatever
    the outcome, [execute_tool] leaves the whole state as it was for
    get_ticket_price, get_flight_status and lookup_booking. *)
Theorem lookup_tools_read_only tool_name tool_arguments openai_client s :
  In tool_name ["get_ticket_price"; "get_flight_status"; "lookup_booking"] ->
  snd (execute_tool tool_name tool_arguments openai_client s) = s.
Proof.
  intros [<- | [<- | [<- | []]]]; unfold execute_tool, bind, lift;
    cbn [String.eqb Ascii.eqb Bool.eqb];
    destruct (loads tool_arguments) as [args |]; try reflexivity;
    match goal with
    | |- context [call_kwargs ?f ?p args] => destruct (call_kwargs f p args) as [vs |]
    end; try reflexivity;
    repeat (destruct vs as [| ? vs]; try reflexivity).
Qed.

(** X7: a refund is refused, and nothing stored, for a booking that is not
    in the table or whose status holds "Cancelled".  For any other booking
    it is approved and stored under its reference with the amount of the
    class, and the booking itself is never changed: a second request for the
    same booking is approved and stored again. *)
Theorem process_refund_outcomes pnr reason reason2 s :
  let key := str_strip (str_upper pnr) in
  (dict_get key BOOKINGS_DB = None ->
   process_refund (JStr pnr) reason s
   = (Ok ("Cannot process refund: Booking " +:+ key +:+ " not found."), s))
  /\ (forall booking, dict_get key BOOKINGS_DB = Some booking ->
      str_contains "Cancelled" (bk_status booking) = true ->
      process_refund (JStr pnr) reason s
      = (Ok ("Booking " +:+ key +:+ " is already cancelled. Refund is being processed."),
         s))
  /\ (forall booking, dict_get key BOOKINGS_DB = Some booking ->
      str_contains "Cancelled" (bk_status booking) = false ->
      let ref1 := "REF" +:+ pretty (random_randint (tick s)) in
      let ref2 := "REF" +:+ pretty (random_randint (S (tick s))) in
      let amount := refund_amount_of (bk_class booking) in
      exists text1 s1 text2 s2,
        process_refund (JStr pnr) reason s = (Ok text1, s1)
        /\ refund_requests s1
           = <[ref1 := Refund key reason amount "Approved"]> (refund_requests s)
        /\ process_refund (JStr pnr) reason2 s1 = (Ok text2, s2)
        /\ refund_requests s2 !! ref2 = Some (Refund key reason2 amount "Approved")
        /\ (ref1 <> ref2 ->
            refund_requests s2 !! ref1 = Some (Refund key reason amount "Approved")))
  /\ refund_amount_of "Economy" = 4999
  /\ refund_amount_of "Business" = 12497
  /\ refund_amount_of "First" = 24995.
Proof.
  cbv zeta. split; [| split; [| split]].
  - intros Hnone. unfold process_refund, str_method. rewrite Hnone. reflexivity.
  - intros booking Hb Hc. unfold process_refund, str_method. rewrite Hb, Hc. reflexivity.
  - intros booking Hb Hc.
    unfold process_refund, str_method. rewrite Hb, Hc.
    eexists _, _, _, _. split; [reflexivity |].
    cbn [refund_requests set_refund_requests set_tick tick].
    split; [reflexivity |]. split; [reflexivity |].
    cbn [refund_requests set_refund_requests set_tick tick].
    split; [apply lookup_insert_eq |].
    intros Hne. rewrite lookup_insert_ne by congruence. apply lookup_insert_eq.
  - repeat split; reflexivity.
Qed.

(** X8: the image tool writes a file only when everything worked: when the
    image service raises, or when the city is not a string (as when the
    property is missing), it answers with a "Sorry" text and leaves the files
    as they were; otherwise it writes the image under
    destination_<city in lower case, spaces as underscores>.png. *)
Theorem destination_image_outcomes city s :
  let prompt :=
    "A beautiful vibrant travel poster showcasing " +:+ fmt city
    +:+ ", India as a travel destination, featuring iconic landmarks, local culture, temples, markets, and atmosphere. High quality, inspiring wanderlust, colorful Indian aesthetic." in
  (forall e, images_generate (tick s) prompt = Raise e ->
     exists s',
       get_destination_image city true s
       = (Ok ("Sorry, I couldn't generate an image for " +:+ fmt city +:+ ": "
              +:+ str_exn e), s')
       /\ files s' = files s)
  /\ ((forall text, city <> JStr text) ->
      exists text s',
        get_destination_image city true s
        = (Ok ("Sorry, I couldn't generate an image for " +:+ fmt city +:+ ": " +:+ text),
           s')
        /\ files s' = files s)
  /\ (forall name data, city = JStr name ->
      images_generate (tick s) prompt = Ok data ->
      write_file (S (tick s)) ("destination_" +:+ replace_space (str_lower name) +:+ ".png")
      = Ok tt ->
      exists text s',
        get_destination_image city true s = (Ok text, s')
        /\ files s'
           = <["destination_" +:+ replace_space (str_lower name) +:+ ".png" := data]>
               (files s)).
Proof.
  cbv zeta. split; [| split].
  - intros e He. unfold get_destination_image, try_except, bind, next_tick, lift.
    rewrite He. eexists. split; reflexivity.
  - intros Hcity. unfold get_destination_image, try_except, bind, next_tick, lift.
    destruct (images_generate (tick s) _) as [data | e].
    + unfold str_method. destruct city; try (eexists _, _; split; reflexivity).
      exfalso. eapply Hcity. reflexivity.
    + eexists _, _. split; reflexivity.
  - intros name data -> Hgen Hwrite.
    unfold get_destination_image, try_except, bind, next_tick, lift, str_method.
    cbn [fmt] in *. rewrite Hgen. cbn [tick set_tick]. rewrite Hwrite.
    eexists _, _. split; reflexivity.
Qed.

End WithRuntime.

Import Scenario.

Lemma conforming_call_accepted_witness :
  fst (execute_tool (RT := scripted_runtime) (W := world_down) "get_flight_status"
         ("{" +:+ quoted "flight_number" +:+ ": " +:+ quoted "eq101" +:+ "}")
         false initial_state)
  <> Raise (TypeError "get_flight_status() missing required argument: flight_number").
Proof.
  apply (conforming_call_accepted (RT := scripted_runtime) (W := world_down)
           (Descriptor "get_flight_status"
              "Get the current status of an ERWIQ Airlines flight (on time, delayed, cancelled, boarding). Flight numbers start with 'EQ'."
              [Property "flight_number" None "The flight number (e.g., 'EQ101', 'EQ202')"]
              ["flight_number"])
           _ [("flight_number", JStr "eq101")]).
  - right. left. reflexivity.
  - vm_compute. reflexivity.
  - split; [| split].
    + intros k [<- | []]. left. reflexivity.
    + intros r [<- | []]. discriminate.
    + intros k v. cbn [dict_get].
      destruct (String.eqb k "flight_number"); [| discriminate].
      intros H; inversion H. eauto.
Defined.

Lemma lookup_tools_read_only_witness :
  snd (execute_tool (RT := scripted_runtime) (W := world_down) "lookup_booking"
         "not json" false initial_state) = initial_state.
Proof.
  apply (lookup_tools_read_only (RT := scripted_runtime) (W := world_down)).
  right. right. left. reflexivity.
Defined.

(** A refund asked twice for the confirmed booking ABC123 (Business). *)
Lemma process_refund_outcomes_witness :
  exists text1 s1 text2 s2,
    process_refund (RT := scripted_runtime) (W := world_down)
      (JStr " abc123 ") (JStr "plans changed") initial_state = (Ok text1, s1)
    /\ process_refund (RT := scripted_runtime) (W := world_down)
         (JStr " abc123 ") (JStr "again") s1 = (Ok text2, s2)
    /\ refund_requests s2 !! "REF100000"
       = Some (Refund "ABC123" (JStr "plans changed") 12497 "Approved")
    /\ refund_requests s2 !! "REF100001"
       = Some (Refund "ABC123" (JStr "again") 12497 "Approved").
Proof.
  destruct (process_refund_outcomes (RT := scripted_runtime) (W := world_down)
              " abc123 " (JStr "plans changed") (JStr "again") initial_state)
    as (_ & _ & Happroved & _).
  destruct (Happroved (Booking "Rahul Sharma" "EQ101" "Mumbai → Delhi" "2025-06-15"
                         "Business" "2A" "Confirmed" "Vegetarian")
              ltac:(vm_compute; reflexivity) ltac:(vm_compute; reflexivity))
    as (text1 & s1 & text2 & s2 & H1 & _ & H2 & Hsecond & Hfirst).
  exists text1, s1, text2, s2.
  split; [exact H1 |]. split; [exact H2 |].
  split; [apply Hfirst; vm_compute; discriminate | exact Hsecond].
Defined.

(** The image of Goa is written under destination_goa.png. *)
Lemma destination_image_outcomes_witness :
  exists text s',
    get_destination_image (RT := scripted_runtime) (W := world_down)
      (JStr "Goa") true initial_state = (Ok text, s')
    /\ files s' = <["destination_goa.png" := "PNG"]> (files initial_state).
Proof.
  destruct (destination_image_outcomes (RT := scripted_runtime) (W := world_down)
              (JStr "Goa") initial_state) as (_ & _ & Hwritten).
  apply (Hwritten "Goa" "PNG"); reflexivity.
Defined.

End ToolFacts.

(** *** Logs and checks *)

Module LogFacts.

Lemma len_append a b : Py.len (a +:+ b) = (Py.len a + Py.len b)%nat.
Proof.
  induction a as [| c a IH]; [reflexivity |].
  change (Py.len (String c (a +:+ b)) = (Py.len (String c a) + Py.len b)%nat).
  cbn [Py.len]. destruct (is_continuation c); rewrite IH; reflexivity.
Qed.

Lemma len_take_continuation s : Py.len (take_continuation s) = 0%nat.
Proof.
  induction s as [| c s IH]; [reflexivity |]. cbn [take_continuation].
  destruct (is_continuation c) eqn:Hc; [| reflexivity].
  cbn [Py.len]. rewrite Hc. exact IH.
Qed.

Lemma len_slice_to n : forall s, (Py.len (Py.slice_to n s) <= n)%nat.
Proof.
  induction n as [| n IH]; intros s; [destruct s; cbn; lia |].
  destruct s as [| c s]; [cbn; lia |].
  cbn [Py.slice_to Py.len].
  specialize (IH (drop_continuation s)).
  rewrite len_append, len_take_continuation.
  destruct (is_continuation c); lia.
Qed.

(** X9: [get_recent_logs(n)] changes nothing and returns, for a positive n,
    the last min(n, number of entries) entries; for n = 0 it returns the
    whole log, not the empty list; for a negative n it returns the log without
    its first min(-n, number of entries) entries. *)
Theorem get_recent_logs_slice n s :
  exists recent,
    get_recent_logs n s = (Ok recent, s)
    /\ (exists older, audit_logs s = older ++ recent
        /\ (0 < n -> length recent = Nat.min (Z.to_nat n) (length (audit_logs s)))
        /\ (n < 0 -> length older = Nat.min (Z.to_nat (- n)) (length (audit_logs s))))
    /\ (n = 0 -> recent = audit_logs s).
Proof.
  exists (list_slice_from_end n (audit_logs s)). split; [reflexivity |].
  unfold list_slice_from_end. split.
  - destruct (Z.ltb_spec 0 n) as [Hpos | Hneg].
    + exists (firstn (length (audit_logs s) - Z.to_nat n) (audit_logs s)).
      split; [symmetry; apply firstn_skipn |].
      split; [| lia]. intros _. rewrite length_skipn. lia.
    + exists (firstn (Z.to_nat (- n)) (audit_logs s)).
      split; [symmetry; apply firstn_skipn |].
      split; [lia |]. intros _. rewrite length_firstn. reflexivity.
  - intros ->. reflexivity.
Qed.

Section WithWorld.
Context `{W : World}.

(** X10: the response kept in a log record is the response itself when it
    has at most 500 characters, and otherwise its first 500 characters
    followed by three dots: never more than 503 characters. *)
Theorem logged_response_is_bounded um response tools model rt error s :
  exists entry s',
    log_interaction um (Some response) tools model rt error s = (Ok entry, s')
    /\ (Py.len (le_assistant_response entry) <= 503)%nat
    /\ ((Py.len response <= 500)%nat -> le_assistant_response entry = response)
    /\ ((500 < Py.len response)%nat ->
        le_assistant_response entry = Py.slice_to 500 response +:+ "...").
Proof.
  rewrite Logging.log_interaction_some. cbv zeta.
  eexists _, _. split; [reflexivity |]. cbn [le_assistant_response].
  destruct (Nat.ltb_spec 500 (Py.len response)) as [Hlong | Hshort].
  - split; [| split; [lia | reflexivity]].
    rewrite len_append. pose proof (len_slice_to 500 response).
    change (Py.len "...") with 3%nat. lia.
  - split; [lia |]. split; [reflexivity | lia].
Qed.

(** X11: the counters of the analytics agree after [reset_analytics], and
    every call of [log_interaction] keeps them in agreement, whether it
    returns or raises; [reset_analytics] leaves the audit log as it is. *)
Theorem analytics_stay_consistent um response tools model rt error s :
  consistent (analytics_data (snd (reset_analytics s)))
  /\ audit_logs (snd (reset_analytics s)) = audit_logs s
  /\ (consistent (analytics_data s) ->
      consistent (analytics_data
                    (snd (log_interaction um response tools model rt error s)))).
Proof.
  split; [split; [reflexivity | split; [cbn; lia | reflexivity]] |].
  split; [reflexivity |].
  intros Hc. destruct response as [response |].
  - rewrite Logging.log_interaction_some. cbv zeta. cbn [snd analytics_data
      set_analytics_data]. apply Exchange.update_analytics_consistent, Hc.
  - destruct (Logging.log_interaction_none um tools model rt error s) as [e He].
    rewrite He. exact Hc.
Qed.

End WithWorld.

Lemma error_rate_above_tenth errors total :
  (0 < total)%nat -> Z.of_nat total < 2 ^ 50 ->
  negb (Qle_bool (inject_Z (Z.of_nat errors) / inject_Z (Z.of_nat total))%Q one_tenth)
  = (total <? 10 * errors)%nat.
Proof.
  intros Hpos Hbound.
  assert (Hle : (inject_Z (Z.of_nat errors) / inject_Z (Z.of_nat total) <= one_tenth)%Q
                <-> (10 * errors <= total)%nat).
  { unfold one_tenth, Qdiv, Qmult, Qinv, Qle, inject_Z. cbn [Qnum Qden].
    destruct (Z.of_nat total) as [| p | p] eqn:Ht; try lia.
    cbn [Qnum Qden]. rewrite Pos.mul_1_l.
    change (2 ^ 50) with 1125899906842624 in Hbound.
    split; intros H; lia. }
  destruct (Nat.ltb_spec total (10 * errors)) as [Hlt | Hge].
  - destruct (Qle_bool _ one_tenth) eqn:Hq; [| reflexivity].
    apply Qle_bool_iff, Hle in Hq. lia.
  - destruct (Qle_bool _ one_tenth) eqn:Hq; [reflexivity |].
    exfalso. apply Hle, Qle_bool_iff in Hge. congruence.
Qed.

Section WithFormatting.
Context `{W : World} `{F : Formatting}.

Lemma check_error_rate_unfold s :
  check_error_rate s =
  let total := total_queries (analytics_data s) in
  let errs := errors (analytics_data s) in
  let error_rate := (inject_Z (Z.of_nat errs) / inject_Z (Z.of_nat total))%Q in
  if (10 <? total)%nat then
    if negb (Qle_bool error_rate one_tenth) then
      bind (send_notification "High Error Rate"
              (Some ("Error rate is " +:+ format_percent error_rate +:+ " ("
                     +:+ pretty errs +:+ "/" +:+ pretty total +:+ ")"))
              "warning")
        (fun _ => ret true) s
    else (Ok false, s)
  else (Ok false, s).
Proof.
  unfold check_error_rate, get_analytics_summary, bind, get, ret. cbv zeta.
  cbn [sm_total_queries sm_total_errors].
  destruct (10 <? total_queries (analytics_data s))%nat; [| reflexivity].
  destruct (negb (Qle_bool _ one_tenth)); reflexivity.
Qed.

(** X12: [check_error_rate] does nothing and returns False with ten queries
    or fewer.  With more (and fewer than 2^50) it returns True exactly when
    more than one query in ten had an error, and then it sends exactly one
    notification, "High Error Rate", at level warning; when it returns False
    it changes nothing. *)
Theorem check_error_rate_outcomes s :
  let total := total_queries (analytics_data s) in
  let errs := errors (analytics_data s) in
  ((total <= 10)%nat -> check_error_rate s = (Ok false, s))
  /\ ((10 < total)%nat -> Z.of_nat total < 2 ^ 50 -> (10 * errs <= total)%nat ->
      check_error_rate s = (Ok false, s))
  /\ ((10 < total)%nat -> Z.of_nat total < 2 ^ 50 -> (total < 10 * errs)%nat ->
      exists n s',
        check_error_rate s = (Ok true, s')
        /\ sent_notifications s' = sent_notifications s ++ [n]
        /\ n_title n = "High Error Rate"
        /\ n_level n = "warning"
        /\ analytics_data s' = analytics_data s
        /\ audit_logs s' = audit_logs s).
Proof.
  cbv zeta. rewrite check_error_rate_unfold. cbv zeta.
  split; [| split].
  - intros Hle. destruct (Nat.ltb_spec 10 (total_queries (analytics_data s))); [lia |].
    reflexivity.
  - intros Hgt Hb Hrate.
    destruct (Nat.ltb_spec 10 (total_queries (analytics_data s))); [| lia].
    rewrite error_rate_above_tenth by lia.
    destruct (Nat.ltb_spec (total_queries (analytics_data s))
                (10 * errors (analytics_data s))); [lia |].
    reflexivity.
  - intros Hgt Hb Hrate.
    destruct (Nat.ltb_spec 10 (total_queries (analytics_data s))); [| lia].
    rewrite error_rate_above_tenth by lia.
    destruct (Nat.ltb_spec (total_queries (analytics_data s))
                (10 * errors (analytics_data s))); [| lia].
    eexists _, _. split; [reflexivity |].
    cbn. repeat split; reflexivity.
Qed.

End WithFormatting.

Import Scenario.

(** Twenty queries, three of them with an error. *)
Lemma check_error_rate_outcomes_witness :
  exists n s',
    check_error_rate (W := world_down)
      (F := Build_Formatting (fun _ => "15.0%") (fun _ => "0.0"))
      (set_analytics_data (Analytics 20 ∅ ∅ 3 0 []) initial_state) = (Ok true, s')
    /\ sent_notifications s' = [n]
    /\ n_title n = "High Error Rate"
    /\ n_level n = "warning".
Proof.
  destruct (check_error_rate_outcomes (W := world_down)
              (F := Build_Formatting (fun _ => "15.0%") (fun _ => "0.0"))
              (set_analytics_data (Analytics 20 ∅ ∅ 3 0 []) initial_state))
    as (_ & _ & Hfires).
  destruct Hfires as (n & s' & Hrun & Hsent & Ht & Hl & _).
  - cbn. lia.
  - cbn. lia.
  - cbn. lia.
  - exists n, s'. repeat split; assumption.
Defined.

Lemma analytics_stay_consistent_witness :
  consistent
    (analytics_data
       (snd (log_interaction (W := world_down) "hi" (Some "Welcome") None "openai"
               (1 # 2) (Some "boom") initial_state))).
Proof.
  destruct (analytics_stay_consistent (W := world_down) "hi" (Some "Welcome") None
              "openai" (1 # 2) (Some "boom") initial_state) as (_ & _ & Hkeep).
  apply Hkeep. split; [reflexivity | split; [cbn; lia | reflexivity]].
Defined.

Lemma get_recent_logs_slice_witness :
  exists recent,
    get_recent_logs 0 (set_audit_logs
                         [LogEntry "t" "hi" "Welcome" [] "openai" 0 None] initial_state)
    = (Ok recent, set_audit_logs
                    [LogEntry "t" "hi" "Welcome" [] "openai" 0 None] initial_state)
    /\ recent = [LogEntry "t" "hi" "Welcome" [] "openai" 0 None].
Proof.
  destruct (get_recent_logs_slice 0
              (set_audit_logs [LogEntry "t" "hi" "Welcome" [] "openai" 0 None]
                 initial_state)) as (recent & Hrun & _ & Hzero).
  exists recent. split; [exact Hrun | apply Hzero; reflexivity].
Defined.

Lemma logged_response_is_bounded_witness :
  exists entry s',
    log_interaction (W := world_down) "hi" (Some "Welcome") None "openai" 0 None
      initial_state = (Ok entry, s')
    /\ le_assistant_response entry = "Welcome".
Proof.
  destruct (logged_response_is_bounded (W := world_down) "hi" "Welcome" None "openai" 0
              None initial_state) as (entry & s' & Hrun & _ & Hshort & _).
  exists entry, s'. split; [exact Hrun |]. apply Hshort. vm_compute. lia.
Defined.

End LogFacts.

(** *** Building the corpus *)

Module CorpusFacts.

Lemma dict_get_set_eq {A} k (v : A) d : dict_get k (dict_set k v d) = Some v.
Proof.
  induction d as [| [k' v'] d IH]; cbn [dict_set dict_get].
  - rewrite String.eqb_refl. reflexivity.
  - destruct (String.eqb k k') eqn:Hk; cbn [dict_get].
    + rewrite String.eqb_refl. reflexivity.
    + rewrite Hk. exact IH.
Qed.

Lemma dict_get_set_ne {A} k k' (v : A) d :
  k' <> k -> dict_get k' (dict_set k v d) = dict_get k' d.
Proof.
  intros Hne. induction d as [| [k0 v0] d IH]; cbn [dict_set dict_get].
  - rewrite (FallbackOrder.eqb_false k' k Hne). reflexivity.
  - destruct (String.eqb_spec k k0) as [<- | Hk]; cbn [dict_get].
    + rewrite (FallbackOrder.eqb_false k' k Hne). reflexivity.
    + destruct (String.eqb k' k0); [reflexivity | exact IH].
Qed.

Lemma dict_get_none_keys {A} key (d : list (string * A)) :
  dict_get key d = None -> ~ key ∈ dict_keys d.
Proof.
  unfold dict_keys. induction d as [| [k v] d IH]; cbn [dict_get map fst].
  - intros _ H. inversion H.
  - destruct (String.eqb_spec key k) as [-> | Hne]; [discriminate |].
    intros Hget Hin. apply elem_of_cons in Hin. destruct Hin as [Heq | Hin].
    + congruence.
    + exact (IH Hget Hin).
Qed.

Section WithRuntime.
Context `{IN : Interpreter} `{RT : PyRuntime} `{W : World}.

Lemma embedded_from_length t docs docs' :
  embedded_from t docs docs' -> length docs' = length docs.
Proof. induction 1; cbn; congruence. Qed.

(** One turn of the loop when the service answers, and when it raises. *)
Lemma embed_loop_step done d title body e rest s :
  dict_get "title" d = Some (JStr title) ->
  dict_get "content" d = Some body ->
  embeddings_create (tick s) (JStr (text_to_embed (JStr title) body)) = Ok e ->
  embed_loop done (JObj d :: rest) s
  = embed_loop (done ++ [set_embedding e (JObj d)]) rest
      (set_knowledge_base (JArr (done ++ set_embedding e (JObj d) :: rest))
         (set_tick (S (tick s)) s)).
Proof.
  intros Htitle Hbody He. cbn [embed_loop].
  unfold bind, lift, getitem, get_embedding, next_tick, modify.
  rewrite Htitle, Hbody. unfold bind, lift. rewrite He. reflexivity.
Qed.

Lemma embed_loop_step_raises done d title body e rest s :
  dict_get "title" d = Some (JStr title) ->
  dict_get "content" d = Some body ->
  embeddings_create (tick s) (JStr (text_to_embed (JStr title) body)) = Raise e ->
  embed_loop done (JObj d :: rest) s = (Raise e, set_tick (S (tick s)) s).
Proof.
  intros Htitle Hbody He. cbn [embed_loop].
  unfold bind, lift, getitem, get_embedding, next_tick, modify.
  rewrite Htitle, Hbody. unfold bind, lift. rewrite He. reflexivity.
Qed.

(** The loop over a stretch of documents that the service answers for. *)
Lemma embed_loop_run pre pre' rest : forall done s,
  embedded_from (tick s) pre pre' ->
  knowledge_base s = JArr (done ++ pre ++ rest) ->
  exists s',
    embed_loop done (pre ++ rest) s = embed_loop (done ++ pre') rest s'
    /\ knowledge_base s' = JArr (done ++ pre' ++ rest)
    /\ tick s' = (tick s + length pre)%nat
    /\ same_but_knowledge_base s s'.
Proof.
  intros done s Hemb. remember (tick s) as t eqn:Ht. revert done s Ht.
  induction Hemb as [t | t d title body e docs docs' Htitle Hbody He Hemb IH];
    intros done s Ht Hkb.
  - exists s. cbn [app]. rewrite !app_nil_r. split; [reflexivity |].
    split; [rewrite Hkb; cbn [app]; reflexivity |].
    split; [cbn; lia |]. repeat split; reflexivity.
  - subst t. cbn [app].
    rewrite (embed_loop_step done d title body e (docs ++ rest) s Htitle Hbody He).
    destruct (IH (done ++ [set_embedding e (JObj d)])
                (set_knowledge_base
                   (JArr (done ++ set_embedding e (JObj d) :: docs ++ rest))
                   (set_tick (S (tick s)) s)))
      as (s' & Hrun & Hkb' & Htick & Hsame).
    { reflexivity. }
    { cbn [knowledge_base set_knowledge_base]. rewrite <- app_assoc. reflexivity. }
    exists s'. split; [rewrite Hrun, <- app_assoc; reflexivity |].
    split; [rewrite Hkb', <- app_assoc; reflexivity |].
    split; [rewrite Htick; cbn; lia |].
    exact Hsame.
Qed.

(** The whole run when the service answers for every document. *)
Lemma embed_knowledge_base_run s docs docs' :
  knowledge_base s = JArr docs ->
  embedded_from (tick s) docs docs' ->
  exists s',
    embed_knowledge_base s = (Ok (JArr docs'), s')
    /\ knowledge_base s' = JArr docs'
    /\ tick s' = (tick s + length docs)%nat
    /\ same_but_knowledge_base s s'.
Proof.
  intros Hkb Hemb.
  destruct (embed_loop_run docs docs' [] [] s Hemb) as (s' & Hrun & Hkb' & Htick & Hsame).
  { rewrite Hkb, app_nil_r. reflexivity. }
  rewrite !app_nil_r in *. cbn [app] in *.
  exists s'. split.
  { unfold embed_knowledge_base. unfold bind at 1. unfold get at 1. rewrite Hkb.
    unfold bind at 1. unfold lift at 1. cbn [py_len].
    unfold bind at 1. rewrite Hrun. cbn [embed_loop]. unfold ret at 1.
    unfold bind, get, ret. rewrite Hkb'. reflexivity. }
  split; [exact Hkb' |]. split; [exact Htick | exact Hsame].
Qed.

(** X13: when the knowledge base is a list of documents that are dicts with
    a string title and a content, and the embedding service answers for each,
    [embed_knowledge_base] returns the list with one embedding stored per
    document, after one request per document and with nothing else changed;
    every other key of every document is kept, every document then has an
    embedding, and the guard of the search is passed. *)
Theorem embed_knowledge_base_embeds_all s docs docs' :
  knowledge_base s = JArr docs ->
  embedded_from (tick s) docs docs' ->
  exists s',
    embed_knowledge_base s = (Ok (JArr docs'), s')
    /\ knowledge_base s' = JArr docs'
    /\ tick s' = (tick s + length docs)%nat
    /\ same_but_knowledge_base s s'
    /\ length docs' = length docs
    /\ Forall (fun doc' => is_ok (getitem doc' "embedding") = true) docs'
    /\ Forall2 (fun doc doc' =>
                  forall k, k <> "embedding" -> getitem doc' k = getitem doc k)
         docs docs'
    /\ (docs <> [] -> is_embedded (JArr docs') = Ok true).
Proof.
  intros Hkb Hemb.
  destruct (embed_knowledge_base_run s docs docs' Hkb Hemb)
    as (s' & Hrun & Hkb' & Htick & Hsame).
  exists s'. split; [exact Hrun |].
  split; [exact Hkb' |]. split; [exact Htick |]. split; [exact Hsame |].
  split; [eapply embedded_from_length; exact Hemb |].
  assert (Hall : Forall (fun doc' => is_ok (getitem doc' "embedding") = true) docs').
  { clear -Hemb. induction Hemb; constructor; [| assumption].
    cbn [set_embedding getitem]. rewrite dict_get_set_eq. reflexivity. }
  split; [exact Hall |]. split.
  - clear -Hemb. induction Hemb; constructor; [| assumption].
    intros k Hk. cbn [set_embedding getitem]. rewrite dict_get_set_ne by exact Hk.
    reflexivity.
  - intros Hne. destruct Hemb as [| t d title body e docs docs' Htitle Hbody He Hemb];
      [congruence |].
    unfold is_embedded. cbn [truthy negb set_embedding py_in]. f_equal.
    apply bool_decide_eq_true_2.
    eapply Retrieval.dict_get_in_keys, dict_get_set_eq.
Qed.

(** X14: when the embedding service raises for a document, the error is
    raised by [embed_knowledge_base] and the work done so far stays: the
    documents before it keep their new embeddings, that document and the ones
    after it are as they were. *)
Theorem embed_knowledge_base_stops_at_failure s pre pre' d title body post e :
  knowledge_base s = JArr (pre ++ JObj d :: post) ->
  embedded_from (tick s) pre pre' ->
  dict_get "title" d = Some (JStr title) ->
  dict_get "content" d = Some body ->
  embeddings_create (tick s + length pre)%nat (JStr (text_to_embed (JStr title) body))
  = Raise e ->
  exists s',
    embed_knowledge_base s = (Raise e, s')
    /\ knowledge_base s' = JArr (pre' ++ JObj d :: post)
    /\ same_but_knowledge_base s s'.
Proof.
  intros Hkb Hemb Htitle Hbody He.
  destruct (embed_loop_run pre pre' (JObj d :: post) [] s Hemb)
    as (s1 & Hrun & Hkb1 & Htick & Hsame).
  { rewrite Hkb. reflexivity. }
  cbn [app] in *.
  exists (set_tick (S (tick s1)) s1). split.
  { unfold embed_knowledge_base. unfold bind at 1. unfold get at 1. rewrite Hkb.
    unfold bind at 1. unfold lift at 1. cbn [py_len].
    unfold bind at 1. rewrite Hrun.
    rewrite (embed_loop_step_raises pre' d title body e post s1 Htitle Hbody).
    - reflexivity.
    - rewrite Htick. exact He. }
  split; [exact Hkb1 |].
  destruct Hsame as (H1 & H2 & H3 & H4 & H5 & H6 & H7 & H8).
  repeat split; assumption.
Qed.

Lemma score_all_stops qe pre scored doc post e :
  score_all qe pre = Ok scored ->
  getitem doc "embedding" = Raise e ->
  score_all qe (pre ++ doc :: post) = Raise e.
Proof.
  revert scored. induction pre as [| p pre IH]; intros scored Hs Hdoc.
  - cbn [app score_all]. rewrite Hdoc. reflexivity.
  - cbn [app score_all] in *.
    destruct (getitem p "embedding") as [emb |]; [| discriminate].
    destruct (cosine_similarity qe emb) as [sim |]; [| discriminate].
    destruct (score_all qe pre) as [rest |]; [| discriminate].
    rewrite (IH rest eq_refl Hdoc). reflexivity.
Qed.

(** X15: the guard of the search looks at the first document only.  When the
    first documents have embeddings and a later document is a dict without
    the key embedding, the search does not answer "not ready" with an empty
    list: it raises KeyError('embedding'), and so does
    [search_airline_policies]. *)
Theorem search_raises_on_partly_embedded_corpus query k s first pre scored d post qe :
  knowledge_base s = JArr (first :: pre ++ JObj d :: post) ->
  embeddings_create (tick s) query = Ok qe ->
  score_all qe (first :: pre) = Ok scored ->
  dict_get "embedding" d = None ->
  fst (search_knowledge_base query k s) = Raise (KeyError "embedding")
  /\ fst (search_airline_policies query s) = Raise (KeyError "embedding").
Proof.
  intros Hkb Hq Hs Hd.
  assert (Hsearch : forall k', fst (search_knowledge_base query k' s)
                               = Raise (KeyError "embedding")).
  { intros k'. unfold search_knowledge_base, bind, get. rewrite Hkb.
    unfold lift at 1.
    pose proof (Retrieval.scored_corpus_is_embedded _ _ _ _ Hs) as Hemb.
    unfold is_embedded in *. cbn [truthy negb] in *. rewrite Hemb. cbn [negb].
    unfold get_embedding, bind, next_tick, lift. rewrite Hq.
    change (first :: pre ++ JObj d :: post) with ((first :: pre) ++ JObj d :: post).
    rewrite (score_all_stops qe (first :: pre) scored (JObj d) post (KeyError "embedding") Hs).
    - reflexivity.
    - unfold getitem. rewrite Hd. reflexivity. }
  split; [apply Hsearch |].
  unfold search_airline_policies, bind. specialize (Hsearch 3).
  destruct (search_knowledge_base query 3 s) as [[results | e] s']; cbn [fst] in *;
    [discriminate | inversion Hsearch; reflexivity].
Qed.

(** X16: before the documents are embedded the engine is "not ready": when
    the knowledge base is the empty list, or a list whose first document is a
    dict without the key embedding, the search returns the empty list and
    [search_airline_policies] the "not found" text, without asking the
    embedding service and without changing anything. *)
Theorem search_not_ready query k s docs :
  knowledge_base s = JArr docs ->
  docs = [] \/ (exists d rest, docs = JObj d :: rest /\ dict_get "embedding" d = None) ->
  search_knowledge_base query k s = (Ok [], s)
  /\ search_airline_policies query s = (Ok NOT_FOUND, s).
Proof.
  intros Hkb Hdocs.
  assert (Hguard : is_embedded (JArr docs) = Ok false).
  { destruct Hdocs as [-> | (d & rest & -> & Hd)]; [reflexivity |].
    unfold is_embedded. cbn [truthy negb py_in]. f_equal.
    apply bool_decide_eq_false_2, dict_get_none_keys, Hd. }
  assert (Hsearch : forall k', search_knowledge_base query k' s = (Ok [], s)).
  { intros k'. unfold search_knowledge_base, bind, get. rewrite Hkb.
    unfold lift at 1. rewrite Hguard. reflexivity. }
  split; [apply Hsearch |].
  unfold search_airline_policies, bind. rewrite Hsearch. reflexivity.
Qed.

(** What the set-up does to a component that the knowledge base and the
    interaction counter do not affect. *)
Lemma embed_loop_preserves {X} (f : state -> X) todo : forall done,
  (forall n s, f (set_tick n s) = f s) ->
  (forall kb s, f (set_knowledge_base kb s) = f s) ->
  preserves f (embed_loop done todo).
Proof.
  induction todo as [| doc todo IH]; intros done Ht Hk; cbn [embed_loop].
  - apply Frame.preserves_ret.
  - unfold get_embedding.
    repeat first
      [ apply IH; assumption
      | apply Frame.preserves_lift
      | apply Frame.preserves_next_tick; assumption
      | apply Frame.preserves_modify; intros; apply Hk
      | apply Frame.preserves_bind; [| intros] ].
Qed.

Lemma embed_knowledge_base_preserves {X} (f : state -> X) :
  (forall n s, f (set_tick n s) = f s) ->
  (forall kb s, f (set_knowledge_base kb s) = f s) ->
  preserves f embed_knowledge_base.
Proof.
  intros Ht Hk. unfold embed_knowledge_base.
  apply Frame.preserves_bind; [apply Frame.preserves_get | intros s0].
  apply Frame.preserves_bind; [apply Frame.preserves_lift | intros _].
  destruct (knowledge_base s0) as [| | | | | text | docs | d];
    try apply Frame.preserves_ret.
  - destruct (String.eqb text EmptyString);
      [apply Frame.preserves_ret | apply Frame.preserves_raise].
  - apply Frame.preserves_bind; [apply embed_loop_preserves; assumption | intros _].
    apply Frame.preserves_bind; [apply Frame.preserves_get | intros].
    apply Frame.preserves_ret.
  - destruct d; [apply Frame.preserves_ret | apply Frame.preserves_raise].
Qed.

(** X17: the set-up of the knowledge base never writes the snapshot.  It
    changes no file at all; when the file knowledge_base.json is absent it
    never ends ready: an error of the embedding stops it, or else the use of
    [save_knowledge_base], a name that app.py does not import, raises
    NameError after all the documents were embedded. *)
Theorem startup_never_saves s :
  files (snd (startup s)) = files s
  /\ (files s !! "knowledge_base.json" = None ->
      fst (startup s) <> StartupReady
      /\ (forall docs', embedded_from (tick s) catalog docs' ->
          fst (startup s) = StartupNameError "save_knowledge_base"
          /\ knowledge_base (snd (startup s)) = JArr docs')).
Proof.
  split.
  - unfold startup. cbn [initialize_knowledge_base].
    unfold initialize_knowledge_base, bind, modify, ret.
    set (s1 := set_knowledge_base (JArr catalog) s).
    assert (H1 : files s1 = files s) by reflexivity.
    assert (Hload : files (snd (load_knowledge_base "knowledge_base.json" s1)) = files s1).
    { unfold load_knowledge_base, try_except, bind, get, lift, modify, ret, raise.
      destruct (files s1 !! "knowledge_base.json") as [text |]; [| reflexivity].
      destruct (loads text) as [kb | e]; [| destruct e; reflexivity].
      destruct (py_len kb) as [n | e]; [reflexivity | destruct e; reflexivity]. }
    destruct (load_knowledge_base "knowledge_base.json" s1) as [[[|] | e] s2];
      cbn [snd] in *; try congruence.
    pose proof (embed_knowledge_base_preserves files ltac:(reflexivity)
                  ltac:(reflexivity) s2) as Hemb.
    destruct (embed_knowledge_base s2) as [[kb | e] s3]; cbn [snd] in *; congruence.
  - intros Hnone.
    assert (Hrun : startup s =
                   match embed_knowledge_base (set_knowledge_base (JArr catalog) s) with
                   | (Raise e, s3) => (StartupRaised e, s3)
                   | (Ok _, s3) => (StartupNameError "save_knowledge_base", s3)
                   end).
    { unfold startup, initialize_knowledge_base, bind, modify, ret.
      unfold load_knowledge_base, try_except, bind, get.
      cbn [files set_knowledge_base]. rewrite Hnone. reflexivity. }
    rewrite Hrun. split.
    + destruct (embed_knowledge_base _) as [[kb | e] s3]; discriminate.
    + intros docs' Hemb.
      destruct (embed_knowledge_base_run
                  (set_knowledge_base (JArr catalog) s) catalog docs'
                  eq_refl Hemb) as (s' & Hembed & Hkb & _).
      rewrite Hembed. split; [reflexivity | exact Hkb].
Qed.

End WithRuntime.

Import Scenario.

(** Just after [initialize_knowledge_base] no document has an embedding. *)
Lemma search_not_ready_witness :
  search_airline_policies (RT := scripted_runtime) (W := world_down)
    (JStr "baggage") initial_state = (Ok NOT_FOUND, initial_state).
Proof.
  apply (search_not_ready (RT := scripted_runtime) (W := world_down)
           (JStr "baggage") 3 initial_state catalog eq_refl).
  right. unfold catalog, document. eexists _, _. split; reflexivity.
Defined.

(** Two documents, both embedded by the scripted service. *)
Lemma embed_knowledge_base_embeds_all_witness :
  exists s',
    embed_knowledge_base (RT := scripted_runtime) (W := world_down)
      (with_corpus [document "a" "Test" "Alpha" "first";
                    document "b" "Test" "Beta" "second"])
    = (Ok (JArr [set_embedding [1%Q] (document "a" "Test" "Alpha" "first");
                 set_embedding [1%Q] (document "b" "Test" "Beta" "second")]), s')
    /\ tick s' = 2%nat.
Proof.
  destruct (embed_knowledge_base_embeds_all (RT := scripted_runtime) (W := world_down)
              (with_corpus [document "a" "Test" "Alpha" "first";
                            document "b" "Test" "Beta" "second"])
              [document "a" "Test" "Alpha" "first"; document "b" "Test" "Beta" "second"]
              [set_embedding [1%Q] (document "a" "Test" "Alpha" "first");
               set_embedding [1%Q] (document "b" "Test" "Beta" "second")])
    as (s' & Hrun & _ & Htick & _).
  - reflexivity.
  - unfold document.
    eapply (embedded_cons (RT := scripted_runtime) (W := world_down));
      [reflexivity | reflexivity | reflexivity |].
    eapply (embedded_cons (RT := scripted_runtime) (W := world_down));
      [reflexivity | reflexivity | reflexivity |].
    apply embedded_nil.
  - exists s'. split; [exact Hrun | exact Htick].
Defined.

(** The first document is embedded, the second is not. *)
Lemma search_raises_on_partly_embedded_corpus_witness :
  fst (search_airline_policies (RT := scripted_runtime) (W := world_down)
         (JStr "baggage")
         (with_corpus [embedded_document "a" "Alpha" "first" (1 # 2);
                       document "b" "Test" "Beta" "second"]))
  = Raise (KeyError "embedding").
Proof.
  destruct (search_raises_on_partly_embedded_corpus (RT := scripted_runtime)
              (W := world_down) (JStr "baggage") 3
              (with_corpus [embedded_document "a" "Alpha" "first" (1 # 2);
                            document "b" "Test" "Beta" "second"])
              (embedded_document "a" "Alpha" "first" (1 # 2)) []
              [Scored (embedded_document "a" "Alpha" "first" (1 # 2)) (1 # 2)]
              [("id", JStr "b"); ("category", JStr "Test"); ("title", JStr "Beta");
               ("content", JStr "second")]
              [] [1%Q]) as (_ & Hpolicies);
    [reflexivity | reflexivity | reflexivity | reflexivity | exact Hpolicies].
Defined.

(** The service answers for the first document and raises for the second. *)
Lemma embed_knowledge_base_stops_at_failure_witness :
  exists s',
    embed_knowledge_base (RT := scripted_runtime) (W := world_embedding_once)
      (with_corpus [document "a" "Test" "Alpha" "first";
                    document "b" "Test" "Beta" "second"])
    = (Raise (Exception "Rate limit reached"), s')
    /\ knowledge_base s'
       = JArr [set_embedding [1%Q] (document "a" "Test" "Alpha" "first");
               document "b" "Test" "Beta" "second"].
Proof.
  destruct (embed_knowledge_base_stops_at_failure (RT := scripted_runtime)
              (W := world_embedding_once)
              (with_corpus [document "a" "Test" "Alpha" "first";
                            document "b" "Test" "Beta" "second"])
              [document "a" "Test" "Alpha" "first"]
              [set_embedding [1%Q] (document "a" "Test" "Alpha" "first")]
              [("id", JStr "b"); ("category", JStr "Test"); ("title", JStr "Beta");
               ("content", JStr "second")]
              "Beta" (JStr "second") [] (Exception "Rate limit reached"))
    as (s' & Hrun & Hkb & _).
  - reflexivity.
  - unfold document.
    eapply (embedded_cons (RT := scripted_runtime) (W := world_embedding_once));
      [reflexivity | reflexivity | reflexivity | apply embedded_nil].
  - reflexivity.
  - reflexivity.
  - reflexivity.
  - exists s'. split; [exact Hrun | exact Hkb].
Defined.

(** A first start, without snapshot and with an embedding service that
    answers: all documents are embedded, then NameError. *)
Lemma startup_never_saves_witness :
  fst (startup (RT := scripted_runtime) (W := world_down) initial_state)
  = StartupNameError "save_knowledge_base"
  /\ files (snd (startup (RT := scripted_runtime) (W := world_down) initial_state))
     = files initial_state.
Proof.
  destruct (startup_never_saves (RT := scripted_runtime) (W := world_down) initial_state)
    as (Hfiles & Habsent).
  split; [| exact Hfiles].
  destruct (Habsent eq_refl) as (_ & Hname).
  eapply Hname. unfold catalog, document.
  repeat (eapply (embedded_cons (RT := scripted_runtime) (W := world_down));
          [reflexivity | reflexivity | reflexivity |]).
  apply embedded_nil.
Defined.

End CorpusFacts.

(** *** Failures inside an exchange *)

Module ExchangeFailures.

Section WithRuntime.
Context `{IN : Interpreter} `{RT : PyRuntime} `{W : World}.

(** Arguments that do not decode make every tool call raise the decoder's
    error, with nothing changed. *)
Lemma execute_tool_call_undecodable tool_name tool_arguments e s :
  loads tool_arguments = Raise e ->
  execute_tool_call tool_name tool_arguments s = (Raise e, s).
Proof.
  intros He. unfold execute_tool_call.
  destruct (String.eqb tool_name "search_airline_policies").
  { unfold bind, lift. rewrite He. reflexivity. }
  destruct (String.eqb tool_name "get_destination_image");
    unfold execute_tool, bind, lift; rewrite He; reflexivity.
Qed.

(** The loop stops at the first call that raises. *)
Lemma run_tool_calls_stops pre call post e s results s2 s3 : forall messages used,
  resolved pre s results s2 ->
  execute_tool_call (tc_name call) (tc_arguments call) s2 = (Raise e, s3) ->
  run_tool_calls (pre ++ call :: post) messages used s = (Raise e, s3).
Proof.
  intros messages used Hres. revert messages used.
  induction Hres as [s | c calls s result s1 results s' Hrun _ IH];
    intros messages used Hcall.
  - cbn [app run_tool_calls]. unfold bind. rewrite Hcall. reflexivity.
  - cbn [app run_tool_calls]. unfold bind at 1. rewrite Hrun. apply IH, Hcall.
Qed.

(** X18: a tool call that raises ends the tool-calling loop: when, after
    calls that returned, a call raises (as every call does whose arguments are
    not JSON), [chat_with_tools] raises that error after its single
    submission; the results obtained so far are not sent back and no text is
    returned. *)
Theorem tool_failure_aborts_round um hist s first pre call post results s2 e s3 :
  let request1 := ChatRequest OPENAI_MODEL (first_messages um hist) (Some all_tools) in
  let s1 := set_tick (S (tick s)) (set_sent_requests (sent_requests s ++ [request1]) s) in
  chat_completions_create (tick s) request1 = Ok first ->
  finish_reason first = "tool_calls" ->
  rm_tool_calls (choice_message first) = Some (pre ++ call :: post) ->
  resolved pre s1 results s2 ->
  execute_tool_call (tc_name call) (tc_arguments call) s2 = (Raise e, s3) ->
  chat_with_tools um hist s = (Raise e, s3)
  /\ sent_requests s3 = sent_requests s ++ [request1]
  /\ (forall e', loads (tc_arguments call) = Raise e' -> e = e' /\ s3 = s2).
Proof.
  intros request1 s1 H1 Hfin Hcalls Hres Hcall.
  split; [| split].
  - unfold chat_with_tools. fold (first_messages um hist). fold request1.
    unfold bind at 1. rewrite ToolLoop.create_run, H1. fold s1.
    rewrite Hfin. cbn [String.eqb Ascii.eqb Bool.eqb]. rewrite Hcalls.
    unfold bind at 1.
    rewrite (run_tool_calls_stops pre call post e s1 results s2 s3 _ _ Hres Hcall).
    reflexivity.
  - pose proof (Frame.execute_tool_call_preserves sent_requests ltac:(reflexivity)
                  ltac:(reflexivity) ltac:(reflexivity)
                  (tc_name call) (tc_arguments call) s2) as Hf.
    rewrite Hcall in Hf. cbn [snd] in Hf.
    rewrite Hf, (ToolLoop.resolved_requests _ _ _ _ Hres). reflexivity.
  - intros e' He'.
    rewrite (execute_tool_call_undecodable _ _ e' s2 He') in Hcall.
    inversion Hcall. split; reflexivity.
Qed.

(** X19: a backend that is not configured fails at once, without any
    request: [chat_claude] raises "Claude client not initialized" and
    [chat_gemini] raises "Gemini not configured", with nothing changed.  So
    when neither is configured and the request of openai raises, the exchange
    preferring openai ends with the degraded answer, and both the notification
    and the log record carry "Gemini not configured", the last error, not the
    error of openai. *)
Theorem unconfigured_backends_hide_primary_error um hist s e :
  claude_client = false ->
  GOOGLE_API_KEY = false ->
  chat_completions_create (S (tick s))
    (ChatRequest OPENAI_MODEL (first_messages um hist) (Some all_tools)) = Raise e ->
  (forall s0, chat_claude um hist s0
              = (Raise (Exception "Claude client not initialized"), s0))
  /\ (forall s0, chat_gemini um hist s0
                 = (Raise (Exception "Gemini not configured"), s0))
  /\ exists n entry s',
       chat_with_fallback um hist "openai" s
       = (Ok (Some error_response, "none", []), s')
       /\ sent_notifications s' = sent_notifications s ++ [n]
       /\ n_message n = Some "Gemini not configured"
       /\ audit_logs s' = audit_logs s ++ [entry]
       /\ le_error entry = Some "Gemini not configured".
Proof.
  intros Hclaude Hgemini Hopenai.
  assert (Hc : forall s0, chat_claude um hist s0
                          = (Raise (Exception "Claude client not initialized"), s0)).
  { intros s0. unfold chat_claude. rewrite Hclaude. reflexivity. }
  assert (Hg : forall s0, chat_gemini um hist s0
                          = (Raise (Exception "Gemini not configured"), s0)).
  { intros s0. unfold chat_gemini. rewrite Hgemini. reflexivity. }
  split; [exact Hc |]. split; [exact Hg |].
  assert (Hall : exists s1,
             all_failed um hist ["openai"; "claude"; "gemini"] None s
               (Some "Gemini not configured") s1).
  { eexists.
    eapply all_failed_raise.
    { rewrite Fallback.attempt_unfold. unfold dispatch.
      cbn [String.eqb Ascii.eqb Bool.eqb]. unfold bind at 1.
      unfold chat_with_tools. fold (first_messages um hist).
      unfold bind at 1. rewrite ToolLoop.create_run.
      cbn [tick set_tick]. rewrite Hopenai. reflexivity. }
    eapply all_failed_raise.
    { rewrite Fallback.attempt_unfold. unfold dispatch.
      cbn [String.eqb Ascii.eqb Bool.eqb]. unfold bind at 1.
      rewrite Hc. reflexivity. }
    eapply all_failed_raise.
    { rewrite Fallback.attempt_unfold. unfold dispatch.
      cbn [String.eqb Ascii.eqb Bool.eqb]. unfold bind at 1.
      rewrite Hg. reflexivity. }
    apply all_failed_nil. }
  destruct Hall as [s1 Hall].
  pose proof (Fallback.try_models_all_failed um hist _ _ _ _ _ [] Hall) as Hrun.
  rewrite app_nil_r in Hrun.
  pose proof (Fallback.all_failed_preserves sent_notifications um hist _ _ _ _ _
                ltac:(reflexivity) ltac:(reflexivity) ltac:(reflexivity)
                ltac:(reflexivity) Hall) as Hsent.
  pose proof (Fallback.all_failed_preserves audit_logs um hist _ _ _ _ _
                ltac:(reflexivity) ltac:(reflexivity) ltac:(reflexivity)
                ltac:(reflexivity) Hall) as Hlogs.
  unfold chat_with_fallback.
  change (models_to_try "openai") with ["openai"; "claude"; "gemini"].
  rewrite Hrun, Fallback.try_models_nil. cbv zeta.
  eexists _, _, _. split; [reflexivity |].
  cbn [sent_notifications audit_logs set_delivered set_sent_notifications set_tick
       set_analytics_data set_audit_logs n_message le_error].
  rewrite Hsent, Hlogs. repeat split; reflexivity.
Qed.

End WithRuntime.

Section WithFrontend.
Context `{IN : Interpreter} `{RT : PyRuntime} `{W : World} `{FE : Frontend}.

(** X20: [text_to_speech] never raises.  When the speech service raises it
    returns None and no file is touched; a path is returned only after the
    audio of the first 4000 characters was written, and the path is always
    response_audio.mp3. *)
Theorem text_to_speech_never_raises text s :
  exists path s',
    text_to_speech text s = (Ok path, s')
    /\ (forall e, speech_create (tick s) (Py.slice_to 4000 text) = Raise e ->
        path = None /\ files s' = files s)
    /\ (path <> None ->
        exists audio,
          path = Some "response_audio.mp3"
          /\ speech_create (tick s) (Py.slice_to 4000 text) = Ok audio
          /\ files s' = <["response_audio.mp3" := audio]> (files s)).
Proof.
  unfold text_to_speech, try_except, bind, next_tick, lift.
  destruct (speech_create (tick s) (Py.slice_to 4000 text)) as [audio | e] eqn:Hs.
  - cbn [tick set_tick].
    destruct (write_file (S (tick s)) "response_audio.mp3") as [[] | e].
    + eexists _, _. split; [reflexivity |]. split; [discriminate |].
      intros _. exists audio. repeat split; reflexivity.
    + eexists _, _. split; [reflexivity |]. split; [discriminate |].
      intros Hp. exfalso. apply Hp. reflexivity.
  - eexists _, _. split; [reflexivity |]. split.
    + intros e' _. split; reflexivity.
    + intros Hp. exfalso. apply Hp. reflexivity.
Qed.

(** X21: a message that is empty once stripped is answered with the empty
    text at once: no backend is asked, nothing is logged, nothing changes.
    Any other message, with the voice off, gets the answer of
    [chat_with_fallback] for the backend of the chosen label, openai when the
    label is unknown, and the image search is made only when the image tool
    was used. *)
Theorem gradio_chat_outcomes message history model_choice s :
  (str_strip message = EmptyString ->
   forall enable_voice,
     gradio_chat message history model_choice enable_voice s
     = (Ok (Some EmptyString, None, None), s))
  /\ In (model_of_choice model_choice) all_models
  /\ (model_choice <> "Claude (Sonnet)" -> model_choice <> "Gemini (Flash)" ->
      model_of_choice model_choice = "openai")
  /\ (str_strip message <> EmptyString ->
      exists text model tools s',
        chat_with_fallback message
          (map (fun msg => Turn (role msg) (content msg)) history)
          (model_of_choice model_choice) s
        = (Ok (Some text, model, tools), s')
        /\ (~ "get_destination_image" ∈ tools ->
            gradio_chat message history model_choice false s
            = (Ok (Some text, None, None), s'))).
Proof.
  split; [| split; [| split]].
  - intros Hblank enable_voice. unfold gradio_chat. rewrite Hblank. reflexivity.
  - unfold model_of_choice.
    destruct (String.eqb model_choice "OpenAI (GPT-4o-mini)"); [left; reflexivity |].
    destruct (String.eqb model_choice "Claude (Sonnet)"); [right; left; reflexivity |].
    destruct (String.eqb model_choice "Gemini (Flash)");
      [right; right; left; reflexivity | left; reflexivity].
  - intros H1 H2. unfold model_of_choice.
    destruct (String.eqb model_choice "OpenAI (GPT-4o-mini)"); [reflexivity |].
    rewrite (FallbackOrder.eqb_false _ _ H1), (FallbackOrder.eqb_false _ _ H2).
    reflexivity.
  - intros Hmsg.
    destruct (Exchange.try_models_outcome
                (models_to_try (model_of_choice model_choice)) None message
                (map (fun msg => Turn (role msg) (content msg)) history) s)
      as (text & model & tools & entry & lt & lm & rt & err & s' & Hrun & _).
    change (chat_with_fallback message
              (map (fun msg => Turn (role msg) (content msg)) history)
              (model_of_choice model_choice) s
            = (Ok (Some text, model, tools), s')) in Hrun.
    exists text, model, tools, s'. split; [exact Hrun |].
    intros Htools. unfold gradio_chat.
    rewrite (FallbackOrder.eqb_false _ _ Hmsg).
    unfold bind at 1. rewrite Hrun.
    rewrite (bool_decide_eq_false_2 _ Htools). reflexivity.
Qed.

End WithFrontend.

Import Scenario.

(** OpenAI asks for a tool with the arguments "{". *)
Lemma tool_failure_aborts_round_witness :
  exists msg pos s3,
    chat_with_tools (RT := scripted_runtime) (W := world_bad_arguments)
      "Is EQ101 on time?" [] initial_state = (Raise (JSONDecodeError msg pos), s3)
    /\ length (sent_requests s3) = 1%nat.
Proof.
  assert (Hloads : exists msg pos, loads "{" = Raise (JSONDecodeError msg pos))
    by (eexists _, _; vm_compute; reflexivity).
  destruct Hloads as (msg & pos & Hloads).
  destruct (tool_failure_aborts_round (RT := scripted_runtime) (W := world_bad_arguments)
              "Is EQ101 on time?" [] initial_state
              (Completion "tool_calls"
                 (ResponseMessage None
                    (Some [ToolCall "call_1" "get_flight_status" "{"])))
              [] (ToolCall "call_1" "get_flight_status" "{") [] []
              (set_tick 1 (set_sent_requests
                             [ChatRequest OPENAI_MODEL
                                (first_messages "Is EQ101 on time?" [])
                                (Some all_tools)] initial_state))
              (JSONDecodeError msg pos)
              (set_tick 1 (set_sent_requests
                             [ChatRequest OPENAI_MODEL
                                (first_messages "Is EQ101 on time?" [])
                                (Some all_tools)] initial_state)))
    as (Hrun & Hreq & _).
  - reflexivity.
  - reflexivity.
  - reflexivity.
  - apply resolved_nil.
  - apply (execute_tool_call_undecodable (RT := scripted_runtime)
             (W := world_bad_arguments)). exact Hloads.
  - exists msg, pos. eexists. split; [exact Hrun |]. rewrite Hreq. reflexivity.
Defined.

(** OpenAI is down; Claude and Gemini are not configured. *)
Lemma unconfigured_backends_hide_primary_error_witness :
  exists n entry s',
    chat_with_fallback (RT := scripted_runtime) (W := world_openai_only_down)
      "hi" [] "openai" initial_state = (Ok (Some error_response, "none", []), s')
    /\ sent_notifications s' = sent_notifications initial_state ++ [n]
    /\ n_message n = Some "Gemini not configured"
    /\ audit_logs s' = audit_logs initial_state ++ [entry]
    /\ le_error entry = Some "Gemini not configured".
Proof.
  destruct (unconfigured_backends_hide_primary_error (RT := scripted_runtime)
              (W := world_openai_only_down) "hi" [] initial_state
              (Exception "Connection error.")
              ltac:(reflexivity) ltac:(reflexivity) ltac:(reflexivity))
    as (_ & _ & H).
  exact H.
Defined.

(** The speech service is down. *)
Lemma text_to_speech_never_raises_witness :
  exists s',
    text_to_speech (W := world_down) (FE := silent_frontend)
      "Welcome aboard" initial_state = (Ok None, s')
    /\ files s' = files initial_state.
Proof.
  destruct (text_to_speech_never_raises (W := world_down)
              (FE := silent_frontend) "Welcome aboard" initial_state)
    as (path & s' & Hrun & Hdown & _).
  destruct (Hdown (Exception "Connection error.") eq_refl) as (Hpath & Hfiles).
  exists s'. split; [rewrite Hrun, Hpath; reflexivity | exact Hfiles].
Defined.

(** A message of blanks only. *)
Lemma gradio_chat_outcomes_witness :
  gradio_chat (RT := scripted_runtime) (W := world_down) (FE := silent_frontend)
    "   " [] "Claude (Sonnet)" true initial_state
  = (Ok (Some EmptyString, None, None), initial_state).
Proof.
  destruct (gradio_chat_outcomes (RT := scripted_runtime) (W := world_down)
              (FE := silent_frontend) "   " [] "Claude (Sonnet)" initial_state)
    as (Hblank & _).
  apply Hblank. reflexivity.
Defined.

End ExchangeFailures.

(** *** The check of the response times *)

Module TimingFacts.

(** Rounding to an integer stays on the same side of an integer bound. *)
Lemma round_half_even_below y n :
  (y < inject_Z n + (1 # 2))%Q -> round_half_even y <= n.
Proof.
  intros Hy. unfold round_half_even.
  pose proof (Qfloor_le y) as Hf.
  assert (Hle : Qfloor y <= n).
  { assert (H : (inject_Z (Qfloor y) < inject_Z (n + 1))%Q)
      by (rewrite inject_Z_plus; change (inject_Z 1) with 1%Q; lra).
    rewrite <- Zlt_Qlt in H. lia. }
  destruct (Qcompare_spec (y - inject_Z (Qfloor y)) (1 # 2)) as [He | Hl | Hg].
  - assert (H : (inject_Z (Qfloor y) < inject_Z n)%Q) by lra.
    rewrite <- Zlt_Qlt in H. destruct (Z.even (Qfloor y)); lia.
  - exact Hle.
  - assert (H : (inject_Z (Qfloor y) < inject_Z n)%Q) by lra.
    rewrite <- Zlt_Qlt in H. lia.
Qed.

Lemma round_half_even_above y n :
  (inject_Z n <= y)%Q -> n <= round_half_even y.
Proof.
  intros Hy. unfold round_half_even.
  assert (Hle : n <= Qfloor y).
  { pose proof (Qlt_floor y) as Hf.
    assert (H : (inject_Z n < inject_Z (Qfloor y + 1))%Q) by lra.
    rewrite <- Zlt_Qlt in H. lia. }
  destruct (_ ?= _)%Q; [destruct (Z.even (Qfloor y)) | |]; lia.
Qed.

(** The comparison of the rounded milliseconds with 5000. *)
Lemma rounded_above_5000 x :
  Qle_bool (round2 x) 5000 = (round_half_even (x * 100) <=? 500000).
Proof.
  unfold Qle_bool, round2. cbn [Qnum Qden].
  destruct (Z.leb_spec (round_half_even (x * 100)) 500000);
    [apply Z.leb_le | apply Z.leb_gt]; lia.
Qed.

Section WithFormatting.
Context `{W : World} `{F : Formatting}.

Lemma check_response_time_unfold s :
  check_response_time s
  = let ms := round2 (avg_response_time (analytics_data s) * 1000) in
    if negb (Qle_bool ms 5000) then
      (Ok true,
       snd (send_notification "Slow Response Times"
              (Some ("Average response time is " +:+ format_float ms +:+ "ms"))
              "warning" s))
    else (Ok false, s).
Proof.
  unfold check_response_time, get_analytics_summary, bind, get, ret. cbv zeta.
  cbn [sm_avg_response_time_ms].
  destruct (negb (Qle_bool _ 5000)); reflexivity.
Qed.

(** X22: [check_response_time] compares the average rounded to a hundredth
    of a millisecond with 5000.  With an average of at most 5000.004 ms, so
    also slightly above five seconds, it returns False and changes nothing;
    with an average of 5000.01 ms or more it returns True and sends exactly
    one notification, "Slow Response Times", at level warning, leaving
    analytics and log as they were.  Just after [reset_analytics] it returns
    False. *)
Theorem check_response_time_outcomes s :
  let ms := (avg_response_time (analytics_data s) * 1000)%Q in
  ((ms <= 5000004 # 1000)%Q -> check_response_time s = (Ok false, s))
  /\ ((500001 # 100 <= ms)%Q ->
      exists n s',
        check_response_time s = (Ok true, s')
        /\ sent_notifications s' = sent_notifications s ++ [n]
        /\ n_title n = "Slow Response Times"
        /\ n_level n = "warning"
        /\ analytics_data s' = analytics_data s
        /\ audit_logs s' = audit_logs s)
  /\ check_response_time (snd (reset_analytics s))
     = (Ok false, snd (reset_analytics s)).
Proof.
  cbv zeta. split; [| split].
  - intros Hms. rewrite check_response_time_unfold. cbv zeta.
    rewrite rounded_above_5000.
    pose proof (round_half_even_below
                  (avg_response_time (analytics_data s) * 1000 * 100) 500000) as Hr.
    destruct (Z.leb_spec
                (round_half_even (avg_response_time (analytics_data s) * 1000 * 100))
                500000) as [_ | Hgt]; [reflexivity |].
    exfalso. assert (Hlt : (avg_response_time (analytics_data s) * 1000 * 100
                            < inject_Z 500000 + (1 # 2))%Q).
    { change (inject_Z 500000) with (500000 # 1)%Q. lra. }
    specialize (Hr Hlt). lia.
  - intros Hms. rewrite check_response_time_unfold. cbv zeta.
    rewrite rounded_above_5000.
    pose proof (round_half_even_above
                  (avg_response_time (analytics_data s) * 1000 * 100) 500001) as Hr.
    destruct (Z.leb_spec
                (round_half_even (avg_response_time (analytics_data s) * 1000 * 100))
                500000) as [Hle | _].
    { exfalso. assert (Hge : (inject_Z 500001
                              <= avg_response_time (analytics_data s) * 1000 * 100)%Q).
      { change (inject_Z 500001) with (500001 # 1)%Q. lra. }
      specialize (Hr Hge). lia. }
    cbn [negb]. eexists _, _. split; [reflexivity |].
    cbn. repeat split; reflexivity.
  - rewrite check_response_time_unfold. reflexivity.
Qed.

End WithFormatting.

(** An average of six seconds. *)
Lemma check_response_time_outcomes_witness :
  exists n s',
    check_response_time (W := Scenario.world_down)
      (F := Build_Formatting (fun _ => "0.0%") (fun _ => "6000.0"))
      (set_analytics_data (Analytics 1 ∅ ∅ 0 6 [6%Q]) Scenario.initial_state)
    = (Ok true, s')
    /\ sent_notifications s' = [n]
    /\ n_title n = "Slow Response Times"
    /\ n_level n = "warning".
Proof.
  destruct (check_response_time_outcomes (W := Scenario.world_down)
              (F := Build_Formatting (fun _ => "0.0%") (fun _ => "6000.0"))
              (set_analytics_data (Analytics 1 ∅ ∅ 0 6 [6%Q]) Scenario.initial_state))
    as (_ & Hfires & _).
  destruct Hfires as (n & s' & Hrun & Hsent & Ht & Hl & _).
  - vm_compute. discriminate.
  - exists n, s'. repeat split; assumption.
Defined.

End TimingFacts.
